(** * Click Timer: the content-script tracker ([content.js]) in Rocq

    A shallow embedding of the [ClickTimer] class: its three counters, the
    click filter, the transient on-page indicator with its auto-hide timer,
    and the best-effort persistence through [chrome.storage.local].

    JavaScript numbers are doubles.  Timestamps ([Date.now()]) and counters
    are integers far below 2^53, so they are modelled exactly by [Z] and [N];
    the one fractional quantity, the interval in seconds, is modelled by the
    exact rational [Q].  Informational [console.log] lines and the CSS styling
    of the indicator have no influence on any state and are left out;
    [console.warn] lines are kept. *)

From stdpp Require Import gmap strings list pretty.
From Stdlib Require Import QArith Qround Qabs.

Local Open Scope Z_scope.

(** ** JavaScript helpers *)

Module JS.

(** Truthiness of a value that is a number, [null] or [undefined]
    ([None] stands for both [null] and [undefined]): [0] is falsy. *)
Definition truthy (v : option Z) : bool :=
  match v with
  | Some n => negb (n =? 0)
  | None => false
  end.

(** [v || d] on numbers. *)
Definition or_default (v : option Z) (d : Z) : Z :=
  match v with
  | Some n => if n =? 0 then d else n
  | None => d
  end.

Definition or_defaultN (v : option N) (d : N) : N :=
  match v with
  | Some n => if (n =? 0)%N then d else n
  | None => d
  end.

(** [v !== undefined ? v : d]. *)
Definition if_defined {A} (v : option A) (d : A) : A :=
  match v with
  | Some b => b
  | None => d
  end.

Definition Qltb (x y : Q) : bool := negb (Qle_bool y x).

(** The integer [n] for which [n / 10^f - x] is closest to zero, the
    larger one on a tie ([x] is non-negative). *)
Definition nearest_scaled (f : nat) (x : Q) : Z :=
  Qfloor (x * inject_Z (10 ^ Z.of_nat f) + (1 # 2)).

Definition zeros (n : nat) : string :=
  String.concat "" (replicate n "0"%string).

(** Put the decimal point [f] digits from the right, padding with
    leading zeros up to [f + 1] digits. *)
Definition place_point (f : nat) (m : string) : string :=
  if (f =? 0)%nat then m
  else
    let m := if (String.length m <=? f)%nat
             then zeros (f + 1 - String.length m) +:+ m else m in
    let k := String.length m in
    String.substring 0 (k - f) m +:+ "." +:+ String.substring (k - f) f m.

(** [Number.prototype.toFixed(f)] on an exact rational.  (For
    [|x| >= 10^21] JavaScript switches to exponent notation; a difference
    of two [Date.now()] readings, at most 1.8e16 ms, never comes near.) *)
Definition toFixed (f : nat) (x : Q) : string :=
  let s := if Qltb x 0 then "-"%string else ""%string in
  let n := nearest_scaled f (Qabs x) in
  s +:+ place_point f (pretty (Z.to_N n)).

End JS.

(** ** Data *)

(** The object stored under [storageKey].  A field may be missing
    ([undefined]) or, for [lastClickTime], [null]; both are [None]. *)
Module Persisted.
Record t := mk {
  lastClickTime : option Z;
  clickCount : option N;
  isEnabled : option bool;
  timestamp : option Z
}.
End Persisted.

(** A DOM element, as far as the tracker looks at it. *)
Record Element := {
  nodeId : nat;
  localName : string;
  className : string;
  textContent : string
}.

Definition classList (el : Element) : list string := String.words (className el).

(** The fields of [this]. [storageKey] never changes and is a constant. *)
Record ClickTimer := {
  lastClickTime : option Z;
  clickCount : N;
  isEnabled : bool;
  visualIndicator : option Element;
  indicatorTimeout : option positive;
  pageLoadTime : Z
}.

Definition storageKey : string := "clickTimerData".

(** What a timer runs when it fires. The tracker only ever schedules
    [() => this.removeVisualIndicator()]. *)
Inductive Callback := CallRemoveVisualIndicator.

(** The host: clock, storage area, window, document and timers.
    - [clock] and [ticks]: the [k]-th call of [Date.now()] returns [clock k].
    - [chromeStorage]: the area behind [chrome.storage.local], [None] when
      the API is not there.
    - [storageFault k]: whether the [k]-th storage operation rejects.
    - [bodyChildren]: the elements the tracker appended to [document.body].
    - [timers]: the pending timeouts, as handle, callback and delay. *)
Record Host := {
  clock : nat → Z;
  ticks : nat;
  chromeStorage : option (gmap string Persisted.t);
  storageFault : nat → bool;
  storageCalls : nat;
  innerWidth : Z;
  innerHeight : Z;
  htmlClassName : string;
  bodyClassName : string;
  bodyChildren : list Element;
  nodesCreated : nat;
  timers : list (positive * Callback * Z);
  timersCreated : positive;
  warnings : list string
}.

Record World := { self : ClickTimer; host : Host }.

(** The target of an event by where it sits: outside [document.body]
    (detached, or [html]/[head]) or inside it.  [path] lists the target and
    its ancestors, innermost first, up to but excluding [document.body] for
    [InBody], up to the root for [Detached].  [document.body] is by
    definition a child of the document's [html] element, so an [InBody]
    path continues with those two. *)
Inductive EventTarget :=
| Detached (path : list Element)
| InBody (path : list Element).

Record Event := { target : EventTarget; clientX : Z; clientY : Z }.

Inductive Selector := TagSel (name : string) | ClassSel (name : string).

(** ** Field updates *)

Definition set_lastClickTime (v : option Z) (c : ClickTimer) : ClickTimer :=
  {| lastClickTime := v; clickCount := clickCount c; isEnabled := isEnabled c;
     visualIndicator := visualIndicator c; indicatorTimeout := indicatorTimeout c;
     pageLoadTime := pageLoadTime c |}.
Definition set_clickCount (v : N) (c : ClickTimer) : ClickTimer :=
  {| lastClickTime := lastClickTime c; clickCount := v; isEnabled := isEnabled c;
     visualIndicator := visualIndicator c; indicatorTimeout := indicatorTimeout c;
     pageLoadTime := pageLoadTime c |}.
Definition set_isEnabled (v : bool) (c : ClickTimer) : ClickTimer :=
  {| lastClickTime := lastClickTime c; clickCount := clickCount c; isEnabled := v;
     visualIndicator := visualIndicator c; indicatorTimeout := indicatorTimeout c;
     pageLoadTime := pageLoadTime c |}.
Definition set_visualIndicator (v : option Element) (c : ClickTimer) : ClickTimer :=
  {| lastClickTime := lastClickTime c; clickCount := clickCount c; isEnabled := isEnabled c;
     visualIndicator := v; indicatorTimeout := indicatorTimeout c;
     pageLoadTime := pageLoadTime c |}.
Definition set_indicatorTimeout (v : option positive) (c : ClickTimer) : ClickTimer :=
  {| lastClickTime := lastClickTime c; clickCount := clickCount c; isEnabled := isEnabled c;
     visualIndicator := visualIndicator c; indicatorTimeout := v;
     pageLoadTime := pageLoadTime c |}.

Definition tick (h : Host) : Host :=
  {| clock := clock h; ticks := S (ticks h); chromeStorage := chromeStorage h;
     storageFault := storageFault h; storageCalls := storageCalls h;
     innerWidth := innerWidth h; innerHeight := innerHeight h;
     htmlClassName := htmlClassName h; bodyClassName := bodyClassName h;
     bodyChildren := bodyChildren h; nodesCreated := nodesCreated h;
     timers := timers h; timersCreated := timersCreated h; warnings := warnings h |}.
Definition set_storage (area : option (gmap string Persisted.t)) (calls : nat) (h : Host) : Host :=
  {| clock := clock h; ticks := ticks h; chromeStorage := area;
     storageFault := storageFault h; storageCalls := calls;
     innerWidth := innerWidth h; innerHeight := innerHeight h;
     htmlClassName := htmlClassName h; bodyClassName := bodyClassName h;
     bodyChildren := bodyChildren h; nodesCreated := nodesCreated h;
     timers := timers h; timersCreated := timersCreated h; warnings := warnings h |}.
Definition set_body (children : list Element) (created : nat) (h : Host) : Host :=
  {| clock := clock h; ticks := ticks h; chromeStorage := chromeStorage h;
     storageFault := storageFault h; storageCalls := storageCalls h;
     innerWidth := innerWidth h; innerHeight := innerHeight h;
     htmlClassName := htmlClassName h; bodyClassName := bodyClassName h;
     bodyChildren := children; nodesCreated := created;
     timers := timers h; timersCreated := timersCreated h; warnings := warnings h |}.
Definition set_timers (pending : list (positive * Callback * Z)) (created : positive) (h : Host) : Host :=
  {| clock := clock h; ticks := ticks h; chromeStorage := chromeStorage h;
     storageFault := storageFault h; storageCalls := storageCalls h;
     innerWidth := innerWidth h; innerHeight := innerHeight h;
     htmlClassName := htmlClassName h; bodyClassName := bodyClassName h;
     bodyChildren := bodyChildren h; nodesCreated := nodesCreated h;
     timers := pending; timersCreated := created; warnings := warnings h |}.
Definition add_warning (msg : string) (h : Host) : Host :=
  {| clock := clock h; ticks := ticks h; chromeStorage := chromeStorage h;
     storageFault := storageFault h; storageCalls := storageCalls h;
     innerWidth := innerWidth h; innerHeight := innerHeight h;
     htmlClassName := htmlClassName h; bodyClassName := bodyClassName h;
     bodyChildren := bodyChildren h; nodesCreated := nodesCreated h;
     timers := timers h; timersCreated := timersCreated h;
     warnings := warnings h ++ [msg] |}.

(** ** Completions and the effect monad

    A call either returns normally or throws; a thrown error keeps the
    effects made before it.  An [async] method is run to its end in one
    step: the promise a storage call returns is settled on the spot, a
    rejection being a throw at the [await].  So a load works on the record
    the storage holds when it runs, and a save writes, or fails, at once. *)

Inductive Completion (A : Type) :=
| Normal (a : A)
| Throw (error : string).
Arguments Normal {A} a.
Arguments Throw {A} error.

Definition M (A : Type) : Type := World → Completion A * World.

Definition ret {A} (a : A) : M A := λ w, (Normal a, w).

Definition bind {A B} (m : M A) (k : A → M B) : M B :=
  λ w, match m w with
       | (Normal a, w') => k a w'
       | (Throw e, w') => (Throw e, w')
       end.

Definition throw {A} (e : string) : M A := λ w, (Throw e, w).

(** [try { body } catch (error) { handler }] *)
Definition try_catch {A} (body : M A) (handler : string → M A) : M A :=
  λ w, match body w with
       | (Normal a, w') => (Normal a, w')
       | (Throw e, w') => handler e w'
       end.

Declare Scope js_scope.
Delimit Scope js_scope with js.
Notation "'let*' x := m 'in' k" := (bind m (λ x, k))
  (at level 10, x name, m at level 100, k at level 200) : js_scope.
Notation "m ;; k" := (bind m (λ _, k))
  (at level 100, k at level 200, right associativity) : js_scope.
Local Open Scope js_scope.

Definition this : M ClickTimer := λ w, (Normal (self w), w).
Definition update (f : ClickTimer → ClickTimer) : M unit :=
  λ w, (Normal tt, {| self := f (self w); host := host w |}).
Definition window : M Host := λ w, (Normal (host w), w).
Definition effect (f : Host → Host) : M unit :=
  λ w, (Normal tt, {| self := self w; host := f (host w) |}).

(** ** Host operations *)

Definition Date_now : M Z :=
  let* h := window in
  effect tick ;;
  ret (clock h (ticks h)).

Definition console_warn (msg : string) : M unit := effect (add_warning msg).

Definition count_storage_call (h : Host) : Host :=
  set_storage (chromeStorage h) (S (storageCalls h)) h.

(** [await chrome.storage.local.get([key])] followed by [result[key]]. *)
Definition storage_get (key : string) : M (option Persisted.t) :=
  let* h := window in
  match chromeStorage h with
  | None => throw "TypeError: chrome.storage.local is undefined"
  | Some area =>
      effect count_storage_call ;;
      if storageFault h (storageCalls h)
      then throw "chrome.storage.local.get rejected"
      else ret (area !! key)
  end.

(** [await chrome.storage.local.set({ [key]: data })] *)
Definition storage_set (key : string) (data : Persisted.t) : M unit :=
  let* h := window in
  match chromeStorage h with
  | None => throw "TypeError: chrome.storage.local is undefined"
  | Some area =>
      effect count_storage_call ;;
      if storageFault h (storageCalls h)
      then throw "chrome.storage.local.set rejected"
      else effect (λ h, set_storage (Some (<[key := data]> area)) (storageCalls h) h)
  end.

(** [setTimeout(callback, delay)]: handles are integers greater than zero. *)
Definition setTimeout (callback : Callback) (delay : Z) : M positive :=
  let* h := window in
  let handle := timersCreated h in
  effect (set_timers (timers h ++ [(handle, callback, delay)]) (Pos.succ handle)) ;;
  ret handle.

Definition clearTimeout (handle : positive) : M unit :=
  effect (λ h, set_timers (filter (λ t, t.1.1 ≠ handle) (timers h)) (timersCreated h) h).

(** [document.createElement(tag)] *)
Definition createElement (tag : string) : M Element :=
  let* h := window in
  effect (set_body (bodyChildren h) (S (nodesCreated h))) ;;
  ret {| nodeId := nodesCreated h; localName := tag; className := ""; textContent := "" |}.

(** [document.body.appendChild(el)] *)
Definition body_appendChild (el : Element) : M unit :=
  effect (λ h, set_body (bodyChildren h ++ [el]) (nodesCreated h) h).

(** Whether [el] is a child of the body, by node identity. *)
Definition attached (h : Host) (el : Element) : bool :=
  bool_decide (nodeId el ∈ nodeId <$> bodyChildren h).

(** [el.parentNode], for an element the tracker created: the body or [null]. *)
Definition has_parentNode (el : Element) : M bool :=
  let* h := window in
  ret (attached h el).

(** [el.parentNode.removeChild(el)] *)
Definition parent_removeChild (el : Element) : M unit :=
  effect (λ h, set_body (filter (λ c, nodeId c ≠ nodeId el) (bodyChildren h))
                        (nodesCreated h) h).

(** ** The document around a click target *)

Definition htmlElement (h : Host) : Element :=
  {| nodeId := 0; localName := "html"; className := htmlClassName h; textContent := "" |}.
Definition bodyElement (h : Host) : Element :=
  {| nodeId := 0; localName := "body"; className := bodyClassName h; textContent := "" |}.

(** The target and its ancestors, innermost first. *)
Definition inclusive_ancestors (h : Host) (t : EventTarget) : list Element :=
  match t with
  | Detached path => path
  | InBody path => path ++ [bodyElement h; htmlElement h]
  end.

(** [document.body.contains(target)] *)
Definition body_contains (t : EventTarget) : bool :=
  match t with
  | Detached _ => false
  | InBody _ => true
  end.

Definition matches (sel : Selector) (el : Element) : bool :=
  match sel with
  | TagSel name => bool_decide (localName el = name)
  | ClassSel name => bool_decide (name ∈ classList el)
  end.

(** [target.closest(selector)] *)
Definition closest (h : Host) (sel : Selector) (t : EventTarget) : option Element :=
  List.find (matches sel) (inclusive_ancestors h t).

(** ** The methods of [ClickTimer] *)

(** [new ClickTimer()] in a host: the field initialisers of the
    constructor.  [init()] attaches the listeners and starts
    [loadPersistedData], which runs as an operation of its own. *)
Definition constructor (h : Host) : World :=
  {| self := {| lastClickTime := None; clickCount := 0; isEnabled := true;
                visualIndicator := None; indicatorTimeout := None;
                pageLoadTime := clock h (ticks h) |};
     host := tick h |}.

Definition getHighPrecisionTime : M Z :=
  try_catch Date_now
    (λ _, console_warn "[Click Timer] Date API unavailable, using fallback" ;;
          Date_now).

Definition isValidPageClick (h : Host) (event : Event) : bool :=
  let target := target event in
  if negb (body_contains target) then false
  else
    let isScrollbarClick :=
      (innerWidth h - 20 <? clientX event) || (innerHeight h - 20 <? clientY event) in
    let isBrowserUI :=
      match closest h (TagSel "html") target with None => true | Some _ => false end in
    match closest h (ClassSel "click-timer-indicator") target with
    | Some _ => false
    | None => negb isScrollbarClick && negb isBrowserUI
    end.

Definition removeVisualIndicator : M unit :=
  let* c := this in
  match indicatorTimeout c with
  | Some handle =>
      clearTimeout handle ;;
      update (set_indicatorTimeout None)
  | None => ret tt
  end ;;
  let* c := this in
  match visualIndicator c with
  | Some el =>
      let* attached := has_parentNode el in
      if attached then
        parent_removeChild el ;;
        update (set_visualIndicator None)
      else ret tt
  | None => ret tt
  end.

Definition createVisualIndicator (message : string) (clickCount : N) : M unit :=
  let* div := createElement "div" in
  let el := {| nodeId := nodeId div; localName := localName div;
               className := "click-timer-indicator";
               textContent := "#" +:+ pretty clickCount +:+ ": " +:+ message |} in
  update (set_visualIndicator (Some el)) ;;
  body_appendChild el.

Definition showVisualFeedback (message : string) (clickCount : N) : M unit :=
  removeVisualIndicator ;;
  createVisualIndicator message clickCount ;;
  let* handle := setTimeout CallRemoveVisualIndicator 2000 in
  update (set_indicatorTimeout (Some handle)).

Definition updateVisualFeedback (timeDiff : Q) (clickCount : N) : M unit :=
  let message := JS.toFixed 3 timeDiff +:+ "s" in
  showVisualFeedback message clickCount.

Definition savePersistedData : M unit :=
  try_catch
    (let* h := window in
     match chromeStorage h with
     | None => console_warn "[Click Timer] Chrome storage API not available for saving"
     | Some _ =>
         let* c := this in
         let* now := Date_now in
         let data := {| Persisted.lastClickTime := lastClickTime c;
                        Persisted.clickCount := Some (clickCount c);
                        Persisted.isEnabled := Some (isEnabled c);
                        Persisted.timestamp := Some now |} in
         storage_set storageKey data
     end)
    (λ _, console_warn "[Click Timer] Could not save persisted data:").

(** [promise.catch(error => console.warn(msg, error))] *)
Definition catch_warn (promise : M unit) (msg : string) : M unit :=
  try_catch promise (λ _, console_warn msg).

Definition handleClick (event : Event) : M unit :=
  let* c := this in
  if negb (isEnabled c) then ret tt
  else
    let* h := window in
    if negb (isValidPageClick h event) then ret tt
    else
      let* currentTime := getHighPrecisionTime in
      let* c := this in
      match lastClickTime c with
      | Some last =>
          let timeDiff := (inject_Z (currentTime - last) / 1000)%Q in
          update (set_clickCount (clickCount c + 1)) ;;
          let* c := this in
          updateVisualFeedback timeDiff (clickCount c)
      | None =>
          update (set_clickCount 1) ;;
          let* c := this in
          showVisualFeedback "First click recorded" (clickCount c)
      end ;;
      update (set_lastClickTime (Some currentTime)) ;;
      catch_warn savePersistedData "[Click Timer] Non-critical storage error:".

Definition resetTimer : M unit :=
  update (set_lastClickTime None) ;;
  update (set_clickCount 0) ;;
  removeVisualIndicator ;;
  catch_warn savePersistedData "[Click Timer] Non-critical storage error on reset:".

Definition enable : M unit :=
  update (set_isEnabled true) ;;
  catch_warn savePersistedData "[Click Timer] Non-critical storage error on enable:".

Definition disable : M unit :=
  update (set_isEnabled false) ;;
  removeVisualIndicator ;;
  catch_warn savePersistedData "[Click Timer] Non-critical storage error on disable:".

(** [cleanup()]; the listeners it detaches are not part of the model. *)
Definition cleanup : M unit := removeVisualIndicator.

Definition loadPersistedData : M unit :=
  try_catch
    (let* h := window in
     match chromeStorage h with
     | None => console_warn "[Click Timer] Chrome storage API not available"
     | Some _ =>
         let* result := storage_get storageKey in
         match result with
         | Some data =>
             let* now := Date_now in
             let timeSinceLastSave := now - JS.or_default (Persisted.timestamp data) 0 in
             let pageNavigationThreshold := 5000 in
             (if JS.truthy (Persisted.lastClickTime data)
                 && (timeSinceLastSave <? pageNavigationThreshold)
              then
                let* now := Date_now in
                (* [data.lastClickTime] is truthy here, hence a number *)
                let timeDiffFromLoad := now - default 0 (Persisted.lastClickTime data) in
                if (0 <? timeDiffFromLoad) && (timeDiffFromLoad <? 300000)
                then update (set_lastClickTime (Persisted.lastClickTime data))
                else update (set_lastClickTime None)
              else update (set_lastClickTime None)) ;;
             update (set_clickCount (JS.or_defaultN (Persisted.clickCount data) 0)) ;;
             update (set_isEnabled (JS.if_defined (Persisted.isEnabled data) true))
         | None => ret tt
         end
     end)
    (λ _, console_warn "[Click Timer] Could not load persisted data:").

Record Stats := {
  stats_clickCount : N;
  stats_lastClickTime : option Z;
  stats_isEnabled : bool
}.

Definition getStats : M Stats :=
  let* c := this in
  ret {| stats_clickCount := clickCount c;
         stats_lastClickTime := lastClickTime c;
         stats_isEnabled := isEnabled c |}.

(** A pending timer fires: it leaves the pending list and its callback runs. *)
Definition fireTimer (handle : positive) : M unit :=
  let* h := window in
  match List.find (λ t, bool_decide (t.1.1 = handle)) (timers h) with
  | Some (_, CallRemoveVisualIndicator, _) =>
      clearTimeout handle ;;
      removeVisualIndicator
  | None => ret tt
  end.

(** ** Running the tracker *)

Definition completion {A} (m : M A) (w : World) : Completion A := (m w).1.
Definition exec {A} (m : M A) (w : World) : World := (m w).2.

(** What can happen to a tracker on its page: the click listener, the
    commands of the popup, the startup load, a timer firing, page unload. *)
Inductive Op :=
| Click (event : Event)
| Reset
| Enable
| Disable
| GetStats
| Load
| TimerFires (handle : positive)
| Cleanup.

Definition step (op : Op) : M unit :=
  match op with
  | Click event => handleClick event
  | Reset => resetTimer
  | Enable => enable
  | Disable => disable
  | GetStats => getStats ;; ret tt
  | Load => loadPersistedData
  | TimerFires handle => fireTimer handle
  | Cleanup => cleanup
  end.

Definition run (ops : list Op) (w : World) : World :=
  foldl (λ w op, exec (step op) w) w ops.

(** ** Vocabulary of the properties *)

(** The three counters of the session state. *)
Definition core (c : ClickTimer) : option Z * N * bool :=
  (lastClickTime c, clickCount c, isEnabled c).

(** Everything that makes up the on-page display. *)
Definition display (w : World) :=
  (visualIndicator (self w), indicatorTimeout (self w),
   bodyChildren (host w), timers (host w)).

(** A click the filter lets through. *)
Definition accepted (w : World) (event : Event) : bool :=
  isEnabled (self w) && isValidPageClick (host w) event.

(** The pointer is less than 20 units from the right or the bottom edge. *)
Definition near_edge (h : Host) (event : Event) : Prop :=
  innerWidth h - clientX event < 20 ∨ innerHeight h - clientY event < 20.

(** The target is an element of class [click-timer-indicator] or lies
    inside one. *)
Definition in_indicator (h : Host) (event : Event) : Prop :=
  ∃ el, el ∈ inclusive_ancestors h (target event)
        ∧ "click-timer-indicator" ∈ classList el.

(** [clickCount == 0] implies [lastClickTime] is absent. *)
Definition count_inv (c : ClickTimer) : Prop :=
  clickCount c = 0%N → lastClickTime c = None.

Definition record_inv (d : Persisted.t) : Prop :=
  JS.or_defaultN (Persisted.clickCount d) 0 = 0%N → Persisted.lastClickTime d = None.

Definition storage_inv (h : Host) : Prop :=
  match chromeStorage h with
  | Some area =>
      match area !! storageKey with
      | Some d => record_inv d
      | None => True
      end
  | None => True
  end.

(** The display is consistent: the body holds exactly the indicator the
    tracker refers to, and the pending timers are exactly its auto-hide
    timer. *)
Definition display_ok (w : World) : Prop :=
  match visualIndicator (self w) with
  | Some el => bodyChildren (host w) = [el]
  | None => bodyChildren (host w) = []
  end
  ∧ match indicatorTimeout (self w) with
    | Some handle =>
        timers (host w) = [(handle, CallRemoveVisualIndicator, 2000)]
        ∧ (handle < timersCreated (host w))%positive
    | None => timers (host w) = []
    end.

(** A page the tracker has not touched yet. *)
Definition fresh_page (h : Host) : Prop :=
  bodyChildren h = [] ∧ timers h = [].

(** Two hosts that differ at most in the storage area and its faults. *)
Definition same_but_storage (h1 h2 : Host) : Prop :=
  clock h1 = clock h2 ∧ ticks h1 = ticks h2
  ∧ innerWidth h1 = innerWidth h2 ∧ innerHeight h1 = innerHeight h2
  ∧ htmlClassName h1 = htmlClassName h2 ∧ bodyClassName h1 = bodyClassName h2
  ∧ bodyChildren h1 = bodyChildren h2 ∧ nodesCreated h1 = nodesCreated h2
  ∧ timers h1 = timers h2 ∧ timersCreated h1 = timersCreated h2.

(** What no operation changes: the clock, and the window and document data
    the click filter reads. *)
Definition page (h : Host) : (nat → Z) * Z * Z * string * string :=
  (clock h, innerWidth h, innerHeight h, htmlClassName h, bodyClassName h).

(** What an accepted click makes of [clickCount] and the message it
    displays when it reads the clock at [now]: the two branches of
    [handleClick] side by side (lemma [handleClick_accepted] below). *)
Definition click_count (c : ClickTimer) : N :=
  match lastClickTime c with
  | Some _ => (clickCount c + 1)%N
  | None => 1%N
  end.

Definition click_message (c : ClickTimer) (now : Z) : string :=
  match lastClickTime c with
  | Some last => JS.toFixed 3 (inject_Z (now - last) / 1000)%Q +:+ "s"
  | None => "First click recorded"
  end.

(** The value [loadPersistedData] gives [lastClickTime], its nested tests
    in one expression (lemma [loadPersistedData_eq] below); [now1] is the
    clock reading for the age of the save, [now2] the one for the age of
    the click. *)
Definition adopted (data : Persisted.t) (now1 now2 : Z) : option Z :=
  if JS.truthy (Persisted.lastClickTime data)
     && (now1 - JS.or_default (Persisted.timestamp data) 0 <? 5000)
     && (0 <? now2 - default 0 (Persisted.lastClickTime data))
     && (now2 - default 0 (Persisted.lastClickTime data) <? 300000)
  then Persisted.lastClickTime data
  else None.

(** The part of the host that is not the document. *)
Definition services (h : Host) :=
  (clock h, ticks h, chromeStorage h, storageFault h, storageCalls h, warnings h).


(** ** Sample pages

    A 1280 x 720 page with an empty display, whose clock returns the given
    readings in turn (the last one from then on) and whose storage never
    fails. *)

Definition sample_host (readings : list Z) (area : option (gmap string Persisted.t))
  : Host :=
  {| clock := λ k, default (List.last readings 0) (readings !! k);
     ticks := 0;
     chromeStorage := area;
     storageFault := λ _, false;
     storageCalls := 0;
     innerWidth := 1280; innerHeight := 720;
     htmlClassName := ""; bodyClassName := "";
     bodyChildren := []; nodesCreated := 0;
     timers := []; timersCreated := 1;
     warnings := [] |}.

(** A click on a button in the middle of the page. *)
Definition sample_click : Event :=
  {| target := InBody [ {| nodeId := 7; localName := "button"; className := "btn primary";
                           textContent := "OK" |} ];
     clientX := 640; clientY := 360 |}.

(** A navigation: the next page has a new document and no timers of the
    old one; the clock and the storage carry over. *)
Definition navigate (h : Host) : Host :=
  set_timers [] (timersCreated h) (set_body [] (nodesCreated h) h).

(** What happens to the extension in a browser: an operation on the
    current page, or a navigation, which constructs a new tracker on the
    host the old page leaves behind (its load is an operation of the new
    page). *)
Inductive Happening :=
| OnPage (op : Op)
| NewPage.

Definition happen (x : Happening) (w : World) : World :=
  match x with
  | OnPage op => exec (step op) w
  | NewPage => constructor (navigate (host w))
  end.

(** Runs a browsing history and counts, alongside, the accepted clicks since
    the last reset. *)
Fixpoint browse (history : list Happening) (w : World) (since_reset : N) : World * N :=
  match history with
  | [] => (w, since_reset)
  | x :: history =>
      let n := match x with
               | OnPage (Click event) =>
                   if accepted w event then (since_reset + 1)%N else since_reset
               | OnPage Reset => 0%N
               | _ => since_reset
               end in
      browse history (happen x w) n
  end.

(** Operations that read what the storage holds. *)
Definition reads_storage (op : Op) : bool :=
  match op with
  | Load => true
  | _ => false
  end.

(** The storage cannot deliver a record: it is not there, or the next
    operation on it fails. *)
Definition load_fails (h : Host) : Prop :=
  chromeStorage h = None ∨ storageFault h (storageCalls h) = true.

(** Operations that change one of the three counters, as they stand in
    front of [w]: an accepted click and the three commands. *)
Definition mutates (op : Op) (w : World) : bool :=
  match op with
  | Click event => accepted w event
  | Reset | Enable | Disable => true
  | _ => false
  end.

(** The record [savePersistedData] builds from a tracker at time [now]. *)
Definition snapshot (c : ClickTimer) (now : Z) : Persisted.t :=
  {| Persisted.lastClickTime := lastClickTime c;
     Persisted.clickCount := Some (clickCount c);
     Persisted.isEnabled := Some (isEnabled c);
     Persisted.timestamp := Some now |}.

(** ** The content script around the tracker

    The top level of [content.js], [initializeClickTimer] and [init()]: the
    tracker objects the script creates, the variable [clickTimer], and the
    listeners on [document] and [window].  A handler is named by what it
    calls; [BoundHandleClick i] and [BoundCleanup i] are the bound methods
    of the [i]-th object created. *)

Inductive Handler :=
| BoundHandleClick (instance : nat)
| BoundCleanup (instance : nat)
| InitializeClickTimer
| LoadFallback.

Record Listener := { eventType : string; handler : Handler; useCapture : bool }.

Global Instance Handler_eq_dec : EqDecision Handler.
Proof. solve_decision. Defined.

Global Instance Listener_eq_dec : EqDecision Listener.
Proof. solve_decision. Defined.

(** - [instances]: the [ClickTimer] objects, in the order of their creation;
    - [clickTimerVar]: the variable [clickTimer] (and [window.clickTimer]);
    - [pendingLoads]: the objects whose [loadPersistedData] is still waiting
      for the storage. *)
Record Content := {
  instances : list ClickTimer;
  clickTimerVar : option nat;
  documentListeners : list Listener;
  windowListeners : list Listener;
  pendingLoads : list nat;
  contentHost : Host
}.

(** [target.addEventListener(type, handler, capture)]: a listener that is
    already registered is not registered again. *)
Definition addEventListener (l : Listener) (ls : list Listener) : list Listener :=
  if decide (l ∈ ls) then ls else ls ++ [l].

(** [target.removeEventListener(type, handler, capture)] *)
Definition removeEventListener (l : Listener) (ls : list Listener) : list Listener :=
  filter (λ l', l' ≠ l) ls.

Definition clickListener (i : nat) : Listener :=
  {| eventType := "click"; handler := BoundHandleClick i; useCapture := true |}.
Definition unloadListener (i : nat) : Listener :=
  {| eventType := "beforeunload"; handler := BoundCleanup i; useCapture := false |}.

(** Runs a method of the [i]-th object on the page. *)
Definition on_instance (i : nat) (m : M unit) (c : Content) : Content :=
  match instances c !! i with
  | Some this_i =>
      let w := exec m {| self := this_i; host := contentHost c |} in
      {| instances := <[i := self w]> (instances c);
         clickTimerVar := clickTimerVar c;
         documentListeners := documentListeners c;
         windowListeners := windowListeners c;
         pendingLoads := pendingLoads c;
         contentHost := host w |}
  | None => c
  end.

(** [new ClickTimer()]: the constructor and its [init()], which attaches
    the two listeners and starts the load. *)
Definition newClickTimer (c : Content) : Content :=
  let i := length (instances c) in
  let w := constructor (contentHost c) in
  {| instances := instances c ++ [self w];
     clickTimerVar := clickTimerVar c;
     documentListeners := addEventListener (clickListener i) (documentListeners c);
     windowListeners := addEventListener (unloadListener i) (windowListeners c);
     pendingLoads := pendingLoads c ++ [i];
     contentHost := host w |}.

Definition initializeClickTimer (c : Content) : Content :=
  match clickTimerVar c with
  | None =>
      let c' := newClickTimer c in
      {| instances := instances c';
         clickTimerVar := Some (length (instances c));
         documentListeners := documentListeners c';
         windowListeners := windowListeners c';
         pendingLoads := pendingLoads c';
         contentHost := contentHost c' |}
  | Some _ => c
  end.

(** [cleanup()] of the [i]-th object, with the listeners it detaches. *)
Definition cleanup_instance (i : nat) (c : Content) : Content :=
  let c' := on_instance i cleanup c in
  {| instances := instances c';
     clickTimerVar := clickTimerVar c';
     documentListeners := removeEventListener (clickListener i) (documentListeners c');
     windowListeners := removeEventListener (unloadListener i) (windowListeners c');
     pendingLoads := pendingLoads c';
     contentHost := contentHost c' |}.

(** The script runs while the document is still loading, or later. *)
Definition evaluate_script (loading : bool) (h : Host) : Content :=
  let c := {| instances := []; clickTimerVar := None;
              documentListeners := []; windowListeners := [];
              pendingLoads := []; contentHost := h |} in
  let c := if loading
           then {| instances := instances c; clickTimerVar := clickTimerVar c;
                   documentListeners :=
                     addEventListener
                       {| eventType := "DOMContentLoaded";
                          handler := InitializeClickTimer; useCapture := false |}
                       (documentListeners c);
                   windowListeners := windowListeners c;
                   pendingLoads := pendingLoads c; contentHost := contentHost c |}
           else initializeClickTimer c in
  {| instances := instances c; clickTimerVar := clickTimerVar c;
     documentListeners := documentListeners c;
     windowListeners :=
       addEventListener
         {| eventType := "load"; handler := LoadFallback; useCapture := false |}
         (windowListeners c);
     pendingLoads := pendingLoads c; contentHost := contentHost c |}.

Definition call_handler (hd : Handler) (event : option Event) (c : Content) : Content :=
  match hd with
  | BoundHandleClick i =>
      match event with
      | Some e => on_instance i (handleClick e) c
      | None => c
      end
  | BoundCleanup i => cleanup_instance i c
  | InitializeClickTimer => initializeClickTimer c
  | LoadFallback =>
      match clickTimerVar c with
      | None => initializeClickTimer c
      | Some _ => c
      end
  end.

(** Dispatching an event of type [type] to a target: the listeners
    registered when the dispatch starts are called in order, except those
    removed in the meantime. *)
Definition dispatch (registered : Content → list Listener) (type : string)
    (event : option Event) (c : Content) : Content :=
  foldl (λ c l, if decide (eventType l = type ∧ l ∈ registered c)
                then call_handler (handler l) event c else c)
        c (registered c).

(** What happens on the page. *)
Inductive PageEvent :=
| DOMContentLoaded
| WindowLoad
| MouseClick (event : Event)
| BeforeUnload
| StorageReplies (instance : nat).

Definition occur (e : PageEvent) (c : Content) : Content :=
  match e with
  | DOMContentLoaded => dispatch documentListeners "DOMContentLoaded" None c
  | WindowLoad => dispatch windowListeners "load" None c
  | MouseClick event => dispatch documentListeners "click" (Some event) c
  | BeforeUnload => dispatch windowListeners "beforeunload" None c
  | StorageReplies i =>
      if decide (i ∈ pendingLoads c)
      then
        let c' := on_instance i loadPersistedData c in
        {| instances := instances c'; clickTimerVar := clickTimerVar c';
           documentListeners := documentListeners c';
           windowListeners := windowListeners c';
           pendingLoads := filter (λ j, j ≠ i) (pendingLoads c');
           contentHost := contentHost c' |}
      else c
  end.

Definition play (events : list PageEvent) (c : Content) : Content :=
  foldl (λ c e, occur e c) c events.

(** The click listeners on the document. *)
Definition clickListeners (c : Content) : list Listener :=
  filter (λ l, eventType l = "click") (documentListeners c).

Definition domReadyListener : Listener :=
  {| eventType := "DOMContentLoaded"; handler := InitializeClickTimer; useCapture := false |}.
Definition loadListener : Listener :=
  {| eventType := "load"; handler := LoadFallback; useCapture := false |}.

(** The script's bookkeeping is consistent: no listener is registered
    twice, the only listeners are the script's two and those of object 0,
    which come and go together, and there is an object exactly when
    [clickTimer] is set. *)
Definition content_ok (c : Content) : Prop :=
  NoDup (documentListeners c) ∧ NoDup (windowListeners c)
  ∧ (∀ l, l ∈ documentListeners c → l = domReadyListener ∨ l = clickListener 0)
  ∧ (∀ l, l ∈ windowListeners c → l = loadListener ∨ l = unloadListener 0)
  ∧ loadListener ∈ windowListeners c
  ∧ (clickListener 0 ∈ documentListeners c ↔ unloadListener 0 ∈ windowListeners c)
  ∧ (clickListener 0 ∈ documentListeners c → clickTimerVar c = Some 0%nat)
  ∧ match clickTimerVar c with
    | Some i => i = 0%nat ∧ length (instances c) = 1%nat
    | None => instances c = []
    end.

(** ** The popup ([popup.js])

    [PopupController]: its fields, the texts and flags of the elements it
    writes to, and its methods.  The popup shares the clock and the storage
    with the page of the active tab and reaches the tracker there through
    [chrome.scripting.executeScript].  The scheduling of the session timer
    ([setInterval]) and the message listener, which nothing in the
    repository sends to, are left out. *)

Module Popup.

(** What the popup writes into its document. *)
Record Elements := {
  statusIndicator_className : string;
  statusText : string;
  clickCountText : string;
  lastIntervalText : string;
  sessionTimeText : string;
  toggleBtn_textContent : string;
  toggleBtn_className : string;
  toggleBtn_disabled : bool;
  resetBtn_disabled : bool
}.

Record t := {
  isEnabled : bool;
  clickCount : N;
  lastInterval : option Q;
  sessionStartTime : Z;
  elements : Elements
}.

End Popup.

(** - [activeTab]: whether [chrome.tabs.query] finds an active tab;
    - [tabProtocol]: the protocol of its URL, [None] when [new URL] throws;
    - [scriptingWorks]: whether [chrome.scripting.executeScript] is allowed
      on it;
    - [tabTracker]: [window.clickTimer] in the tab;
    - [tabHost]: the page of the tab, with the clock and the storage the
      popup shares with it. *)
Record Browser := {
  popup : Popup.t;
  popupWarnings : list string;
  activeTab : bool;
  tabProtocol : option string;
  scriptingWorks : bool;
  tabTracker : option ClickTimer;
  tabHost : Host
}.

Definition set_popup (p : Popup.t) (b : Browser) : Browser :=
  {| popup := p; popupWarnings := popupWarnings b; activeTab := activeTab b;
     tabProtocol := tabProtocol b; scriptingWorks := scriptingWorks b;
     tabTracker := tabTracker b; tabHost := tabHost b |}.
Definition set_tab (tracker : option ClickTimer) (h : Host) (b : Browser) : Browser :=
  {| popup := popup b; popupWarnings := popupWarnings b; activeTab := activeTab b;
     tabProtocol := tabProtocol b; scriptingWorks := scriptingWorks b;
     tabTracker := tracker; tabHost := h |}.
Definition add_popup_warning (msg : string) (b : Browser) : Browser :=
  {| popup := popup b; popupWarnings := popupWarnings b ++ [msg];
     activeTab := activeTab b; tabProtocol := tabProtocol b;
     scriptingWorks := scriptingWorks b; tabTracker := tabTracker b;
     tabHost := tabHost b |}.

Definition set_elements (e : Popup.Elements) (p : Popup.t) : Popup.t :=
  {| Popup.isEnabled := Popup.isEnabled p; Popup.clickCount := Popup.clickCount p;
     Popup.lastInterval := Popup.lastInterval p;
     Popup.sessionStartTime := Popup.sessionStartTime p; Popup.elements := e |}.
Definition set_stats (enabled : bool) (count : N) (p : Popup.t) : Popup.t :=
  {| Popup.isEnabled := enabled; Popup.clickCount := count;
     Popup.lastInterval := Popup.lastInterval p;
     Popup.sessionStartTime := Popup.sessionStartTime p;
     Popup.elements := Popup.elements p |}.
Definition set_session (interval : option Q) (start : Z) (p : Popup.t) : Popup.t :=
  {| Popup.isEnabled := Popup.isEnabled p; Popup.clickCount := Popup.clickCount p;
     Popup.lastInterval := interval; Popup.sessionStartTime := start;
     Popup.elements := Popup.elements p |}.

(** The effect monad of the popup. *)
Definition P (A : Type) : Type := Browser → Completion A * Browser.

Definition ret_p {A} (a : A) : P A := λ b, (Normal a, b).
Definition bind_p {A B} (m : P A) (k : A → P B) : P B :=
  λ b, match m b with
       | (Normal a, b') => k a b'
       | (Throw e, b') => (Throw e, b')
       end.
Definition throw_p {A} (e : string) : P A := λ b, (Throw e, b).
Definition try_catch_p {A} (body : P A) (handler : string → P A) : P A :=
  λ b, match body b with
       | (Normal a, b') => (Normal a, b')
       | (Throw e, b') => handler e b'
       end.

Local Close Scope js_scope.
Declare Scope popup_scope.
Delimit Scope popup_scope with popup.
Notation "'let*' x := m 'in' k" := (bind_p m (λ x, k))
  (at level 10, x name, m at level 100, k at level 200) : popup_scope.
Notation "m ;; k" := (bind_p m (λ _, k))
  (at level 100, k at level 200, right associativity) : popup_scope.
Local Open Scope popup_scope.

Definition this_popup : P Popup.t := λ b, (Normal (popup b), b).
Definition update_popup (f : Popup.t → Popup.t) : P unit :=
  λ b, (Normal tt, set_popup (f (popup b)) b).
Definition popup_warn (msg : string) : P unit :=
  λ b, (Normal tt, add_popup_warning msg b).

(** A host operation called from the popup.  It runs on the shared host;
    host operations do not look at the tracker, whose place a blank one
    takes. *)
Definition blank_tracker : ClickTimer :=
  {| lastClickTime := None; clickCount := 0; isEnabled := true;
     visualIndicator := None; indicatorTimeout := None; pageLoadTime := 0 |}.

Definition in_host {A} (m : M A) : P A :=
  λ b, let r := m {| self := blank_tracker; host := tabHost b |} in
       (r.1, set_tab (tabTracker b) (host r.2) b).

(** [await chrome.storage.local.remove([key])] *)
Definition storage_remove (key : string) : M unit :=
  bind window (λ h,
    match chromeStorage h with
    | None => throw "TypeError: chrome.storage.local is undefined"
    | Some area =>
        bind (effect count_storage_call) (λ _,
          if storageFault h (storageCalls h)
          then throw "chrome.storage.local.remove rejected"
          else effect (λ h, set_storage (Some (delete key area)) (storageCalls h) h))
    end).

(** [const [tab] = await chrome.tabs.query({ active: true, currentWindow: true })] *)
Definition chrome_tabs_query : P bool := λ b, (Normal (activeTab b), b).

(** The function [executeInContentScript] injects into the tab. *)
Definition injected_command (cmd : string) (b : Browser) : Browser :=
  match tabTracker b with
  | Some tracker =>
      let w0 := {| self := tracker; host := tabHost b |} in
      let w := if String.eqb cmd "reset" then exec resetTimer w0
               else if String.eqb cmd "enable" then exec enable w0
               else if String.eqb cmd "disable" then exec disable w0
               else w0 in
      set_tab (Some (self w)) (host w) b
  | None => b
  end.

(** [await chrome.scripting.executeScript(...)] with that function. *)
Definition executeScript_command (cmd : string) : P unit :=
  λ b, if scriptingWorks b then (Normal tt, injected_command cmd b)
       else (Throw "Cannot access contents of the page", b).

(** [await chrome.scripting.executeScript(...)] with the function that
    returns [window.clickTimer.getStats()], or [null]. *)
Definition executeScript_getStats : P (option Stats) :=
  λ b, if scriptingWorks b
       then (Normal
               (match tabTracker b with
                | Some tracker =>
                    Some {| stats_clickCount := clickCount tracker;
                            stats_lastClickTime := lastClickTime tracker;
                            stats_isEnabled := isEnabled tracker |}
                | None => None
                end), b)
       else (Throw "Cannot access contents of the page", b).

(** [s.padStart(2, '0')] *)
Definition padStart2 (s : string) : string :=
  JS.zeros (2 - String.length s) +:+ s.

(** Truthiness of a number that may be [null]. *)
Definition truthyQ (v : option Q) : bool :=
  match v with
  | Some x => negb (Qeq_bool x 0)
  | None => false
  end.

Definition updateUI : P unit :=
  update_popup (λ p,
    let e := Popup.elements p in
    set_elements
      {| Popup.statusIndicator_className :=
           if Popup.isEnabled p then "status-indicator active"
           else "status-indicator inactive";
         Popup.statusText :=
           if Popup.isEnabled p then "Active - Monitoring clicks"
           else "Disabled - Click to enable";
         Popup.clickCountText := pretty (Popup.clickCount p);
         Popup.lastIntervalText :=
           match Popup.lastInterval p with
           | Some x => if truthyQ (Some x) then JS.toFixed 3 x +:+ "s" else "--"
           | None => "--"
           end;
         Popup.sessionTimeText := Popup.sessionTimeText e;
         Popup.toggleBtn_textContent := if Popup.isEnabled p then "Disable" else "Enable";
         Popup.toggleBtn_className :=
           if Popup.isEnabled p then "btn secondary" else "btn primary";
         Popup.toggleBtn_disabled := Popup.toggleBtn_disabled e;
         Popup.resetBtn_disabled := Popup.resetBtn_disabled e |} p).

(** The text [updateSessionTime] shows for a session started at [start]
    when the clock reads [now]. *)
Definition sessionTime (start now : Z) : string :=
  let elapsed := (now - start) `div` 1000 in
  let minutes := elapsed `div` 60 in
  let seconds := elapsed `rem` 60 in
  padStart2 (pretty minutes) +:+ ":" +:+ padStart2 (pretty seconds).

Definition updateSessionTime : P unit :=
  let* now := in_host Date_now in
  update_popup (λ p,
    let e := Popup.elements p in
    set_elements
      {| Popup.statusIndicator_className := Popup.statusIndicator_className e;
         Popup.statusText := Popup.statusText e;
         Popup.clickCountText := Popup.clickCountText e;
         Popup.lastIntervalText := Popup.lastIntervalText e;
         Popup.sessionTimeText := sessionTime (Popup.sessionStartTime p) now;
         Popup.toggleBtn_textContent := Popup.toggleBtn_textContent e;
         Popup.toggleBtn_className := Popup.toggleBtn_className e;
         Popup.toggleBtn_disabled := Popup.toggleBtn_disabled e;
         Popup.resetBtn_disabled := Popup.resetBtn_disabled e |} p).

Definition executeInContentScript (command : string) : P unit :=
  try_catch_p
    (let* tab := chrome_tabs_query in
     if negb tab then ret_p tt
     else executeScript_command command)
    (λ _, popup_warn "[Click Timer Popup] Could not execute in content script:").

Definition handleReset : P unit :=
  update_popup (λ p, set_stats (Popup.isEnabled p) 0 p) ;;
  let* now := in_host Date_now in
  update_popup (set_session None now) ;;
  updateUI ;;
  try_catch_p
    (in_host (storage_remove "clickTimerData"))
    (λ _, popup_warn "[Click Timer Popup] Could not clear storage:") ;;
  executeInContentScript "reset".

Definition handleToggle : P unit :=
  update_popup (λ p, set_stats (negb (Popup.isEnabled p)) (Popup.clickCount p) p) ;;
  updateUI ;;
  let* p := this_popup in
  if Popup.isEnabled p then executeInContentScript "enable"
  else executeInContentScript "disable".

Definition getCurrentTabStats : P unit :=
  try_catch_p
    (let* persistedData := in_host (storage_get "clickTimerData") in
     match persistedData with
     | Some data =>
         update_popup
           (set_stats (JS.if_defined (Persisted.isEnabled data) true)
              (JS.or_defaultN (Persisted.clickCount data) 0)) ;;
         updateUI
     | None => ret_p tt
     end ;;
     let* tab := chrome_tabs_query in
     if negb tab then ret_p tt
     else
       let* result := executeScript_getStats in
       match result with
       | Some stats =>
           update_popup
             (set_stats (stats_isEnabled stats)
                (JS.or_defaultN (Some (stats_clickCount stats)) 0)) ;;
           updateUI
       | None => ret_p tt
       end)
    (λ _, popup_warn "[Click Timer Popup] Could not get stats:").

Definition set_disabled (status : option (string * string)) (disabled : bool)
    (p : Popup.t) : Popup.t :=
  let e := Popup.elements p in
  set_elements
    {| Popup.statusIndicator_className :=
         match status with Some (_, cls) => cls | None => Popup.statusIndicator_className e end;
       Popup.statusText :=
         match status with Some (text, _) => text | None => Popup.statusText e end;
       Popup.clickCountText := Popup.clickCountText e;
       Popup.lastIntervalText := Popup.lastIntervalText e;
       Popup.sessionTimeText := Popup.sessionTimeText e;
       Popup.toggleBtn_textContent := Popup.toggleBtn_textContent e;
       Popup.toggleBtn_className := Popup.toggleBtn_className e;
       Popup.toggleBtn_disabled := disabled;
       Popup.resetBtn_disabled := disabled |} p.

(** [EnhancedPopupController.checkExtensionStatus()] *)
Definition checkExtensionStatus : P unit :=
  try_catch_p
    (let* tab := chrome_tabs_query in
     if negb tab then ret_p tt
     else
       λ b, match tabProtocol b with
            | None => (Throw "TypeError: Invalid URL", b)
            | Some protocol =>
                let isValidPage := bool_decide (protocol ∈ ["http:"; "https:"]) in
                if negb isValidPage
                then update_popup
                       (set_disabled
                          (Some ("Not available on this page", "status-indicator inactive"))
                          true) b
                else update_popup (set_disabled None false) b
            end)
    (λ _, popup_warn "[Click Timer Popup] Error checking extension status:").

Definition exec_p {A} (m : P A) (b : Browser) : Browser := (m b).2.
Definition completion_p {A} (m : P A) (b : Browser) : Completion A := (m b).1.

(** The popup reaches a tracker in the active tab. *)
Definition reaches_tracker (b : Browser) : bool :=
  activeTab b && scriptingWorks b
  && match tabTracker b with Some _ => true | None => false end.

(** [new EnhancedPopupController()] in a popup document whose elements are
    [html]: the fields, then [init], which is the subclass's ([super.init()]
    and [checkExtensionStatus()]).  The asynchronous methods run in the
    order [init] starts them. *)
Definition newEnhancedPopupController (html : Popup.Elements) : P unit :=
  let* now := in_host Date_now in
  update_popup (λ _, {| Popup.isEnabled := true; Popup.clickCount := 0;
                        Popup.lastInterval := None; Popup.sessionStartTime := now;
                        Popup.elements := html |}) ;;
  updateUI ;;
  updateSessionTime ;;
  getCurrentTabStats ;;
  checkExtensionStatus.

(** What happens while the popup is open: a click on one of its two
    buttons, a tick of the session timer, or an operation of the tracker in
    the tab.  A disabled button dispatches no click event. *)
Inductive PopupEvent :=
| ResetClicked
| ToggleClicked
| SessionTimerFires
| TabDoes (op : Op).

Definition popup_occur (ev : PopupEvent) : P unit :=
  match ev with
  | ResetClicked =>
      let* p := this_popup in
      if Popup.resetBtn_disabled (Popup.elements p) then ret_p tt else handleReset
  | ToggleClicked =>
      let* p := this_popup in
      if Popup.toggleBtn_disabled (Popup.elements p) then ret_p tt else handleToggle
  | SessionTimerFires => updateSessionTime
  | TabDoes op =>
      λ b, match tabTracker b with
           | Some tracker =>
               let w := exec (step op) {| self := tracker; host := tabHost b |} in
               (Normal tt, set_tab (Some (self w)) (host w) b)
           | None => (Normal tt, b)
           end
  end.

Definition popup_play (events : list PopupEvent) (b : Browser) : Browser :=
  foldl (λ b ev, exec_p (popup_occur ev) b) b events.

(** The count and the toggle button the popup shows are those of its
    fields, and it has no interval to show. *)
Definition popup_ok (p : Popup.t) : Prop :=
  let e := Popup.elements p in
  Popup.lastInterval p = None
  ∧ Popup.lastIntervalText e = "--"
  ∧ Popup.clickCountText e = pretty (Popup.clickCount p)
  ∧ Popup.toggleBtn_textContent e = (if Popup.isEnabled p then "Disable" else "Enable")
  ∧ Popup.toggleBtn_className e
    = (if Popup.isEnabled p then "btn secondary" else "btn primary").

(** The popup's buttons, by what [event] would press. *)
Definition presses_button (ev : PopupEvent) : bool :=
  match ev with
  | ResetClicked | ToggleClicked => true
  | _ => false
  end.



Local Close Scope popup_scope.
Local Open Scope js_scope.

(** * Properties *)

(** ** [toFixed] on a few numbers *)

Example toFixed_127 : JS.toFixed 3 (inject_Z 127 / 1000)%Q = "0.127"%string.
Proof. reflexivity. Qed.
Example toFixed_neg : JS.toFixed 3 (inject_Z (-1500) / 1000)%Q = "-1.500"%string.
Proof. reflexivity. Qed.
Example toFixed_big : JS.toFixed 3 (inject_Z (123456) / 1000)%Q = "123.456"%string.
Proof. reflexivity. Qed.
Example toFixed_0 : JS.toFixed 3 (inject_Z 0 / 1000)%Q = "0.000"%string.
Proof. reflexivity. Qed.
Example toFixed_round : JS.toFixed 2 (inject_Z 1255 / 1000)%Q = "1.26"%string.
Proof. reflexivity. Qed.

(** ** Evaluating the building blocks *)

Ltac prim :=
  unfold parent_removeChild, has_parentNode, body_appendChild,
    createElement, clearTimeout, setTimeout, storage_set, storage_get,
    console_warn, Date_now, effect, window, update, this, try_catch, throw,
    bind, ret in *.

Lemma bind_normal {A B} (m : M A) (k : A → M B) w a :
  m w = (Normal a, exec m w) → bind m k w = k a (exec m w).
Proof. intros E. unfold bind. by rewrite E. Qed.

Lemma catch_normal {A} (m : M A) (handler : string → M A) w a :
  m w = (Normal a, exec m w) → try_catch m handler w = (Normal a, exec m w).
Proof. intros E. unfold try_catch. by rewrite E. Qed.

Lemma removeVisualIndicator_eq w :
  removeVisualIndicator w =
  (Normal tt,
   let h := host w in
   let pending :=
     match indicatorTimeout (self w) with
     | Some handle => filter (λ t, t.1.1 ≠ handle) (timers h)
     | None => timers h
     end in
   let shown :=
     match visualIndicator (self w) with
     | Some el => if attached h el then None else Some el
     | None => None
     end in
   let children :=
     match visualIndicator (self w) with
     | Some el => if attached h el
                  then filter (λ c, nodeId c ≠ nodeId el) (bodyChildren h)
                  else bodyChildren h
     | None => bodyChildren h
     end in
   {| self := set_visualIndicator shown (set_indicatorTimeout None (self w));
      host := set_body children (nodesCreated h) (set_timers pending (timersCreated h) h) |}).
Proof.
  destruct w as [[last n en shown handle loaded] []].
  unfold removeVisualIndicator. prim. cbn.
  destruct handle; cbn.
  all: destruct shown as [el|]; cbn; [|done].
  all: destruct (attached _ el); done.
Qed.

Lemma removeVisualIndicator_normal w :
  removeVisualIndicator w = (Normal tt, exec removeVisualIndicator w).
Proof. unfold exec. by rewrite removeVisualIndicator_eq. Qed.

Lemma savePersistedData_eq w :
  savePersistedData w =
  (Normal tt,
   let h := host w in
   {| self := self w;
      host :=
        match chromeStorage h with
        | None => add_warning "[Click Timer] Chrome storage API not available for saving" h
        | Some area =>
            let data := {| Persisted.lastClickTime := lastClickTime (self w);
                           Persisted.clickCount := Some (clickCount (self w));
                           Persisted.isEnabled := Some (isEnabled (self w));
                           Persisted.timestamp := Some (clock h (ticks h)) |} in
            if storageFault h (storageCalls h)
            then add_warning "[Click Timer] Could not save persisted data:"
                   (count_storage_call (tick h))
            else set_storage (Some (<[storageKey := data]> area)) (S (storageCalls h)) (tick h)
        end |}).
Proof.
  destruct w as [c [clk k area fault calls]].
  unfold savePersistedData, count_storage_call. prim. cbn.
  destruct area; cbn; [|done].
  destruct (fault calls); done.
Qed.

Lemma savePersistedData_normal w :
  savePersistedData w = (Normal tt, exec savePersistedData w).
Proof. unfold exec. by rewrite savePersistedData_eq. Qed.

Lemma save_catch_eq msg w :
  catch_warn savePersistedData msg w = (Normal tt, exec savePersistedData w).
Proof. apply catch_normal, savePersistedData_normal. Qed.

(** Saving touches neither the tracker nor the page. *)
Lemma save_self w : self (exec savePersistedData w) = self w.
Proof. unfold exec. by rewrite savePersistedData_eq. Qed.

Lemma save_display w : display (exec savePersistedData w) = display w.
Proof.
  unfold exec, display. rewrite savePersistedData_eq. cbn.
  destruct (chromeStorage (host w)); [destruct (storageFault _ _)|]; done.
Qed.

Lemma showVisualFeedback_eq message n w :
  showVisualFeedback message n w =
  (Normal tt,
   let w1 := exec removeVisualIndicator w in
   let h := host w1 in
   let el := {| nodeId := nodesCreated h; localName := "div";
                className := "click-timer-indicator";
                textContent := "#" +:+ pretty n +:+ ": " +:+ message |} in
   {| self := set_indicatorTimeout (Some (timersCreated h))
                (set_visualIndicator (Some el) (self w1));
      host := set_timers (timers h ++ [(timersCreated h, CallRemoveVisualIndicator, 2000)])
                (Pos.succ (timersCreated h))
                (set_body (bodyChildren h ++ [el]) (S (nodesCreated h)) h) |}).
Proof.
  unfold showVisualFeedback.
  rewrite (bind_normal _ _ _ _ (removeVisualIndicator_normal w)).
  destruct (exec removeVisualIndicator w) as [c h].
  unfold createVisualIndicator. prim. by cbn.
Qed.

Lemma showVisualFeedback_normal message n w :
  showVisualFeedback message n w = (Normal tt, exec (showVisualFeedback message n) w).
Proof. unfold exec. by rewrite showVisualFeedback_eq. Qed.

(** The display code leaves the counters alone. *)
Lemma remove_core w : core (self (exec removeVisualIndicator w)) = core (self w).
Proof. unfold exec. by rewrite removeVisualIndicator_eq. Qed.

Lemma show_core message n w :
  core (self (exec (showVisualFeedback message n) w)) = core (self w).
Proof.
  unfold exec. rewrite showVisualFeedback_eq. cbn -[exec].
  apply remove_core.
Qed.

(** ** The operations in closed form *)

Lemma handleClick_rejected event w :
  accepted w event = false → handleClick event w = (Normal tt, w).
Proof.
  unfold accepted, handleClick. prim.
  destruct (isEnabled (self w)); cbn; [|done].
  by intros ->.
Qed.

Lemma getHighPrecisionTime_eq w :
  getHighPrecisionTime w =
  (Normal (clock (host w) (ticks (host w))), {| self := self w; host := tick (host w) |}).
Proof. done. Qed.

Lemma handleClick_accepted event w :
  accepted w event = true →
  handleClick event w =
  (Normal tt,
   let now := clock (host w) (ticks (host w)) in
   let w1 := exec (showVisualFeedback (click_message (self w) now) (click_count (self w)))
               {| self := set_clickCount (click_count (self w)) (self w);
                  host := tick (host w) |} in
   exec savePersistedData
     {| self := set_lastClickTime (Some now) (self w1); host := host w1 |}).
Proof.
  unfold accepted. intros [Hen Hok]%andb_true_iff.
  unfold handleClick, click_count, click_message.
  unfold bind at 1, this at 1. rewrite Hen. cbn [negb].
  unfold bind at 1, window at 1. rewrite Hok. cbn [negb].
  unfold bind at 1. rewrite getHighPrecisionTime_eq.
  unfold bind at 1, this at 1. cbn [self host].
  destruct (lastClickTime (self w)) as [last|].
  - unfold updateVisualFeedback. unfold bind at 1 2 3, update, this. cbn [self host].
    rewrite showVisualFeedback_normal.
    unfold bind. rewrite save_catch_eq. done.
  - unfold bind at 1 2 3, update, this. cbn [self host].
    rewrite showVisualFeedback_normal.
    unfold bind. rewrite save_catch_eq. done.
Qed.

Lemma resetTimer_eq w :
  resetTimer w =
  (Normal tt,
   exec savePersistedData
     (exec removeVisualIndicator
        {| self := set_clickCount 0 (set_lastClickTime None (self w)); host := host w |})).
Proof.
  unfold resetTimer. unfold bind at 1 2, update. cbn [self host].
  rewrite (bind_normal _ _ _ _ (removeVisualIndicator_normal _)).
  apply save_catch_eq.
Qed.

Lemma enable_eq w :
  enable w =
  (Normal tt, exec savePersistedData {| self := set_isEnabled true (self w); host := host w |}).
Proof. unfold enable. unfold bind, update. apply save_catch_eq. Qed.

Lemma disable_eq w :
  disable w =
  (Normal tt,
   exec savePersistedData
     (exec removeVisualIndicator
        {| self := set_isEnabled false (self w); host := host w |})).
Proof.
  unfold disable. unfold bind at 1, update. cbn [self host].
  rewrite (bind_normal _ _ _ _ (removeVisualIndicator_normal _)).
  apply save_catch_eq.
Qed.

Lemma getStats_eq w :
  getStats w =
  (Normal {| stats_clickCount := clickCount (self w);
             stats_lastClickTime := lastClickTime (self w);
             stats_isEnabled := isEnabled (self w) |}, w).
Proof. done. Qed.

Lemma fireTimer_eq handle w :
  fireTimer handle w =
  (Normal tt,
   match List.find (λ t, bool_decide (t.1.1 = handle)) (timers (host w)) with
   | Some _ =>
       exec removeVisualIndicator
         {| self := self w;
            host := set_timers (filter (λ t, t.1.1 ≠ handle) (timers (host w)))
                      (timersCreated (host w)) (host w) |}
   | None => w
   end).
Proof.
  unfold fireTimer. unfold bind at 1, window at 1.
  destruct (List.find _ _) as [[[? []] ?]|]; [|done].
  unfold bind, clearTimeout, effect. apply removeVisualIndicator_normal.
Qed.

Lemma loadPersistedData_eq w :
  loadPersistedData w =
  (Normal tt,
   let h := host w in
   match chromeStorage h with
   | None =>
       {| self := self w;
          host := add_warning "[Click Timer] Chrome storage API not available" h |}
   | Some area =>
       if storageFault h (storageCalls h)
       then {| self := self w;
               host := add_warning "[Click Timer] Could not load persisted data:"
                         (count_storage_call h) |}
       else
         match area !! storageKey with
         | None => {| self := self w; host := count_storage_call h |}
         | Some data =>
             let now1 := clock h (ticks h) in
             let now2 := clock h (S (ticks h)) in
             let fast := JS.truthy (Persisted.lastClickTime data)
                         && (now1 - JS.or_default (Persisted.timestamp data) 0 <? 5000) in
             {| self := set_isEnabled (JS.if_defined (Persisted.isEnabled data) true)
                          (set_clickCount (JS.or_defaultN (Persisted.clickCount data) 0)
                             (set_lastClickTime (adopted data now1 now2) (self w)));
                host := if fast then tick (tick (count_storage_call h))
                        else tick (count_storage_call h) |}
         end
   end).
Proof.
  destruct w as [c [clk k area fault calls]].
  unfold loadPersistedData, adopted, count_storage_call. prim. cbn.
  destruct area as [area|]; cbn; [|done].
  destruct (fault calls); cbn; [done|].
  destruct (area !! storageKey) as [data|]; cbn; [|done].
  destruct (JS.truthy _); cbn; [|done].
  destruct (_ <? 5000); cbn; [|done].
  destruct (0 <? _); cbn; [|done].
  destruct (_ <? 300000); done.
Qed.

(** ** Frame facts *)

Lemma remove_services w :
  services (host (exec removeVisualIndicator w)) = services (host w).
Proof. unfold exec. by rewrite removeVisualIndicator_eq. Qed.

Lemma show_services message n w :
  services (host (exec (showVisualFeedback message n) w)) = services (host w).
Proof.
  unfold exec. rewrite showVisualFeedback_eq. cbn -[exec]. apply remove_services.
Qed.

Lemma remove_page w : page (host (exec removeVisualIndicator w)) = page (host w).
Proof. unfold exec. by rewrite removeVisualIndicator_eq. Qed.

Lemma show_page message n w :
  page (host (exec (showVisualFeedback message n) w)) = page (host w).
Proof.
  unfold exec. rewrite showVisualFeedback_eq. cbn -[exec]. apply remove_page.
Qed.

Lemma save_page w : page (host (exec savePersistedData w)) = page (host w).
Proof.
  unfold exec. rewrite savePersistedData_eq. cbn.
  destruct (chromeStorage (host w)); [destruct (storageFault _ _)|]; done.
Qed.

Lemma isValidPageClick_page h1 h2 event :
  page h1 = page h2 → isValidPageClick h1 event = isValidPageClick h2 event.
Proof.
  unfold page, isValidPageClick, closest, inclusive_ancestors, htmlElement, bodyElement.
  intros [= _ -> -> -> ->]. done.
Qed.

(** Every operation returns normally. *)
Lemma step_normal op w : step op w = (Normal tt, exec (step op) w).
Proof.
  unfold exec. destruct op; cbn [step].
  - destruct (accepted w event) eqn:E.
    + by rewrite handleClick_accepted.
    + by rewrite handleClick_rejected.
  - by rewrite resetTimer_eq.
  - by rewrite enable_eq.
  - by rewrite disable_eq.
  - done.
  - by rewrite loadPersistedData_eq.
  - by rewrite fireTimer_eq.
  - apply removeVisualIndicator_normal.
Qed.

Lemma exec_handleClick_accepted event w :
  accepted w event = true →
  exec (handleClick event) w =
  let now := clock (host w) (ticks (host w)) in
  let w1 := exec (showVisualFeedback (click_message (self w) now) (click_count (self w)))
              {| self := set_clickCount (click_count (self w)) (self w);
                 host := tick (host w) |} in
  exec savePersistedData
    {| self := set_lastClickTime (Some now) (self w1); host := host w1 |}.
Proof. intros E. unfold exec at 1. by rewrite handleClick_accepted. Qed.

Lemma exec_handleClick_rejected event w :
  accepted w event = false → exec (handleClick event) w = w.
Proof. intros E. unfold exec. by rewrite handleClick_rejected. Qed.

(** The counters after an accepted click. *)
Lemma accepted_click_core event w :
  accepted w event = true →
  core (self (exec (handleClick event) w)) =
  (Some (clock (host w) (ticks (host w))), click_count (self w), isEnabled (self w)).
Proof.
  intros E. rewrite (exec_handleClick_accepted _ _ E). cbn zeta.
  rewrite save_self.
  pose proof (show_core (click_message (self w) (clock (host w) (ticks (host w))))
                (click_count (self w))
                {| self := set_clickCount (click_count (self w)) (self w);
                   host := tick (host w) |}) as Hc.
  unfold core in *. cbn in *. by injection Hc as _ -> ->.
Qed.

Lemma step_page op w : page (host (exec (step op) w)) = page (host w).
Proof.
  destruct op; cbn [step].
  - destruct (accepted w event) eqn:E.
    + rewrite (exec_handleClick_accepted _ _ E). cbn zeta.
      rewrite save_page. cbn [host]. by rewrite show_page.
    + by rewrite exec_handleClick_rejected.
  - unfold exec at 1. rewrite resetTimer_eq. cbn [snd].
    by rewrite save_page, remove_page.
  - unfold exec at 1. rewrite enable_eq. cbn [snd]. by rewrite save_page.
  - unfold exec at 1. rewrite disable_eq. cbn [snd].
    by rewrite save_page, remove_page.
  - done.
  - unfold exec. rewrite loadPersistedData_eq. cbn.
    destruct (chromeStorage (host w)); [|done].
    destruct (storageFault _ _); [done|].
    destruct (_ !! _); [|done]. cbn.
    by destruct (_ && _).
  - unfold exec at 1. rewrite fireTimer_eq. cbn [snd].
    destruct (List.find _ _); [|done]. by rewrite remove_page.
  - apply remove_page.
Qed.

(** What [showVisualFeedback] leaves on the page. *)
Lemma show_display message n w :
  let w0 := exec removeVisualIndicator w in
  let el := {| nodeId := nodesCreated (host w0); localName := "div";
               className := "click-timer-indicator";
               textContent := "#" +:+ pretty n +:+ ": " +:+ message |} in
  display (exec (showVisualFeedback message n) w) =
  (Some el, Some (timersCreated (host w0)),
   bodyChildren (host w0) ++ [el],
   timers (host w0) ++ [(timersCreated (host w0), CallRemoveVisualIndicator, 2000)]).
Proof. cbn zeta. unfold exec at 1. by rewrite showVisualFeedback_eq. Qed.

(** The display an accepted click leaves is the one [showVisualFeedback]
    made. *)
Lemma accepted_click_display event w :
  accepted w event = true →
  display (exec (handleClick event) w) =
  display (exec (showVisualFeedback
                   (click_message (self w) (clock (host w) (ticks (host w))))
                   (click_count (self w)))
             {| self := set_clickCount (click_count (self w)) (self w);
                host := tick (host w) |}).
Proof.
  intros E. rewrite (exec_handleClick_accepted _ _ E). cbn zeta.
  by rewrite save_display.
Qed.

(** The indicator an accepted click shows. *)
Lemma accepted_click_indicator event w :
  accepted w event = true →
  ∃ el, visualIndicator (self (exec (handleClick event) w)) = Some el
        ∧ el ∈ bodyChildren (host (exec (handleClick event) w))
        ∧ textContent el =
          "#" +:+ pretty (click_count (self w)) +:+ ": "
              +:+ click_message (self w) (clock (host w) (ticks (host w))).
Proof.
  intros E. pose proof (accepted_click_display _ _ E) as Hd.
  rewrite show_display in Hd. unfold display at 1 in Hd. cbn zeta in Hd.
  injection Hd as Hv _ Hb _.
  eexists. split; [exact Hv|]. split; [|done].
  rewrite Hb. set_solver.
Qed.

Lemma core_fields c1 c2 :
  core c1 = core c2 ↔
  lastClickTime c1 = lastClickTime c2 ∧ clickCount c1 = clickCount c2
  ∧ isEnabled c1 = isEnabled c2.
Proof. unfold core. split; [intros [= -> -> ->]|intros (-> & -> & ->)]; done. Qed.

Lemma remove_fields w :
  lastClickTime (self (exec removeVisualIndicator w)) = lastClickTime (self w)
  ∧ clickCount (self (exec removeVisualIndicator w)) = clickCount (self w)
  ∧ isEnabled (self (exec removeVisualIndicator w)) = isEnabled (self w).
Proof. apply core_fields, remove_core. Qed.

(** ** Control commands *)

(** C10. Frame conditions of the control commands: [enable] and [disable]
    change [isEnabled] (to [true] and [false]) and leave [clickCount] and
    [lastClickTime] as they were; [resetTimer] leaves [isEnabled] as it
    was; [getStats] returns the three counters and changes nothing at
    all. *)
Theorem control_commands_frame (w : World) :
  (isEnabled (self (exec enable w)) = true
   ∧ clickCount (self (exec enable w)) = clickCount (self w)
   ∧ lastClickTime (self (exec enable w)) = lastClickTime (self w))
  ∧ (isEnabled (self (exec disable w)) = false
     ∧ clickCount (self (exec disable w)) = clickCount (self w)
     ∧ lastClickTime (self (exec disable w)) = lastClickTime (self w))
  ∧ isEnabled (self (exec resetTimer w)) = isEnabled (self w)
  ∧ getStats w =
    (Normal {| stats_clickCount := clickCount (self w);
               stats_lastClickTime := lastClickTime (self w);
               stats_isEnabled := isEnabled (self w) |}, w).
Proof.
  split; [|split; [|split]].
  - unfold exec. rewrite enable_eq. cbn [snd]. by rewrite save_self.
  - unfold exec. rewrite disable_eq. cbn [snd]. rewrite save_self.
    destruct (remove_fields {| self := set_isEnabled false (self w); host := host w |})
      as (-> & -> & ->). done.
  - unfold exec at 1. rewrite resetTimer_eq. cbn [snd]. rewrite save_self.
    destruct (remove_fields {| self := set_clickCount 0 (set_lastClickTime None (self w));
                               host := host w |}) as (_ & _ & ->). done.
  - apply getStats_eq.
Qed.

(** ** Reset *)

(** What saving does to the storage area. *)
Lemma save_storage w :
  chromeStorage (host (exec savePersistedData w)) =
  match chromeStorage (host w) with
  | None => None
  | Some area =>
      if storageFault (host w) (storageCalls (host w)) then Some area
      else Some (<[storageKey :=
                    {| Persisted.lastClickTime := lastClickTime (self w);
                       Persisted.clickCount := Some (clickCount (self w));
                       Persisted.isEnabled := Some (isEnabled (self w));
                       Persisted.timestamp := Some (clock (host w) (ticks (host w))) |}]> area)
  end.
Proof.
  unfold exec. rewrite savePersistedData_eq. cbn.
  destruct (chromeStorage (host w)) eqn:E; cbn; [|done].
  destruct (storageFault _ _); cbn; done.
Qed.

Lemma not_attached_after_filter (el : Element) (children : list Element) :
  nodeId el ∉ nodeId <$> filter (λ c, nodeId c ≠ nodeId el) children.
Proof.
  intros (c & Hid & Hin)%list_elem_of_fmap.
  apply list_elem_of_filter in Hin as [Hne _]. by apply Hne.
Qed.

Lemma not_pending_after_filter (handle : positive) (pending : list (positive * Callback * Z)) :
  handle ∉ (λ t, t.1.1) <$> filter (λ t, t.1.1 ≠ handle) pending.
Proof.
  intros (t & Hid & Hin)%list_elem_of_fmap.
  apply list_elem_of_filter in Hin as [Hne _]. by apply Hne.
Qed.

(** After [removeVisualIndicator] the tracked indicator is out of the body
    and the tracked timer is not pending. *)
Lemma remove_detaches w :
  let w' := exec removeVisualIndicator w in
  indicatorTimeout (self w') = None
  ∧ match visualIndicator (self w) with
    | Some el => attached (host w') el = false
    | None => visualIndicator (self w') = None
    end
  ∧ match indicatorTimeout (self w) with
    | Some handle => handle ∉ (λ t, t.1.1) <$> timers (host w')
    | None => True
    end.
Proof.
  unfold exec. rewrite removeVisualIndicator_eq. cbn.
  split; [done|]. split.
  - destruct (visualIndicator (self w)) as [el|]; [|done].
    destruct (attached (host w) el) eqn:E; unfold attached in *; cbn.
    + apply bool_decide_eq_false, not_attached_after_filter.
    + done.
  - destruct (indicatorTimeout (self w)); [|done].
    apply not_pending_after_filter.
Qed.

(** On a consistent display [removeVisualIndicator] leaves nothing. *)
Lemma remove_display w :
  match visualIndicator (self w) with
  | Some el => bodyChildren (host w) = [el]
  | None => bodyChildren (host w) = []
  end →
  match indicatorTimeout (self w) with
  | Some handle => filter (λ t, t.1.1 ≠ handle) (timers (host w)) = []
  | None => timers (host w) = []
  end →
  display (exec removeVisualIndicator w) = (None, None, [], []).
Proof.
  intros Hbody Htimers.
  unfold exec, display. rewrite removeVisualIndicator_eq. cbn.
  assert (match indicatorTimeout (self w) with
          | Some handle => filter (λ t, t.1.1 ≠ handle) (timers (host w))
          | None => timers (host w)
          end = []) as ->.
  { by destruct (indicatorTimeout (self w)). }
  destruct (visualIndicator (self w)) as [el|]; [|by rewrite Hbody].
  unfold attached. rewrite Hbody. cbn.
  rewrite bool_decide_eq_true_2 by apply list_elem_of_here.
  by rewrite decide_False by (intros H; by apply H).
Qed.

Lemma tracked_timer_filter w :
  display_ok w →
  match indicatorTimeout (self w) with
  | Some handle => filter (λ t, t.1.1 ≠ handle) (timers (host w)) = []
  | None => timers (host w) = []
  end.
Proof.
  intros [_ Ht]. destruct (indicatorTimeout (self w)) as [handle|]; [|done].
  destruct Ht as [-> _].
  by rewrite filter_cons_False, filter_nil by (intros H; by apply H).
Qed.

(** C7. For every prior state, [resetTimer] returns normally with
    [clickCount = 0] and [lastClickTime] absent; the indicator the tracker
    was showing is out of the page and its auto-hide timer is cancelled
    (on a consistent display nothing is left of it at all); and the record
    handed to the storage is the cleared state, which the storage area
    holds afterwards whenever the storage is there and the write does not
    fail. *)
Theorem resetTimer_clears (w : World) :
  let w' := exec resetTimer w in
  completion resetTimer w = Normal tt
  ∧ clickCount (self w') = 0%N
  ∧ lastClickTime (self w') = None
  ∧ indicatorTimeout (self w') = None
  ∧ match visualIndicator (self w) with
    | Some el => attached (host w') el = false
    | None => visualIndicator (self w') = None
    end
  ∧ match indicatorTimeout (self w) with
    | Some handle => handle ∉ (λ t, t.1.1) <$> timers (host w')
    | None => True
    end
  ∧ (display_ok w → display w' = (None, None, [], []))
  ∧ chromeStorage (host w') =
    match chromeStorage (host w) with
    | None => None
    | Some area =>
        if storageFault (host w) (storageCalls (host w)) then Some area
        else Some (<[storageKey :=
                      {| Persisted.lastClickTime := None;
                         Persisted.clickCount := Some 0%N;
                         Persisted.isEnabled := Some (isEnabled (self w));
                         Persisted.timestamp := Some (clock (host w) (ticks (host w))) |}]> area)
    end.
Proof.
  set (w0 := {| self := set_clickCount 0 (set_lastClickTime None (self w)); host := host w |}).
  assert (exec resetTimer w = exec savePersistedData (exec removeVisualIndicator w0)) as Hw.
  { unfold exec at 1. by rewrite resetTimer_eq. }
  cbn zeta. rewrite Hw.
  destruct (remove_fields w0) as (Hl & Hn & He).
  destruct (remove_detaches w0) as (Ht & Hv & Hp). cbn zeta in *.
  assert (services (host (exec removeVisualIndicator w0)) = services (host w)) as Hs
    by exact (remove_services w0).
  unfold services in Hs. injection Hs as Hclk Htk Hst Hf Hc _.
  split; [|split; [|split; [|split; [|split; [|split; [|split]]]]]].
  - unfold completion. by rewrite resetTimer_eq.
  - by rewrite save_self, Hn.
  - by rewrite save_self, Hl.
  - by rewrite save_self.
  - cbn in Hv. destruct (visualIndicator (self w)) as [el|].
    + unfold attached in *.
      pose proof (save_display (exec removeVisualIndicator w0)) as Hd.
      unfold display in Hd. injection Hd as _ _ -> _. done.
    + by rewrite save_self.
  - cbn in Hp. destruct (indicatorTimeout (self w)); [|done].
    pose proof (save_display (exec removeVisualIndicator w0)) as Hd.
    unfold display in Hd. injection Hd as _ _ _ ->. done.
  - intros Hok. rewrite save_display. apply remove_display.
    + apply Hok.
    + apply (tracked_timer_filter w Hok).
  - rewrite save_storage, Hst, Hf, Hc, Hclk, Htk, Hl, Hn, He. done.
Qed.

(** ** The click filter *)

Lemma find_is_Some {A} (f : A → bool) (l : list A) :
  is_Some (List.find f l) ↔ ∃ x, x ∈ l ∧ f x = true.
Proof.
  split.
  - intros [x Hx]. apply List.find_some in Hx as [Hin Hf].
    exists x. by rewrite list_elem_of_In.
  - intros (x & Hin%list_elem_of_In & Hf).
    destruct (List.find f l) eqn:E; [done|].
    pose proof (List.find_none _ _ E x Hin). congruence.
Qed.

(** Inside the body, the [html] element is always found. *)
Lemma closest_html_in_body h path :
  is_Some (closest h (TagSel "html") (InBody path)).
Proof.
  apply find_is_Some. exists (htmlElement h). split; [|done].
  cbn. set_solver.
Qed.

Lemma closest_indicator h event :
  is_Some (closest h (ClassSel "click-timer-indicator") (target event))
  ↔ in_indicator h event.
Proof.
  unfold closest, in_indicator. rewrite find_is_Some.
  split; intros (el & Hin & Hm); exists el; (split; [done|]).
  - cbn in Hm. by apply bool_decide_eq_true in Hm.
  - cbn. by apply bool_decide_eq_true.
Qed.

Lemma isValidPageClick_false h event :
  isValidPageClick h event = false ↔
  body_contains (target event) = false ∨ near_edge h event ∨ in_indicator h event.
Proof.
  unfold isValidPageClick. rewrite <- closest_indicator.
  destruct (target event) as [path|path] eqn:Et; cbn [body_contains negb].
  { split; auto. }
  destruct (closest_html_in_body h path) as [root ->].
  unfold near_edge.
  destruct (closest h (ClassSel _) _) as [el|].
  - split; [|done]. intros _. right. right. by eexists.
  - rewrite andb_true_r, negb_false_iff, orb_true_iff, !Z.ltb_lt.
    split.
    + intros [?|?]; right; left; lia.
    + intros [?|[[?|?]|[? ?]]]; [done|left; lia|right; lia|done].
Qed.

Lemma accepted_false w event :
  accepted w event = false ↔
  isEnabled (self w) = false ∨ body_contains (target event) = false
  ∨ near_edge (host w) event ∨ in_indicator (host w) event.
Proof.
  unfold accepted. rewrite andb_false_iff, isValidPageClick_false. tauto.
Qed.

Lemma click_count_changes c : click_count c ≠ clickCount c ∨ lastClickTime c = None.
Proof.
  unfold click_count. destruct (lastClickTime c); [left; lia|by right].
Qed.

(** C4. A click leaves the three counters and the display as they were
    if and only if the tracker is disabled, or the target is not inside the
    document body, or the pointer is less than 20 units from the right or
    the bottom edge of the viewport, or the target is the indicator or
    inside it.  A rejected click changes nothing at all; any other click
    changes the counters and shows an indicator; and the edge and indicator
    rejections hold whatever [isEnabled] is. *)
Theorem click_rejected_iff (w : World) (event : Event) :
  let w' := exec (handleClick event) w in
  let rejected :=
    isEnabled (self w) = false ∨ body_contains (target event) = false
    ∨ near_edge (host w) event ∨ in_indicator (host w) event in
  completion (handleClick event) w = Normal tt
  ∧ (core (self w') = core (self w) ∧ display w' = display w ↔ rejected)
  ∧ (rejected → w' = w)
  ∧ (¬ rejected →
     core (self w') ≠ core (self w)
     ∧ ∃ el, visualIndicator (self w') = Some el ∧ el ∈ bodyChildren (host w'))
  ∧ (near_edge (host w) event ∨ in_indicator (host w) event →
     ∀ enabled : bool,
       let w0 := {| self := set_isEnabled enabled (self w); host := host w |} in
       exec (handleClick event) w0 = w0).
Proof.
  cbn zeta. rewrite <- accepted_false.
  assert (accepted w event = true →
          core (self (exec (handleClick event) w)) ≠ core (self w)) as Hchanged.
  { intros E Hc. rewrite (accepted_click_core _ _ E) in Hc. unfold core in Hc.
    injection Hc as Hl Hn.
    destruct (click_count_changes (self w)); congruence. }
  split; [|split; [|split; [|split]]].
  - unfold completion. change (handleClick event) with (step (Click event)).
    by rewrite step_normal.
  - destruct (accepted w event) eqn:E.
    + split; [|done]. intros [Hc _]. by destruct Hchanged.
    + rewrite (exec_handleClick_rejected _ _ E). done.
  - apply exec_handleClick_rejected.
  - intros E%not_false_is_true. split; [by apply Hchanged|].
    destruct (accepted_click_indicator _ _ E) as (el & Hv & Hin & _).
    by exists el.
  - intros Hrej enabled. apply exec_handleClick_rejected, accepted_false.
    cbn. tauto.
Qed.

(** ** The counter invariant *)


Lemma save_keeps_invariant w :
  count_inv (self w) → storage_inv (host w) →
  count_inv (self (exec savePersistedData w))
  ∧ storage_inv (host (exec savePersistedData w)).
Proof.
  intros Hc Hs. rewrite save_self. split; [done|].
  unfold storage_inv. rewrite save_storage.
  unfold storage_inv in Hs.
  destruct (chromeStorage (host w)) as [area|]; [|done].
  destruct (storageFault _ _); [done|].
  rewrite lookup_insert_eq. unfold record_inv. cbn.
  intros Hz. apply Hc.
  destruct (clickCount (self w) =? 0)%N eqn:E; [by apply N.eqb_eq|done].
Qed.

Lemma count_inv_core c1 c2 : core c1 = core c2 → count_inv c2 → count_inv c1.
Proof. intros (Hl & Hn & _)%core_fields. unfold count_inv. by rewrite Hl, Hn. Qed.

Lemma storage_inv_services h1 h2 :
  services h1 = services h2 → storage_inv h2 → storage_inv h1.
Proof. unfold services, storage_inv. by intros [= _ _ -> _ _ _]. Qed.

Lemma remove_keeps_invariant w :
  count_inv (self w) → storage_inv (host w) →
  count_inv (self (exec removeVisualIndicator w))
  ∧ storage_inv (host (exec removeVisualIndicator w)).
Proof.
  intros Hc Hs. split.
  - by apply (count_inv_core _ _ (remove_core w)).
  - by apply (storage_inv_services _ _ (remove_services w)).
Qed.

Lemma adopted_invariant data now1 now2 :
  record_inv data →
  JS.or_defaultN (Persisted.clickCount data) 0 = 0%N →
  adopted data now1 now2 = None.
Proof.
  intros Hr Hz. unfold adopted. by rewrite (Hr Hz).
Qed.

(** C5. Every operation preserves the invariant that [clickCount == 0]
    implies an absent [lastClickTime]: click handling (accepted or
    rejected), reset, enable, disable, reading the stats, a timer firing,
    cleanup, and the startup load, provided the persisted record satisfies
    the invariant itself.  The record an operation persists satisfies it
    again. *)
Theorem operations_preserve_count_invariant (op : Op) (w : World) :
  count_inv (self w) → storage_inv (host w) →
  count_inv (self (exec (step op) w)) ∧ storage_inv (host (exec (step op) w)).
Proof.
  intros Hc Hs. destruct op; cbn [step].
  - destruct (accepted w event) eqn:E.
    + rewrite (exec_handleClick_accepted _ _ E). cbn zeta.
      set (now := clock (host w) (ticks (host w))).
      set (w0 := {| self := set_clickCount (click_count (self w)) (self w);
                    host := tick (host w) |}).
      set (w1 := exec (showVisualFeedback _ _) w0).
      assert (clickCount (self w1) = click_count (self w)) as Hn.
      { destruct (proj1 (core_fields _ _) (show_core (click_message (self w) now)
                                             (click_count (self w)) w0))
          as (_ & Hn & _). exact Hn. }
      apply save_keeps_invariant.
      * unfold count_inv. cbn. rewrite Hn. unfold click_count.
        destruct (lastClickTime (self w)); lia.
      * cbn [host]. apply (storage_inv_services _ (host w0)); [apply show_services|].
        exact Hs.
    + by rewrite exec_handleClick_rejected.
  - unfold exec. rewrite resetTimer_eq. cbn [snd].
    apply save_keeps_invariant; apply remove_keeps_invariant; done.
  - unfold exec. rewrite enable_eq. cbn [snd].
    by apply save_keeps_invariant.
  - unfold exec. rewrite disable_eq. cbn [snd].
    apply save_keeps_invariant; apply remove_keeps_invariant; done.
  - done.
  - unfold exec. rewrite loadPersistedData_eq. cbn.
    unfold storage_inv in *.
    destruct (chromeStorage (host w)) as [area|] eqn:Ea; cbn; [|by rewrite Ea].
    destruct (storageFault _ _); cbn; [by rewrite Ea|].
    destruct (area !! storageKey) as [data|] eqn:Ed; cbn.
    + split.
      * unfold count_inv. cbn. by apply adopted_invariant.
      * destruct (_ && _); cbn; by rewrite Ea, Ed.
    + by rewrite Ea, Ed.
  - unfold exec. rewrite fireTimer_eq. cbn [snd].
    destruct (List.find _ _); [|done].
    by apply remove_keeps_invariant.
  - by apply remove_keeps_invariant.
Qed.

(** A page that loads 1999 ms after three clicks were saved, then takes a
    click. *)
Lemma operations_preserve_count_invariant_witness :
  let data := {| Persisted.lastClickTime := Some 1700000000000;
                 Persisted.clickCount := Some 3%N;
                 Persisted.isEnabled := Some true;
                 Persisted.timestamp := Some 1700000000001 |} in
  let h := sample_host [1700000001990; 1700000002000; 1700000002001; 1700000002500]
             (Some {[ storageKey := data ]}) in
  let w := exec (step Load) (constructor h) in
  (count_inv (self w) ∧ storage_inv (host w))
  ∧ (count_inv (self (exec (step (Click sample_click)) w))
     ∧ storage_inv (host (exec (step (Click sample_click)) w))).
Proof.
  cbn zeta.
  assert (count_inv (self (constructor
            (sample_host [1700000001990; 1700000002000; 1700000002001; 1700000002500]
               (Some {[ storageKey :=
                          {| Persisted.lastClickTime := Some 1700000000000;
                             Persisted.clickCount := Some 3%N;
                             Persisted.isEnabled := Some true;
                             Persisted.timestamp := Some 1700000000001 |} ]})))))
    as Hc by (vm_compute; intros _; reflexivity).
  assert (storage_inv (host (constructor
            (sample_host [1700000001990; 1700000002000; 1700000002001; 1700000002500]
               (Some {[ storageKey :=
                          {| Persisted.lastClickTime := Some 1700000000000;
                             Persisted.clickCount := Some 3%N;
                             Persisted.isEnabled := Some true;
                             Persisted.timestamp := Some 1700000000001 |} ]})))))
    as Hs by (vm_compute; discriminate).
  pose proof (operations_preserve_count_invariant Load _ Hc Hs) as Hload.
  split; [exact Hload|].
  exact (operations_preserve_count_invariant (Click sample_click) _
           (proj1 Hload) (proj2 Hload)).
Defined.

(** ** Startup load *)

Lemma or_default_zero v : JS.or_default v 0 = default 0 v.
Proof.
  destruct v as [n|]; cbn; [|done].
  destruct (Z.eqb_spec n 0); done.
Qed.

Lemma adopted_Some data now1 now2 T :
  adopted data now1 now2 = Some T ↔
  Persisted.lastClickTime data = Some T ∧ T ≠ 0
  ∧ now1 - default 0 (Persisted.timestamp data) < 5000
  ∧ 0 < now2 - T < 300000.
Proof.
  unfold adopted. rewrite or_default_zero.
  assert (∀ o : option Z,
            (o = Some T ↔ Persisted.lastClickTime data = Some T ∧ T ≠ 0
                           ∧ now1 - default 0 (Persisted.timestamp data) < 5000
                           ∧ 0 < now2 - T < 300000)
            ↔ (o = Some T → Persisted.lastClickTime data = Some T ∧ T ≠ 0
                           ∧ now1 - default 0 (Persisted.timestamp data) < 5000
                           ∧ 0 < now2 - T < 300000)
              ∧ (Persisted.lastClickTime data = Some T → T ≠ 0
                 → now1 - default 0 (Persisted.timestamp data) < 5000
                 → 0 < now2 - T < 300000 → o = Some T)) as Hsplit by (intros; tauto).
  apply Hsplit. clear Hsplit.
  destruct (Persisted.lastClickTime data) as [t|]; cbn; [|split; congruence].
  destruct (Z.eqb_spec t 0); cbn; [split; congruence|].
  destruct (Z.ltb_spec (now1 - default 0 (Persisted.timestamp data)) 5000); cbn;
    [|split; [congruence|lia]].
  destruct (Z.ltb_spec 0 (now2 - t)); cbn;
    [|split; [congruence|intros [= ->]; lia]].
  destruct (Z.ltb_spec (now2 - t) 300000); cbn.
  - split; [intros [= ->]; repeat split; (done || lia)|done].
  - split; [congruence|intros [= ->]; lia].
Qed.

Lemma load_found w area data :
  chromeStorage (host w) = Some area →
  storageFault (host w) (storageCalls (host w)) = false →
  area !! storageKey = Some data →
  self (exec loadPersistedData w) =
  set_isEnabled (JS.if_defined (Persisted.isEnabled data) true)
    (set_clickCount (JS.or_defaultN (Persisted.clickCount data) 0)
       (set_lastClickTime
          (adopted data (clock (host w) (ticks (host w)))
             (clock (host w) (S (ticks (host w)))))
          (self w))).
Proof.
  intros Ha Hf Hd. unfold exec. rewrite loadPersistedData_eq. cbn.
  by rewrite Ha, Hf, Hd.
Qed.


(** Loading 3000 ms after the save and 2000 ms after the click adopts the
    timestamp; 6000 ms after the save it is cleared whatever the click's
    age; a click 400000 ms old is cleared however recent the save. *)
Example load_recent_save_recent_click :
  adopted {| Persisted.lastClickTime := Some 1700000001000;
             Persisted.clickCount := Some 2%N;
             Persisted.isEnabled := Some true;
             Persisted.timestamp := Some 1700000000000 |}
    1700000003000 1700000003000 = Some 1700000001000.
Proof. reflexivity. Qed.

Example load_stale_save :
  adopted {| Persisted.lastClickTime := Some 1700000001000;
             Persisted.clickCount := Some 2%N;
             Persisted.isEnabled := Some true;
             Persisted.timestamp := Some 1700000000000 |}
    1700000006000 1700000006000 = None.
Proof. reflexivity. Qed.

Example load_stale_click :
  adopted {| Persisted.lastClickTime := Some 1700000000000;
             Persisted.clickCount := Some 2%N;
             Persisted.isEnabled := Some true;
             Persisted.timestamp := Some 1700000399000 |}
    1700000400000 1700000400000 = None.
Proof. reflexivity. Qed.



(** ** Intervals *)

(** Rounding a whole number of milliseconds, written in seconds, to three
    decimals gives the milliseconds back. *)
Lemma nearest_scaled_millis (d : Z) :
  0 ≤ d → JS.nearest_scaled 3 (Qabs (inject_Z d / 1000)) = d.
Proof.
  intros Hd. unfold JS.nearest_scaled.
  assert (Qabs (inject_Z d / 1000) * inject_Z (10 ^ Z.of_nat 3) + (1 # 2)
          == (2 * d + 1) # 2)%Q as ->.
  { rewrite Qabs_pos.
    - unfold Qeq, Qdiv, Qmult, Qplus, Qinv, inject_Z. cbn. lia.
    - unfold Qle, Qdiv, Qmult, Qinv, inject_Z. cbn. lia. }
  unfold Qfloor. cbn -[Z.mul Z.div].
  symmetry. apply (Z.div_unique _ _ _ 1); lia.
Qed.

Lemma toFixed_millis (d : Z) :
  0 ≤ d →
  JS.toFixed 3 (inject_Z d / 1000) = JS.place_point 3 (pretty (Z.to_N d)).
Proof.
  intros Hd. unfold JS.toFixed. rewrite (nearest_scaled_millis d Hd).
  assert (JS.Qltb (inject_Z d / 1000) 0 = false) as ->; [|done].
  unfold JS.Qltb. apply negb_false_iff, Qle_bool_iff.
  unfold Qle, Qdiv, Qmult, Qinv, inject_Z. cbn. lia.
Qed.

(** C3. When the previous accepted click left [lastClickTime = t1] and the
    next accepted click reads the clock at [t2 > t1], that click adds
    exactly one to [clickCount], records [t2], and shows
    ["#<count>: <interval>s"] where the interval is [(t2 - t1) / 1000]
    seconds printed with three decimals; the three decimals carry the
    [t2 - t1] milliseconds exactly. *)
Theorem consecutive_click_interval (w : World) (event : Event) (t1 : Z) :
  accepted w event = true →
  lastClickTime (self w) = Some t1 →
  let t2 := clock (host w) (ticks (host w)) in
  t1 < t2 →
  let w' := exec (handleClick event) w in
  let interval := (inject_Z (t2 - t1) / 1000)%Q in
  clickCount (self w') = (clickCount (self w) + 1)%N
  ∧ lastClickTime (self w') = Some t2
  ∧ (∃ el, visualIndicator (self w') = Some el
           ∧ el ∈ bodyChildren (host w')
           ∧ textContent el =
             "#" +:+ pretty (clickCount (self w) + 1)%N +:+ ": "
                 +:+ JS.toFixed 3 interval +:+ "s")
  ∧ (interval * 1000 == inject_Z (t2 - t1))%Q
  ∧ JS.nearest_scaled 3 (Qabs interval) = t2 - t1
  ∧ JS.toFixed 3 interval = JS.place_point 3 (pretty (Z.to_N (t2 - t1))).
Proof.
  intros E Hlast t2 Hlt. cbn zeta.
  pose proof (accepted_click_core _ _ E) as Hc.
  unfold core in Hc. injection Hc as Hl Hn _.
  destruct (accepted_click_indicator _ _ E) as (el & Hv & Hin & Htext).
  unfold click_count, click_message in *. rewrite Hlast in *.
  split; [exact Hn|]. split; [exact Hl|].
  split; [by exists el|].
  split; [|split].
  - unfold Qeq, Qdiv, Qmult, Qinv, inject_Z. cbn. lia.
  - apply nearest_scaled_millis. fold t2. lia.
  - apply toFixed_millis. fold t2. lia.
Qed.

Lemma consecutive_click_interval_witness :
  let w := exec (handleClick sample_click)
            (constructor (sample_host [1000; 5000; 5001; 5127; 5128] (Some ∅))) in
  let w' := exec (handleClick sample_click) w in
  clickCount (self w') = 2%N
  ∧ lastClickTime (self w') = Some 5127
  ∧ textContent <$> visualIndicator (self w') = Some "#2: 0.127s".
Proof.
  cbn zeta.
  pose proof (consecutive_click_interval
                (exec (handleClick sample_click)
                   (constructor (sample_host [1000; 5000; 5001; 5127; 5128] (Some ∅))))
                sample_click 5000 eq_refl eq_refl eq_refl)
    as (Hn & Hl & (el & Hv & _ & Ht) & _).
  split; [exact Hn|]. split; [exact Hl|].
  rewrite Hv. cbn [fmap option_fmap option_map]. f_equal. exact Ht.
Defined.

(** ** Two clicks on a fresh tracker *)

Lemma page_fields h1 h2 :
  page h1 = page h2 →
  clock h1 = clock h2 ∧ ∀ event, isValidPageClick h1 event = isValidPageClick h2 event.
Proof.
  intros Hp. split.
  - unfold page in Hp. by injection Hp.
  - intros event. by apply isValidPageClick_page.
Qed.

(** C6. On a freshly constructed tracker ([clickCount = 0], no
    [lastClickTime], enabled), two accepted clicks whose clock readings are
    127 ms apart give: after the first click an indicator reading
    ["#1: First click recorded"] (sequence number 1, the first-click label,
    no interval) and [clickCount = 1]; after the second an indicator reading
    ["#2: 0.127s"] and [clickCount = 2]. *)
Theorem two_clicks_127ms_apart (h : Host) (click1 click2 : Event) :
  isValidPageClick h click1 = true →
  isValidPageClick h click2 = true →
  let w0 := constructor h in
  let w1 := exec (handleClick click1) w0 in
  let w2 := exec (handleClick click2) w1 in
  clock h (ticks (host w1)) = clock h (ticks (host w0)) + 127 →
  core (self w0) = (None, 0%N, true)
  ∧ (∃ el, visualIndicator (self w1) = Some el ∧ el ∈ bodyChildren (host w1)
           ∧ textContent el = "#1: First click recorded")
  ∧ clickCount (self w1) = 1%N
  ∧ (∃ el, visualIndicator (self w2) = Some el ∧ el ∈ bodyChildren (host w2)
           ∧ textContent el = "#2: 0.127s")
  ∧ clickCount (self w2) = 2%N.
Proof.
  intros Hok1 Hok2 w0 w1 w2 Hclock.
  assert (accepted w0 click1 = true) as E1.
  { unfold accepted. cbn. by rewrite <- Hok1. }
  pose proof (accepted_click_core _ _ E1) as Hc1. fold w1 in Hc1.
  unfold core in Hc1. injection Hc1 as Hl1 Hn1 He1. cbn in Hn1, He1.
  destruct (page_fields _ _ (step_page (Click click1) w0)) as [Hclk Hvalid].
  cbn [step] in Hclk, Hvalid. fold w1 in Hclk, Hvalid.
  assert (accepted w1 click2 = true) as E2.
  { unfold accepted. rewrite He1, Hvalid. cbn. by rewrite <- Hok2. }
  pose proof (accepted_click_core _ _ E2) as Hc2. fold w2 in Hc2.
  unfold core in Hc2. injection Hc2 as _ Hn2 _.
  assert (click_count (self w1) = 2%N) as Hcount.
  { unfold click_count. by rewrite Hl1, Hn1. }
  assert (click_message (self w1) (clock (host w1) (ticks (host w1))) = "0.127s") as Hmsg.
  { unfold click_message. rewrite Hl1, Hclk.
    change (clock (host w0)) with (clock h). rewrite Hclock.
    change (ticks (host w0)) with (S (ticks h)).
    replace (clock h (S (ticks h)) + 127 - clock h (S (ticks h))) with 127 by lia.
    reflexivity. }
  split; [done|]. split; [|split; [exact Hn1|split; [|by rewrite Hn2]]].
  - destruct (accepted_click_indicator _ _ E1) as (el & Hv & Hin & Ht).
    exists el. split; [exact Hv|]. split; [exact Hin|]. by rewrite Ht.
  - destruct (accepted_click_indicator _ _ E2) as (el & Hv & Hin & Ht).
    exists el. split; [exact Hv|]. split; [exact Hin|].
    rewrite Ht, Hcount, Hmsg. reflexivity.
Qed.

Lemma two_clicks_127ms_apart_witness :
  let h := sample_host [1000; 5000; 5001; 5127; 5128] (Some ∅) in
  let w1 := exec (handleClick sample_click) (constructor h) in
  let w2 := exec (handleClick sample_click) w1 in
  (textContent <$> visualIndicator (self w1) = Some "#1: First click recorded"
   ∧ clickCount (self w1) = 1%N)
  ∧ (textContent <$> visualIndicator (self w2) = Some "#2: 0.127s"
     ∧ clickCount (self w2) = 2%N).
Proof.
  cbn zeta.
  pose proof (two_clicks_127ms_apart
                (sample_host [1000; 5000; 5001; 5127; 5128] (Some ∅))
                sample_click sample_click eq_refl eq_refl eq_refl)
    as (_ & (el1 & Hv1 & _ & Ht1) & Hn1 & (el2 & Hv2 & _ & Ht2) & Hn2).
  split; (split; [|assumption]).
  - rewrite Hv1. cbn [fmap option_fmap option_map]. by rewrite Ht1.
  - rewrite Hv2. cbn [fmap option_fmap option_map]. by rewrite Ht2.
Defined.

(** ** Counting clicks *)

(** As long as an absent [lastClickTime] goes with a zero [clickCount]
    (a fresh tracker, or one just reset), every accepted click adds one. *)
Lemma accepted_clicks_add (events : list Event) (w : World) :
  isEnabled (self w) = true →
  Forall (λ event, isValidPageClick (host w) event = true) events →
  (lastClickTime (self w) = None → clickCount (self w) = 0%N) →
  clickCount (self (run (Click <$> events) w))
  = (clickCount (self w) + N.of_nat (length events))%N.
Proof.
  revert w. induction events as [|event events IH]; intros w Hen Hok Hzero.
  - cbn. lia.
  - apply Forall_cons in Hok as [Hok1 Hok].
    assert (accepted w event = true) as E.
    { unfold accepted. by rewrite Hen, Hok1. }
    cbn [fmap list_fmap run foldl step].
    pose proof (accepted_click_core _ _ E) as Hc.
    unfold core in Hc. injection Hc as Hl Hn He.
    destruct (page_fields _ _ (step_page (Click event) w)) as [_ Hvalid].
    cbn [step] in Hvalid.
    change (foldl _ ?w0 (Click <$> events)) with (run (Click <$> events) w0).
    rewrite IH.
    + rewrite Hn. unfold click_count.
      destruct (lastClickTime (self w)); [|rewrite Hzero by done]; cbn [length]; lia.
    + by rewrite He.
    + eapply Forall_impl; [exact Hok|]. intros e He'. cbn in He'. by rewrite Hvalid.
    + by rewrite Hl.
Qed.

Lemma reset_core w : core (self (exec resetTimer w)) = (None, 0%N, isEnabled (self w)).
Proof.
  unfold exec at 1. rewrite resetTimer_eq. cbn [snd]. rewrite save_self.
  by rewrite remove_core.
Qed.

(** From a reset, [N] accepted clicks give [clickCount = N]. *)
Lemma clicks_counted_from_reset (events : list Event) (w : World) :
  isEnabled (self w) = true →
  Forall (λ event, isValidPageClick (host w) event = true) events →
  clickCount (self (run (Reset :: (Click <$> events)) w)) = N.of_nat (length events).
Proof.
  intros Hen Hok. cbn [run foldl].
  change (foldl _ ?w0 (Click <$> events)) with (run (Click <$> events) w0).
  pose proof (reset_core w) as Hc. unfold core in Hc. injection Hc as Hl Hn He.
  destruct (page_fields _ _ (step_page Reset w)) as [_ Hvalid].
  cbn [step] in *.
  rewrite accepted_clicks_add.
  - rewrite Hn. lia.
  - by rewrite He.
  - eapply Forall_impl; [exact Hok|]. intros e He'. cbn in He'. by rewrite Hvalid.
  - done.
Qed.





(** The same run, step by step. *)
Lemma slow_navigation_run :
  let hA := sample_host
              [1000; 2000; 2001; 3000; 3001; 4000; 4001; 20000; 20001; 21000; 21001]
              (Some ∅) in
  let wA := run [Load; Click sample_click; Click sample_click; Click sample_click]
              (constructor hA) in
  let wB := run [Load] (constructor (navigate (host wA))) in
  let wB' := run [Click sample_click] wB in
  core (self wA) = (Some 4000, 3%N, true)
  ∧ core (self wB) = (None, 3%N, true)
  ∧ accepted wB sample_click = true
  ∧ core (self wB') = (Some 21000, 1%N, true)
  ∧ textContent <$> visualIndicator (self wB') = Some "#1: First click recorded".
Proof. vm_compute. repeat split; reflexivity. Qed.

(** A fast navigation instead carries the count on: the load adopts both
    [clickCount = 3] and [lastClickTime], and the next click makes it 4. *)
Lemma fast_navigation_run :
  let h := sample_host
             [1000; 2000; 2001; 3000; 3001; 4000; 4001; 5000; 5001; 5002; 6000; 6001]
             (Some ∅) in
  let history :=
    [OnPage Load; OnPage (Click sample_click); OnPage (Click sample_click);
     OnPage (Click sample_click);
     NewPage; OnPage Load; OnPage (Click sample_click)] in
  (browse history (constructor h) 0).2 = 4%N
  ∧ core (self (browse history (constructor h) 0).1) = (Some 6000, 4%N, true).
Proof. vm_compute. split; reflexivity. Qed.

(** ** Storage outcomes do not reach the tracker *)

Section SameButStorage.

Variables w1 w2 : World.
Hypothesis same_self : self w1 = self w2.
Hypothesis same_host : same_but_storage (host w1) (host w2).

Lemma same_page : page (host w1) = page (host w2).
Proof.
  destruct same_host as (Hc & _ & Hw & Hh & Hhc & Hbc & _).
  unfold page. by rewrite Hc, Hw, Hh, Hhc, Hbc.
Qed.

Lemma same_accepted event : accepted w1 event = accepted w2 event.
Proof.
  unfold accepted. by rewrite same_self, (isValidPageClick_page _ _ _ same_page).
Qed.

Lemma same_now : clock (host w1) (ticks (host w1)) = clock (host w2) (ticks (host w2)).
Proof. destruct same_host as (-> & -> & _). done. Qed.

Lemma remove_same :
  self (exec removeVisualIndicator w1) = self (exec removeVisualIndicator w2)
  ∧ same_but_storage (host (exec removeVisualIndicator w1))
      (host (exec removeVisualIndicator w2)).
Proof.
  unfold exec. rewrite !removeVisualIndicator_eq. cbn.
  destruct same_host as (Hc & Ht & Hw & Hh & Hhc & Hbc & Hb & Hn & Hp & Hpc).
  unfold attached. rewrite same_self, Hb, Hp.
  split; [done|]. unfold same_but_storage. cbn.
  by rewrite Hc, Ht, Hw, Hh, Hhc, Hbc, Hn, Hpc.
Qed.

End SameButStorage.

Lemma show_same message n w1 w2 :
  self w1 = self w2 → same_but_storage (host w1) (host w2) →
  self (exec (showVisualFeedback message n) w1)
  = self (exec (showVisualFeedback message n) w2).
Proof.
  intros Hs Hh. destruct (remove_same w1 w2 Hs Hh) as [Hs' Hh'].
  unfold exec. rewrite !showVisualFeedback_eq. cbn -[exec].
  destruct Hh' as (_ & _ & _ & _ & _ & _ & _ & -> & _ & ->).
  by rewrite Hs'.
Qed.

Lemma same_but_storage_tick h1 h2 :
  same_but_storage h1 h2 → same_but_storage (tick h1) (tick h2).
Proof.
  intros (Hc & Ht & Hw & Hh & Hhc & Hbc & Hb & Hn & Hp & Hpc).
  unfold same_but_storage. cbn.
  by rewrite Hc, Ht, Hw, Hh, Hhc, Hbc, Hb, Hn, Hp, Hpc.
Qed.

Lemma step_same op w1 w2 :
  reads_storage op = false →
  self w1 = self w2 → same_but_storage (host w1) (host w2) →
  self (exec (step op) w1) = self (exec (step op) w2).
Proof.
  intros Hop Hs Hh. destruct op; try discriminate Hop; cbn [step].
  - pose proof (same_accepted w1 w2 Hs Hh event) as Ha.
    destruct (accepted w2 event) eqn:E.
    + rewrite !exec_handleClick_accepted by done. cbn zeta.
      rewrite !save_self. cbn [self].
      rewrite (same_now w1 w2 Hh), Hs. f_equal.
      apply show_same; [done|]. by apply same_but_storage_tick.
    + by rewrite !exec_handleClick_rejected.
  - unfold exec. rewrite !resetTimer_eq. cbn [snd]. rewrite !save_self.
    apply remove_same; [|done]. cbn. by rewrite Hs.
  - unfold exec. rewrite !enable_eq. cbn [snd]. rewrite !save_self.
    cbn. by rewrite Hs.
  - unfold exec. rewrite !disable_eq. cbn [snd]. rewrite !save_self.
    apply remove_same; [|done]. cbn. by rewrite Hs.
  - done.
  - unfold exec. rewrite !fireTimer_eq. cbn [snd].
    assert (timers (host w1) = timers (host w2)) as Hp by apply Hh.
    rewrite Hp. destruct (List.find _ _); [|done].
    apply remove_same; [done|]. cbn.
    destruct Hh as (Hc & Ht & Hw & Hh' & Hhc & Hbc & Hb & Hn & _ & Hpc).
    unfold same_but_storage. cbn.
    by rewrite Hc, Ht, Hw, Hh', Hhc, Hbc, Hb, Hn, Hpc.
  - by apply remove_same.
Qed.

(** What a save writes to the console. *)
Lemma save_warnings w :
  warnings (host (exec savePersistedData w)) =
  warnings (host w) ++
  match chromeStorage (host w) with
  | None => ["[Click Timer] Chrome storage API not available for saving"]
  | Some _ =>
      if storageFault (host w) (storageCalls (host w))
      then ["[Click Timer] Could not save persisted data:"]
      else []
  end.
Proof.
  unfold exec. rewrite savePersistedData_eq. cbn.
  destruct (chromeStorage (host w)); cbn; [|done].
  destruct (storageFault _ _); cbn; [done|]. by rewrite app_nil_r.
Qed.

Lemma load_failure w :
  load_fails (host w) →
  self (exec loadPersistedData w) = self w
  ∧ warnings (host (exec loadPersistedData w)) =
    warnings (host w) ++
    [match chromeStorage (host w) with
     | None => "[Click Timer] Chrome storage API not available"
     | Some _ => "[Click Timer] Could not load persisted data:"
     end].
Proof.
  intros Hfail. unfold exec. rewrite loadPersistedData_eq. cbn.
  destruct (chromeStorage (host w)) as [area|] eqn:Ea; [|done].
  destruct Hfail as [Hnone|Hfault]; [congruence|].
  by rewrite Hfault.
Qed.

(** C8. For every operation other than the load, two runs that start from
    the same tracker on hosts differing only in the storage (there or not,
    failing or not, whatever it holds) both return normally and leave the
    same tracker.  A save never throws and never changes the tracker; a
    failure only appends a warning to the console.  A load that cannot get
    the record returns normally, logs a warning and leaves the tracker as
    it was, that is, at the defaults of the constructor. *)
Theorem storage_outcome_never_reaches_tracker (op : Op) (w1 w2 : World) (h : Host) :
  reads_storage op = false →
  self w1 = self w2 →
  same_but_storage (host w1) (host w2) →
  load_fails (host (constructor h)) →
  (completion (step op) w1 = Normal tt
   ∧ completion (step op) w2 = Normal tt
   ∧ self (exec (step op) w1) = self (exec (step op) w2))
  ∧ (completion savePersistedData w1 = Normal tt
     ∧ self (exec savePersistedData w1) = self w1
     ∧ warnings (host (exec savePersistedData w1)) =
       warnings (host w1) ++
       match chromeStorage (host w1) with
       | None => ["[Click Timer] Chrome storage API not available for saving"]
       | Some _ =>
           if storageFault (host w1) (storageCalls (host w1))
           then ["[Click Timer] Could not save persisted data:"]
           else []
       end)
  ∧ (completion loadPersistedData (constructor h) = Normal tt
     ∧ core (self (exec loadPersistedData (constructor h))) = (None, 0%N, true)
     ∧ warnings (host (exec loadPersistedData (constructor h))) =
       warnings h ++
       [match chromeStorage h with
        | None => "[Click Timer] Chrome storage API not available"
        | Some _ => "[Click Timer] Could not load persisted data:"
        end]).
Proof.
  intros Hop Hs Hh Hfail.
  split; [|split].
  - unfold completion. rewrite !step_normal. cbn [fst].
    split; [done|]. split; [done|]. by apply step_same.
  - unfold completion. rewrite savePersistedData_normal. cbn [fst].
    split; [done|]. split; [apply save_self|apply save_warnings].
  - destruct (load_failure _ Hfail) as [Hself Hwarn].
    unfold completion. rewrite loadPersistedData_eq. cbn [fst].
    split; [done|]. split; [by rewrite Hself|exact Hwarn].
Qed.

Lemma storage_outcome_never_reaches_tracker_witness :
  let with_storage := sample_host [1000; 5000; 5001] (Some ∅) in
  let without := sample_host [1000; 5000; 5001] None in
  self (exec (step (Click sample_click)) (constructor with_storage))
  = self (exec (step (Click sample_click)) (constructor without))
  ∧ core (self (exec loadPersistedData (constructor without))) = (None, 0%N, true).
Proof.
  cbn zeta.
  pose proof (storage_outcome_never_reaches_tracker (Click sample_click)
                (constructor (sample_host [1000; 5000; 5001] (Some ∅)))
                (constructor (sample_host [1000; 5000; 5001] None))
                (sample_host [1000; 5000; 5001] None)
                eq_refl eq_refl
                (conj eq_refl (conj eq_refl (conj eq_refl (conj eq_refl (conj eq_refl
                   (conj eq_refl (conj eq_refl (conj eq_refl (conj eq_refl eq_refl)))))))))
                (or_introl eq_refl))
    as ((_ & _ & Hsame) & _ & (_ & Hdefaults & _)).
  split; [exact Hsame|exact Hdefaults].
Defined.

(** ** One indicator at a time *)

Lemma display_ok_transfer w1 w2 :
  display w1 = display w2 →
  timersCreated (host w1) = timersCreated (host w2) →
  display_ok w2 → display_ok w1.
Proof.
  unfold display, display_ok. intros [= -> -> -> ->] ->. done.
Qed.

Lemma remove_timersCreated w :
  timersCreated (host (exec removeVisualIndicator w)) = timersCreated (host w).
Proof. unfold exec. by rewrite removeVisualIndicator_eq. Qed.

Lemma save_timersCreated w :
  timersCreated (host (exec savePersistedData w)) = timersCreated (host w).
Proof.
  unfold exec. rewrite savePersistedData_eq. cbn.
  destruct (chromeStorage (host w)); [destruct (storageFault _ _)|]; done.
Qed.

Lemma show_timersCreated message n w :
  timersCreated (host (exec (showVisualFeedback message n) w))
  = Pos.succ (timersCreated (host w)).
Proof.
  unfold exec at 1. rewrite showVisualFeedback_eq. cbn -[exec].
  by rewrite remove_timersCreated.
Qed.

Lemma load_display w :
  display (exec loadPersistedData w) = display w
  ∧ timersCreated (host (exec loadPersistedData w)) = timersCreated (host w).
Proof.
  unfold exec, display. rewrite loadPersistedData_eq. cbn.
  destruct (chromeStorage (host w)); [|done].
  destruct (storageFault _ _); [done|].
  destruct (_ !! _); [|done]. cbn.
  by destruct (_ && _).
Qed.

Lemma remove_keeps_display_ok w :
  display_ok w →
  display (exec removeVisualIndicator w) = (None, None, [], [])
  ∧ display_ok (exec removeVisualIndicator w).
Proof.
  intros Hok.
  assert (display (exec removeVisualIndicator w) = (None, None, [], [])) as Hd.
  { apply remove_display; [apply Hok|by apply tracked_timer_filter]. }
  split; [exact Hd|].
  unfold display in Hd. injection Hd as Hv Ht Hb Hp.
  unfold display_ok. by rewrite Hv, Ht, Hb, Hp.
Qed.

(** On a consistent display, [showVisualFeedback] leaves exactly the new
    indicator and exactly its own timer of 2000 ms. *)
Lemma show_replaces message n w :
  display_ok w →
  let el := {| nodeId := nodesCreated (host w); localName := "div";
               className := "click-timer-indicator";
               textContent := "#" +:+ pretty n +:+ ": " +:+ message |} in
  display (exec (showVisualFeedback message n) w) =
  (Some el, Some (timersCreated (host w)), [el],
   [(timersCreated (host w), CallRemoveVisualIndicator, 2000)]).
Proof.
  intros Hok. cbn zeta. rewrite show_display. cbn zeta.
  destruct (remove_keeps_display_ok w Hok) as [Hd _].
  unfold display in Hd. injection Hd as _ _ -> ->.
  rewrite remove_timersCreated.
  assert (nodesCreated (host (exec removeVisualIndicator w)) = nodesCreated (host w)) as ->.
  { unfold exec. by rewrite removeVisualIndicator_eq. }
  done.
Qed.

Lemma show_keeps_display_ok message n w :
  display_ok w → display_ok (exec (showVisualFeedback message n) w).
Proof.
  intros Hok. pose proof (show_replaces message n w Hok) as Hd. cbn zeta in Hd.
  unfold display in Hd. injection Hd as Hv Ht Hb Hp.
  unfold display_ok. rewrite Hv, Ht, Hb, Hp, show_timersCreated.
  split; [done|]. split; [done|]. lia.
Qed.

Lemma fired_timer_filter handle w :
  display_ok w →
  match indicatorTimeout (self w) with
  | Some tracked =>
      filter (λ t, t.1.1 ≠ tracked) (filter (λ t, t.1.1 ≠ handle) (timers (host w))) = []
  | None => filter (λ t : positive * Callback * Z, t.1.1 ≠ handle) (timers (host w)) = []
  end.
Proof.
  intros [_ Ht]. destruct (indicatorTimeout (self w)) as [tracked|].
  - destruct Ht as [-> _]. rewrite list_filter_filter.
    by rewrite filter_cons_False, filter_nil by (intros [H _]; by apply H).
  - by rewrite Ht.
Qed.

(** Every operation keeps the display consistent. *)
Lemma step_keeps_display_ok op w :
  display_ok w → display_ok (exec (step op) w).
Proof.
  intros Hok. destruct op; cbn [step].
  - destruct (accepted w event) eqn:E; [|by rewrite exec_handleClick_rejected].
    rewrite (exec_handleClick_accepted _ _ E). cbn zeta.
    eapply display_ok_transfer; [apply save_display|apply save_timersCreated|].
    set (w0 := {| self := set_clickCount (click_count (self w)) (self w);
                  host := tick (host w) |}).
    assert (display_ok w0) as Hok0 by (by apply (display_ok_transfer _ w)).
    eapply display_ok_transfer; [| |apply show_keeps_display_ok, Hok0]; done.
  - unfold exec. rewrite resetTimer_eq. cbn [snd].
    eapply display_ok_transfer; [apply save_display|apply save_timersCreated|].
    by apply remove_keeps_display_ok.
  - unfold exec. rewrite enable_eq. cbn [snd].
    eapply display_ok_transfer; [apply save_display|apply save_timersCreated|]. done.
  - unfold exec. rewrite disable_eq. cbn [snd].
    eapply display_ok_transfer; [apply save_display|apply save_timersCreated|].
    by apply remove_keeps_display_ok.
  - done.
  - destruct (load_display w) as [Hd Ht]. by eapply display_ok_transfer.
  - unfold exec. rewrite fireTimer_eq. cbn [snd].
    destruct (List.find _ _); [|done].
    set (w0 := {| self := self w; host := _ |}).
    assert (display (exec removeVisualIndicator w0) = (None, None, [], [])) as Hd.
    { apply remove_display; [apply Hok|apply (fired_timer_filter handle w Hok)]. }
    unfold display in Hd. injection Hd as Hv Ht Hb Hp.
    unfold display_ok. by rewrite Hv, Ht, Hb, Hp.
  - by apply remove_keeps_display_ok.
Qed.

Lemma constructor_display_ok h : fresh_page h → display_ok (constructor h).
Proof. intros [Hb Hp]. unfold display_ok. cbn. by rewrite Hb, Hp. Qed.

Lemma run_keeps_display_ok ops w : display_ok w → display_ok (run ops w).
Proof.
  revert w. induction ops as [|op ops IH]; intros w Hok; [done|].
  cbn. apply IH. by apply step_keeps_display_ok.
Qed.




(** * Further properties of the content script *)

(** ** Persistence across a navigation *)

(** The host a successful save leaves. *)
Lemma save_ok_host w area :
  chromeStorage (host w) = Some area →
  storageFault (host w) (storageCalls (host w)) = false →
  host (exec savePersistedData w) =
  set_storage
    (Some (<[storageKey :=
              {| Persisted.lastClickTime := lastClickTime (self w);
                 Persisted.clickCount := Some (clickCount (self w));
                 Persisted.isEnabled := Some (isEnabled (self w));
                 Persisted.timestamp := Some (clock (host w) (ticks (host w))) |}]> area))
    (S (storageCalls (host w))) (tick (host w)).
Proof.
  intros Ha Hf. unfold exec. rewrite savePersistedData_eq. cbn.
  by rewrite Ha, Hf.
Qed.

(** The tracker of the next page, once its load has run on what a
    successful save left. *)
Lemma load_after_save w area :
  chromeStorage (host w) = Some area →
  storageFault (host w) (storageCalls (host w)) = false →
  storageFault (host w) (S (storageCalls (host w))) = false →
  core (self (exec loadPersistedData
                (constructor (navigate (host (exec savePersistedData w))))))
  = (adopted {| Persisted.lastClickTime := lastClickTime (self w);
                Persisted.clickCount := Some (clickCount (self w));
                Persisted.isEnabled := Some (isEnabled (self w));
                Persisted.timestamp := Some (clock (host w) (ticks (host w))) |}
       (clock (host w) (S (S (ticks (host w)))))
       (clock (host w) (S (S (S (ticks (host w)))))),
     clickCount (self w), isEnabled (self w)).
Proof.
  intros Ha Hf Hf'. rewrite (save_ok_host w area Ha Hf).
  erewrite load_found; [| reflexivity | exact Hf' | apply lookup_insert_eq ].
  unfold core. cbn.
  destruct (N.eqb_spec (clickCount (self w)) 0) as [Hz|Hz]; [by rewrite Hz|done].
Qed.

(** X1. Save, navigate, load.  When the storage works, the tracker of the
    next page gets the [clickCount] and [isEnabled] that were saved, always;
    and it gets the saved [lastClickTime] exactly when that is a non-zero
    timestamp, the save is less than 5000 ms old and the click more than 0
    and less than 300000 ms old when the load looks at them. *)
Theorem save_navigate_load (w : World) (area : gmap string Persisted.t) :
  chromeStorage (host w) = Some area →
  storageFault (host w) (storageCalls (host w)) = false →
  storageFault (host w) (S (storageCalls (host w))) = false →
  let savedAt := clock (host w) (ticks (host w)) in
  let now1 := clock (host w) (S (S (ticks (host w)))) in
  let now2 := clock (host w) (S (S (S (ticks (host w))))) in
  let next := exec loadPersistedData
                (constructor (navigate (host (exec savePersistedData w)))) in
  clickCount (self next) = clickCount (self w)
  ∧ isEnabled (self next) = isEnabled (self w)
  ∧ (∀ T, lastClickTime (self next) = Some T ↔
          lastClickTime (self w) = Some T ∧ T ≠ 0
          ∧ now1 - savedAt < 5000 ∧ 0 < now2 - T < 300000).
Proof.
  intros Ha Hf Hf'. cbn zeta.
  pose proof (load_after_save w area Ha Hf Hf') as Hc.
  unfold core in Hc. injection Hc as Hl Hn He.
  split; [exact Hn|]. split; [exact He|].
  intros T. rewrite Hl. apply adopted_Some.
Qed.

Lemma save_navigate_load_witness :
  let w := {| self := {| lastClickTime := Some 2000; clickCount := 1; isEnabled := true;
                         visualIndicator := None; indicatorTimeout := None;
                         pageLoadTime := 1000 |};
              host := sample_host [2001; 2500; 2600; 2601] (Some ∅) |} in
  let next := exec loadPersistedData
                (constructor (navigate (host (exec savePersistedData w)))) in
  core (self next) = (Some 2000, 1%N, true).
Proof.
  cbn zeta.
  pose proof (save_navigate_load
                {| self := {| lastClickTime := Some 2000; clickCount := 1; isEnabled := true;
                              visualIndicator := None; indicatorTimeout := None;
                              pageLoadTime := 1000 |};
                   host := sample_host [2001; 2500; 2600; 2601] (Some ∅) |}
                ∅ eq_refl eq_refl eq_refl) as (Hn & He & Hl).
  unfold core. rewrite Hn, He.
  rewrite (proj2 (Hl 2000)); [reflexivity|].
  split; [reflexivity|]. split; [discriminate|]. split; [reflexivity|].
  split; reflexivity.
Defined.

(** X2. Disabling survives a navigation: when the storage works, the
    tracker of the next page is disabled after its load, and every click on
    that page is rejected. *)
Theorem disable_survives_navigation (w : World) (area : gmap string Persisted.t)
    (event : Event) :
  chromeStorage (host w) = Some area →
  storageFault (host w) (storageCalls (host w)) = false →
  storageFault (host w) (S (storageCalls (host w))) = false →
  let next := exec loadPersistedData (constructor (navigate (host (exec disable w)))) in
  isEnabled (self next) = false
  ∧ clickCount (self next) = clickCount (self w)
  ∧ exec (handleClick event) next = next.
Proof.
  intros Ha Hf Hf'. cbn zeta.
  assert (exec disable w =
          exec savePersistedData
            (exec removeVisualIndicator
               {| self := set_isEnabled false (self w); host := host w |})) as ->.
  { unfold exec at 1. by rewrite disable_eq. }
  set (w0 := exec removeVisualIndicator _).
  assert (services (host w0) = services (host w)) as Hs
    by exact (remove_services {| self := set_isEnabled false (self w); host := host w |}).
  unfold services in Hs. injection Hs as _ _ Hst Hfa Hc _.
  destruct (remove_fields {| self := set_isEnabled false (self w); host := host w |})
    as (_ & Hn & He). fold w0 in Hn, He. cbn in Hn, He.
  assert (chromeStorage (host w0) = Some area) as Ha0 by (by rewrite Hst).
  assert (storageFault (host w0) (storageCalls (host w0)) = false) as Hf0
    by (by rewrite Hfa, Hc).
  assert (storageFault (host w0) (S (storageCalls (host w0))) = false) as Hf0'
    by (by rewrite Hfa, Hc).
  pose proof (load_after_save w0 area Ha0 Hf0 Hf0') as Hcore.
  unfold core in Hcore. injection Hcore as _ Hn' He'.
  split; [by rewrite He', He|]. split; [by rewrite Hn', Hn|].
  apply exec_handleClick_rejected. unfold accepted. by rewrite He', He.
Qed.

Lemma disable_survives_navigation_witness :
  let w := {| self := {| lastClickTime := Some 2000; clickCount := 1; isEnabled := true;
                         visualIndicator := None; indicatorTimeout := None;
                         pageLoadTime := 1000 |};
              host := sample_host [3000; 60000; 60001; 60002] (Some ∅) |} in
  let next := exec loadPersistedData (constructor (navigate (host (exec disable w)))) in
  isEnabled (self next) = false
  ∧ clickCount (self next) = 1%N
  ∧ exec (handleClick sample_click) next = next.
Proof.
  cbn zeta.
  exact (disable_survives_navigation
           {| self := {| lastClickTime := Some 2000; clickCount := 1; isEnabled := true;
                         visualIndicator := None; indicatorTimeout := None;
                         pageLoadTime := 1000 |};
              host := sample_host [3000; 60000; 60001; 60002] (Some ∅) |}
           ∅ sample_click eq_refl eq_refl eq_refl).
Defined.

(** ** What reaches the storage *)

Lemma save_persists w area :
  chromeStorage (host w) = Some area →
  storageFault (host w) (storageCalls (host w)) = false →
  self (exec savePersistedData w) = self w
  ∧ chromeStorage (host (exec savePersistedData w))
    = Some (<[storageKey := snapshot (self w) (clock (host w) (ticks (host w)))]> area)
  ∧ ticks (host (exec savePersistedData w)) = S (ticks (host w)).
Proof.
  intros Ha Hf. split; [apply save_self|].
  rewrite (save_ok_host w area Ha Hf). done.
Qed.

(** X3. Every operation that changes a counter is persisted: after an
    accepted click, a reset, an enable or a disable on a working storage,
    the record under [storageKey] is the tracker's new [lastClickTime],
    [clickCount] and [isEnabled], stamped with the last clock reading, and
    no other key of the storage area is touched. *)
Theorem mutation_is_persisted (op : Op) (w : World) (area : gmap string Persisted.t) :
  chromeStorage (host w) = Some area →
  storageFault (host w) (storageCalls (host w)) = false →
  mutates op w = true →
  let w' := exec (step op) w in
  chromeStorage (host w')
  = Some (<[storageKey :=
             snapshot (self w') (clock (host w) (Nat.pred (ticks (host w'))))]> area).
Proof.
  intros Ha Hf Hm. cbn zeta.
  assert (∀ w0, services (host w0) = services (host w) →
                chromeStorage (host (exec savePersistedData w0))
                = Some (<[storageKey :=
                           snapshot (self (exec savePersistedData w0))
                             (clock (host w)
                                (Nat.pred (ticks (host (exec savePersistedData w0)))))]>
                          area)) as Hsave.
  { intros w0 Hs. unfold services in Hs. injection Hs as Hclk Htk Hst Hfa Hc _.
    destruct (save_persists w0 area) as (Hself & Hstore & Hticks).
    - by rewrite Hst.
    - by rewrite Hfa, Hc.
    - by rewrite Hstore, Hself, Hticks, Hclk. }
  destruct op; try discriminate Hm; cbn [step mutates] in *.
  - rewrite (exec_handleClick_accepted _ _ Hm). cbn zeta.
    set (w1 := exec (showVisualFeedback _ _) _).
    assert (services (host w1) = services (tick (host w))) as Hs1 by apply show_services.
    unfold services in Hs1. injection Hs1 as Hclk Htk Hst Hfa Hc _.
    destruct (save_persists {| self := set_lastClickTime
                                         (Some (clock (host w) (ticks (host w)))) (self w1);
                               host := host w1 |} area) as (Hself & Hstore & Hticks).
    + cbn [host]. rewrite Hst. exact Ha.
    + cbn [host]. rewrite Hfa, Hc. exact Hf.
    + cbn [host self] in *. rewrite Hstore, Hself, Hticks, Hclk, Htk. done.
  - unfold exec at 1 2 3. rewrite resetTimer_eq. cbn [snd].
    apply Hsave. by rewrite remove_services.
  - unfold exec at 1 2 3. rewrite enable_eq. cbn [snd]. by apply Hsave.
  - unfold exec at 1 2 3. rewrite disable_eq. cbn [snd].
    apply Hsave. by rewrite remove_services.
Qed.

Lemma mutation_is_persisted_witness :
  let w := constructor (sample_host [1000; 2000; 2001] (Some ∅)) in
  chromeStorage (host (exec (step (Click sample_click)) w))
  = Some {[ storageKey := {| Persisted.lastClickTime := Some 2000;
                             Persisted.clickCount := Some 1%N;
                             Persisted.isEnabled := Some true;
                             Persisted.timestamp := Some 2001 |} ]}.
Proof.
  cbn zeta.
  rewrite (mutation_is_persisted (Click sample_click)
             (constructor (sample_host [1000; 2000; 2001] (Some ∅))) ∅
             eq_refl eq_refl eq_refl).
  vm_compute. reflexivity.
Defined.

(** X4. Nothing else writes: a rejected click, [getStats], the startup
    load, a timer firing and [cleanup] leave the storage area as it is.  In
    particular a load that clears a stale [lastClickTime] does not clear it
    in the storage. *)
Theorem only_mutations_write (op : Op) (w : World) :
  mutates op w = false →
  chromeStorage (host (exec (step op) w)) = chromeStorage (host w).
Proof.
  intros Hm. destruct op; try discriminate Hm; cbn [step mutates] in *.
  - by rewrite exec_handleClick_rejected.
  - done.
  - unfold exec. rewrite loadPersistedData_eq. cbn.
    destruct (chromeStorage (host w)) as [area|] eqn:Ea; cbn; [|done].
    destruct (storageFault _ _); cbn; [done|].
    destruct (area !! storageKey); cbn; [|done].
    by destruct (_ && _).
  - unfold exec. rewrite fireTimer_eq. cbn [snd].
    destruct (List.find _ _); [|done].
    pose proof (remove_services
                  {| self := self w;
                     host := set_timers
                               (filter (λ t, t.1.1 ≠ handle) (timers (host w)))
                               (timersCreated (host w)) (host w) |}) as Hs.
    unfold services in Hs. by injection Hs.
  - pose proof (remove_services w) as Hs. unfold services in Hs. by injection Hs.
Qed.

Lemma only_mutations_write_witness :
  let stale := {| Persisted.lastClickTime := Some 2000;
                  Persisted.clickCount := Some 1%N;
                  Persisted.isEnabled := Some true;
                  Persisted.timestamp := Some 2001 |} in
  let w := constructor (sample_host [900000; 900001] (Some {[ storageKey := stale ]})) in
  lastClickTime (self (exec (step Load) w)) = None
  ∧ chromeStorage (host (exec (step Load) w)) = Some {[ storageKey := stale ]}.
Proof.
  cbn zeta. split; [reflexivity|].
  exact (only_mutations_write Load
           (constructor
              (sample_host [900000; 900001]
                 (Some {[ storageKey :=
                            {| Persisted.lastClickTime := Some 2000;
                               Persisted.clickCount := Some 1%N;
                               Persisted.isEnabled := Some true;
                               Persisted.timestamp := Some 2001 |} ]})))
           eq_refl).
Defined.

(** ** The auto-hide timer *)

Lemma find_pending_None handle (pending : list (positive * Callback * Z)) :
  handle ∉ (λ t, t.1.1) <$> pending →
  List.find (λ t, bool_decide (t.1.1 = handle)) pending = None.
Proof.
  intros Hnot. destruct (List.find _ pending) as [t|] eqn:E; [|done].
  apply List.find_some in E as [Hin Heq%bool_decide_eq_true].
  destruct Hnot. apply list_elem_of_fmap. exists t.
  split; [done|by apply list_elem_of_In].
Qed.

(** X5. On a page the tracker started on with an empty display, after any
    operations: when the timer the tracker refers to fires, the indicator
    leaves the page and nothing is pending any more, while the counters and
    the storage stay as they are; a handle that is not the tracked one (a
    timer already cancelled or fired) is not pending, and its firing
    changes nothing. *)
Theorem timer_expiry (h : Host) (ops : list Op) (handle : positive) :
  fresh_page h →
  let w := run ops (constructor h) in
  let w' := exec (fireTimer handle) w in
  (indicatorTimeout (self w) = Some handle →
   display w' = (None, None, [], [])
   ∧ core (self w') = core (self w)
   ∧ services (host w') = services (host w))
  ∧ (indicatorTimeout (self w) ≠ Some handle → w' = w).
Proof.
  intros Hfresh w. cbn zeta.
  assert (display_ok w) as Hok.
  { apply run_keeps_display_ok, constructor_display_ok, Hfresh. }
  unfold exec at 1 2 3 4. rewrite fireTimer_eq. cbn [snd].
  split.
  - intros Htracked.
    pose proof (fired_timer_filter handle w Hok) as Hfiltered.
    rewrite Htracked in Hfiltered.
    destruct Hok as [Hb Ht]. rewrite Htracked in Ht. destruct Ht as [Hp _].
    assert (List.find (λ t, bool_decide (t.1.1 = handle)) (timers (host w))
            = Some (handle, CallRemoveVisualIndicator, 2000)) as ->.
    { rewrite Hp. cbn. by rewrite bool_decide_eq_true_2. }
    set (w0 := {| self := self w;
                  host := set_timers (filter (λ t, t.1.1 ≠ handle) (timers (host w)))
                            (timersCreated (host w)) (host w) |}).
    split; [|split].
    + apply remove_display; cbn [self host w0].
      * exact Hb.
      * rewrite Htracked. exact Hfiltered.
    + exact (remove_core w0).
    + exact (remove_services w0).
  - intros Hother. rewrite find_pending_None; [done|].
    destruct Hok as [_ Ht].
    destruct (indicatorTimeout (self w)) as [tracked|].
    + destruct Ht as [-> _]. cbn. intros ->%list_elem_of_singleton. by apply Hother.
    + rewrite Ht. cbn. apply not_elem_of_nil.
Qed.

Lemma timer_expiry_witness :
  let h := sample_host [1000; 5000; 5001; 5127; 5128] (Some ∅) in
  let w := run [Click sample_click; Click sample_click] (constructor h) in
  indicatorTimeout (self w) = Some 2%positive
  ∧ display (exec (fireTimer 2) w) = (None, None, [], [])
  ∧ core (self (exec (fireTimer 2) w)) = core (self w)
  ∧ exec (fireTimer 1) w = w.
Proof.
  cbn zeta.
  assert (indicatorTimeout
            (self (run [Click sample_click; Click sample_click]
                     (constructor (sample_host [1000; 5000; 5001; 5127; 5128] (Some ∅)))))
          = Some 2%positive) as Htracked by (vm_compute; reflexivity).
  destruct (timer_expiry (sample_host [1000; 5000; 5001; 5127; 5128] (Some ∅))
              [Click sample_click; Click sample_click] 2 (conj eq_refl eq_refl))
    as [Hfire _].
  destruct (timer_expiry (sample_host [1000; 5000; 5001; 5127; 5128] (Some ∅))
              [Click sample_click; Click sample_click] 1 (conj eq_refl eq_refl))
    as [_ Hstale].
  destruct (Hfire Htracked) as (Hd & Hc & _).
  split; [exact Htracked|]. split; [exact Hd|]. split; [exact Hc|].
  apply Hstale. rewrite Htracked. discriminate.
Defined.

(** ** A click after a fast navigation *)

Lemma load_found_host w area data :
  chromeStorage (host w) = Some area →
  storageFault (host w) (storageCalls (host w)) = false →
  area !! storageKey = Some data →
  page (host (exec loadPersistedData w)) = page (host w)
  ∧ ticks (host (exec loadPersistedData w)) =
    if JS.truthy (Persisted.lastClickTime data)
       && (clock (host w) (ticks (host w))
           - JS.or_default (Persisted.timestamp data) 0 <? 5000)
    then S (S (ticks (host w))) else S (ticks (host w)).
Proof.
  intros Ha Hf Hd. unfold exec. rewrite loadPersistedData_eq. cbn.
  rewrite Ha, Hf, Hd. cbn. by destruct (_ && _).
Qed.

(** X6. The interval spans a fast navigation.  A tracker whose last click
    was at [t1] is saved; the next page loads while the save is less than
    5000 ms old and the click less than 300000 ms old; the first accepted
    click on the new page, read at [t2], then counts on from the saved
    [clickCount] and displays [(t2 - t1) / 1000] seconds. *)
Theorem interval_spans_fast_navigation (w : World) (area : gmap string Persisted.t)
    (event : Event) (t1 : Z) :
  chromeStorage (host w) = Some area →
  storageFault (host w) (storageCalls (host w)) = false →
  storageFault (host w) (S (storageCalls (host w))) = false →
  lastClickTime (self w) = Some t1 →
  t1 ≠ 0 →
  isEnabled (self w) = true →
  isValidPageClick (host w) event = true →
  let k := ticks (host w) in
  clock (host w) (S (S k)) - clock (host w) k < 5000 →
  0 < clock (host w) (S (S (S k))) - t1 < 300000 →
  let t2 := clock (host w) (S (S (S (S k)))) in
  let next := exec loadPersistedData
                (constructor (navigate (host (exec savePersistedData w)))) in
  let w' := exec (handleClick event) next in
  clickCount (self w') = (clickCount (self w) + 1)%N
  ∧ lastClickTime (self w') = Some t2
  ∧ ∃ el, visualIndicator (self w') = Some el
          ∧ el ∈ bodyChildren (host w')
          ∧ textContent el =
            "#" +:+ pretty (clickCount (self w) + 1)%N +:+ ": "
                +:+ JS.toFixed 3 (inject_Z (t2 - t1) / 1000) +:+ "s".
Proof.
  intros Ha Hf Hf' Hlast Hnz Hen Hok k Hsave Hclick t2 next w'.
  pose proof (load_after_save w area Ha Hf Hf') as Hcore.
  fold next in Hcore.
  assert (adopted (snapshot (self w) (clock (host w) k))
            (clock (host w) (S (S k))) (clock (host w) (S (S (S k)))) = Some t1) as Had.
  { apply adopted_Some. cbn. by rewrite Hlast. }
  unfold snapshot in Had. fold k in Hcore. rewrite Had in Hcore.
  unfold core in Hcore. injection Hcore as Hl Hn He.
  set (page2 := constructor (navigate (host (exec savePersistedData w)))).
  assert (host (exec savePersistedData w) = _) as Hhost
    by exact (save_ok_host w area Ha Hf).
  destruct (load_found_host page2 (<[storageKey := snapshot (self w) (clock (host w) k)]> area)
              (snapshot (self w) (clock (host w) k))) as [Hpage Hticks].
  { unfold page2. by rewrite Hhost. }
  { unfold page2. rewrite Hhost. exact Hf'. }
  { apply lookup_insert_eq. }
  fold next in Hpage, Hticks.
  assert (page (host page2) = page (host w)) as Hpage2.
  { unfold page2. by rewrite Hhost. }
  assert (ticks (host next) = S (S (S (S k)))) as Hk.
  { etrans; [exact Hticks|]. unfold page2. rewrite Hhost. cbn.
    rewrite Hlast. cbn. destruct (Z.eqb_spec t1 0); [done|]. cbn.
    fold k. destruct (Z.eqb_spec (clock (host w) k) 0) as [Hz|Hz].
    - rewrite Hz in *. by rewrite (proj2 (Z.ltb_lt _ _)) by lia.
    - by rewrite (proj2 (Z.ltb_lt _ _)) by lia. }
  destruct (page_fields _ _ Hpage) as [Hclk Hvalid].
  destruct (page_fields _ _ Hpage2) as [Hclk2 Hvalid2].
  assert (accepted next event = true) as E.
  { unfold accepted. rewrite He, Hen, Hvalid, Hvalid2. by rewrite Hok. }
  pose proof (accepted_click_core _ _ E) as Hc. fold w' in Hc.
  unfold core in Hc. injection Hc as Hl' Hn' _.
  destruct (accepted_click_indicator _ _ E) as (el & Hv & Hin & Htext).
  fold w' in Hv, Hin.
  unfold click_count, click_message in *. rewrite Hl in *.
  assert (clock (host next) = clock (host w)) as Hclock
    by (etrans; [exact Hclk|exact Hclk2]).
  rewrite Hk, Hclock in Hl', Htext. rewrite Hn in Hn', Htext.
  split; [exact Hn'|]. split; [exact Hl'|]. by exists el.
Qed.

Lemma interval_spans_fast_navigation_witness :
  let w := {| self := {| lastClickTime := Some 2000; clickCount := 1; isEnabled := true;
                         visualIndicator := None; indicatorTimeout := None;
                         pageLoadTime := 1000 |};
              host := sample_host [2001; 2500; 2600; 2601; 3250; 3251] (Some ∅) |} in
  let next := exec loadPersistedData
                (constructor (navigate (host (exec savePersistedData w)))) in
  let w' := exec (handleClick sample_click) next in
  core (self w') = (Some 3250, 2%N, true)
  ∧ textContent <$> visualIndicator (self w') = Some "#2: 1.250s".
Proof.
  cbn zeta.
  destruct (interval_spans_fast_navigation
              {| self := {| lastClickTime := Some 2000; clickCount := 1; isEnabled := true;
                            visualIndicator := None; indicatorTimeout := None;
                            pageLoadTime := 1000 |};
                 host := sample_host [2001; 2500; 2600; 2601; 3250; 3251] (Some ∅) |}
              ∅ sample_click 2000 eq_refl eq_refl eq_refl eq_refl
              ltac:(discriminate) eq_refl eq_refl eq_refl (conj eq_refl eq_refl))
    as (Hn & Hl & el & Hv & _ & Ht).
  split; [vm_compute; reflexivity|].
  rewrite Hv. cbn [fmap option_fmap option_map]. rewrite Ht.
  vm_compute. reflexivity.
Defined.

(** * The content script around the tracker *)

Lemma on_instance_frame i m c :
  clickTimerVar (on_instance i m c) = clickTimerVar c
  ∧ documentListeners (on_instance i m c) = documentListeners c
  ∧ windowListeners (on_instance i m c) = windowListeners c
  ∧ pendingLoads (on_instance i m c) = pendingLoads c
  ∧ length (instances (on_instance i m c)) = length (instances c).
Proof.
  unfold on_instance. destruct (instances c !! i); cbn; [|done].
  by rewrite length_insert.
Qed.

Lemma on_instance_ok i m c : content_ok c → content_ok (on_instance i m c).
Proof.
  destruct (on_instance_frame i m c) as (Hv & Hd & Hw & _ & Hl).
  unfold content_ok. rewrite Hv, Hd, Hw.
  intros (? & ? & ? & ? & ? & ? & ? & Hi). repeat (split; [done|]).
  destruct (clickTimerVar c); [by rewrite Hl|].
  apply length_zero_iff_nil. rewrite Hl. by rewrite Hi.
Qed.

Lemma initializeClickTimer_ok c : content_ok c → content_ok (initializeClickTimer c).
Proof.
  intros Hok. unfold initializeClickTimer.
  destruct (clickTimerVar c) as [i|] eqn:Hv; [done|].
  destruct Hok as (Hnd & Hnw & Hd & Hw & Hload & Hiff & Hset & Hinst).
  rewrite Hv in Hinst, Hset.
  assert (clickListener 0 ∉ documentListeners c) as Hnc by (intros H; by apply Hset in H).
  assert (unloadListener 0 ∉ windowListeners c) as Hnu by (by rewrite <- Hiff).
  unfold content_ok, newClickTimer, addEventListener. cbn. rewrite Hinst. cbn.
  rewrite !decide_False by done.
  split; [apply NoDup_app; split; [done|split; [|apply NoDup_singleton]];
          by intros l Hl ->%list_elem_of_singleton|].
  split; [apply NoDup_app; split; [done|split; [|apply NoDup_singleton]];
          by intros l Hl ->%list_elem_of_singleton|].
  split; [intros l [Hl | ->%list_elem_of_singleton]%elem_of_app; auto|].
  split; [intros l [Hl | ->%list_elem_of_singleton]%elem_of_app; auto|].
  split; [apply elem_of_app; by left|].
  split; [split; intros _; apply elem_of_app; right; by apply list_elem_of_singleton|].
  done.
Qed.

Lemma cleanup_instance_ok c : content_ok c → content_ok (cleanup_instance 0 c).
Proof.
  intros Hok%(on_instance_ok 0 cleanup). unfold cleanup_instance.
  set (c' := on_instance 0 cleanup c) in *.
  destruct Hok as (Hnd & Hnw & Hd & Hw & Hload & Hiff & Hset & Hinst).
  unfold content_ok, removeEventListener. cbn.
  split; [by apply NoDup_filter|]. split; [by apply NoDup_filter|].
  split; [intros l [_ Hl]%list_elem_of_filter; auto|].
  split; [intros l [_ Hl]%list_elem_of_filter; auto|].
  split; [by apply list_elem_of_filter|].
  split; [split; intros [Hne _]%list_elem_of_filter; by destruct Hne|].
  split; [intros [Hne _]%list_elem_of_filter; by destruct Hne|].
  done.
Qed.

(** A registered listener's handler keeps the bookkeeping consistent. *)
Lemma call_handler_ok l event c :
  content_ok c →
  l ∈ documentListeners c ∨ l ∈ windowListeners c →
  content_ok (call_handler (handler l) event c).
Proof.
  intros Hok Hin.
  assert (l = domReadyListener ∨ l = clickListener 0
          ∨ l = loadListener ∨ l = unloadListener 0) as Hl.
  { destruct Hok as (_ & _ & Hd & Hw & _). destruct Hin as [Hin|Hin].
    - destruct (Hd l Hin); auto.
    - destruct (Hw l Hin); auto. }
  destruct Hl as [-> | [-> | [-> | ->]]]; cbn.
  - by apply initializeClickTimer_ok.
  - destruct event; [by apply on_instance_ok|done].
  - destruct (clickTimerVar c) eqn:E; [done|]. by apply initializeClickTimer_ok.
  - by apply cleanup_instance_ok.
Qed.

Lemma dispatch_steps_ok (document : bool) type event (ls : list Listener) c :
  content_ok c →
  content_ok
    (foldl (λ c l, if decide (eventType l = type
                              ∧ l ∈ (if document then documentListeners c
                                     else windowListeners c))
                   then call_handler (handler l) event c else c) c ls).
Proof.
  revert c. induction ls as [|l ls IH]; intros c Hok; [done|].
  cbn. apply IH. case_decide as Hl; [|done].
  apply call_handler_ok; [done|]. destruct Hl as [_ Hl]. destruct document; auto.
Qed.

Lemma occur_ok e c : content_ok c → content_ok (occur e c).
Proof.
  intros Hok. destruct e; cbn [occur].
  - apply (dispatch_steps_ok true), Hok.
  - apply (dispatch_steps_ok false), Hok.
  - apply (dispatch_steps_ok true), Hok.
  - apply (dispatch_steps_ok false), Hok.
  - case_decide; [|done].
    apply (on_instance_ok instance loadPersistedData) in Hok.
    exact Hok.
Qed.

Lemma evaluate_script_ok loading h : content_ok (evaluate_script loading h).
Proof.
  unfold content_ok, evaluate_script, initializeClickTimer, newClickTimer,
    addEventListener.
  destruct loading; cbn.
  - split; [apply NoDup_singleton|]. split; [apply NoDup_singleton|].
    split; [intros l ->%list_elem_of_singleton; by left|].
    split; [intros l ->%list_elem_of_singleton; by left|].
    split; [set_solver|]. split; [|split; [|done]].
    + split; intros [=]%list_elem_of_singleton.
    + intros [=]%list_elem_of_singleton.
  - split; [apply NoDup_singleton|].
    split; [apply NoDup_cons; split; [|apply NoDup_singleton];
            by intros [=]%list_elem_of_singleton|].
    split; [intros l ->%list_elem_of_singleton; by right|].
    split; [intros l [-> | ->%list_elem_of_singleton]%elem_of_cons; auto|].
    split; [set_solver|]. split; [|done].
    split; intros _; set_solver.
Qed.

Lemma play_ok events c : content_ok c → content_ok (play events c).
Proof.
  revert c. induction events as [|e events IH]; intros c Hok; [done|].
  cbn. apply IH. by apply occur_ok.
Qed.

Lemma click_listeners_at_most_one c :
  content_ok c → clickListeners c = [] ∨ clickListeners c = [clickListener 0].
Proof.
  intros (Hnd & _ & Hd & _). unfold clickListeners.
  assert (NoDup (filter (λ l, eventType l = "click") (documentListeners c))) as Hnf
    by (by apply NoDup_filter).
  assert (∀ l, l ∈ filter (λ l, eventType l = "click") (documentListeners c)
               → l = clickListener 0) as Hall.
  { intros l [Ht Hl]%list_elem_of_filter. destruct (Hd l Hl) as [-> | ->]; done. }
  destruct (filter _ _) as [|l1 [|l2 rest]]; [by left| |].
  - right. f_equal. apply Hall. set_solver.
  - apply NoDup_cons in Hnf as [Hn1 _].
    destruct Hn1. rewrite (Hall l1), (Hall l2) by set_solver. set_solver.
Qed.

(** X7. However the page events fall, and whether the script runs while
    the document is loading or later, the script creates at most one
    tracker and registers at most one click listener: [initializeClickTimer]
    may be called by [DOMContentLoaded], by [load] and by the script
    itself, and only the first call constructs. *)
Theorem tracker_is_a_singleton (loading : bool) (h : Host) (events : list PageEvent) :
  let c := play events (evaluate_script loading h) in
  (length (instances c) ≤ 1)%nat
  ∧ (length (clickListeners c) ≤ 1)%nat
  ∧ (is_Some (clickTimerVar c) ↔ length (instances c) = 1%nat)
  ∧ (clickListeners c ≠ [] → clickTimerVar c = Some 0%nat).
Proof.
  cbn zeta.
  assert (content_ok (play events (evaluate_script loading h))) as Hok
    by apply play_ok, evaluate_script_ok.
  set (c := play events _) in *.
  destruct (click_listeners_at_most_one c Hok) as [Hc|Hc].
  - destruct Hok as (_ & _ & _ & _ & _ & _ & _ & Hi). rewrite Hc.
    destruct (clickTimerVar c).
    + destruct Hi as [_ ->]. repeat split; cbn; (lia || done || by eexists).
    + rewrite Hi. repeat split; cbn; (lia || done || by intros []).
  - assert (clickTimerVar c = Some 0%nat) as Hv.
    { destruct Hok as (_ & _ & _ & _ & _ & _ & Hset & _). apply Hset.
      assert (clickListener 0 ∈ clickListeners c) as Hin by (rewrite Hc; set_solver).
      unfold clickListeners in Hin. by apply list_elem_of_filter in Hin as [_ ?]. }
    destruct Hok as (_ & _ & _ & _ & _ & _ & _ & Hi). rewrite Hv in Hi.
    destruct Hi as [_ Hlen]. rewrite Hc, Hv, Hlen.
    repeat split; cbn; (lia || done || by eexists).
Qed.

Lemma tracker_is_a_singleton_witness :
  let c := play [DOMContentLoaded; WindowLoad; MouseClick sample_click]
             (evaluate_script true (sample_host [1000; 1001; 1002] (Some ∅))) in
  clickListeners c ≠ []
  ∧ clickTimerVar c = Some 0%nat
  ∧ length (instances c) = 1%nat.
Proof.
  intros c.
  destruct (tracker_is_a_singleton true (sample_host [1000; 1001; 1002] (Some ∅))
              [DOMContentLoaded; WindowLoad; MouseClick sample_click])
    as (_ & _ & Hiff & Hvar).
  assert (clickListeners c ≠ []) as Hne by (vm_compute; discriminate).
  split; [exact Hne|]. split; [exact (Hvar Hne)|].
  apply Hiff. rewrite (Hvar Hne). by eexists.
Defined.

(** ** Dispatching to the one listener of a type *)

Section Dispatch.

Variable registered : Content → list Listener.
Variable type : string.
Variable event : option Event.

Let step (c : Content) (l : Listener) : Content :=
  if decide (eventType l = type ∧ l ∈ registered c)
  then call_handler (handler l) event c else c.

Lemma dispatch_skips ls c :
  (∀ l, l ∈ ls → eventType l ≠ type) → foldl step c ls = c.
Proof.
  revert c. induction ls as [|l ls IH]; intros c Hskip; [done|].
  cbn. unfold step at 2. rewrite decide_False.
  - apply IH. intros l' Hl'. apply Hskip. by right.
  - intros [Ht _]. by apply (Hskip l); [left|].
Qed.

(** When at most one listener [l0] of a list without duplicates has the
    type of the event, the dispatch calls its handler once, or nothing. *)
Lemma dispatch_calls_once l0 ls c :
  NoDup ls →
  eventType l0 = type →
  (∀ l, l ∈ ls → eventType l = type → l = l0) →
  foldl step c ls =
  if decide (l0 ∈ ls ∧ l0 ∈ registered c)
  then call_handler (handler l0) event c else c.
Proof.
  revert c. induction ls as [|l ls IH]; intros c Hnd Ht Honly.
  { cbn. rewrite decide_False; [done|]. intros [[]%elem_of_nil _]. }
  apply NoDup_cons in Hnd as [Hnotin Hnd].
  destruct (decide (l = l0)) as [->|Hne].
  - cbn. unfold step at 2.
    assert (foldl step
              (if decide (eventType l0 = type ∧ l0 ∈ registered c)
               then call_handler (handler l0) event c else c) ls
            = if decide (eventType l0 = type ∧ l0 ∈ registered c)
              then call_handler (handler l0) event c else c) as ->.
    { apply dispatch_skips. intros l Hl Hlt. apply Hnotin.
      rewrite <- (Honly l); [done|by right|done]. }
    destruct (decide (l0 ∈ registered c)) as [Hreg|Hreg].
    + rewrite !decide_True; [done|split; [by left|done]|done].
    + rewrite !decide_False; [done|by intros [_ ?]|by intros [_ ?]].
  - cbn. unfold step at 2. rewrite decide_False.
    + rewrite IH; [|done|done|intros l' Hl'; apply Honly; by right].
      destruct (decide (l0 ∈ registered c)) as [Hreg|Hreg];
        destruct (decide (l0 ∈ ls)) as [Hin|Hin].
      * rewrite !decide_True; [done|split; [by right|done]|done].
      * rewrite !decide_False; [done| |by intros [? _]].
        intros [[?|?]%elem_of_cons _]; [by apply Hne|done].
      * rewrite !decide_False; [done|by intros [_ ?]|by intros [_ ?]].
      * rewrite !decide_False; [done|by intros [_ ?]|by intros [_ ?]].
    + intros [Hlt _]. apply Hne, Honly; [by left|done].
Qed.

End Dispatch.

Lemma occur_click event c :
  content_ok c →
  occur (MouseClick event) c =
  if decide (clickListener 0 ∈ documentListeners c)
  then on_instance 0 (handleClick event) c else c.
Proof.
  intros (Hnd & _ & Hd & _). cbn [occur]. unfold dispatch.
  rewrite (dispatch_calls_once documentListeners "click" (Some event) (clickListener 0));
    [|done|done|].
  - destruct (decide (clickListener 0 ∈ documentListeners c)).
    + by rewrite decide_True.
    + rewrite decide_False; [done|by intros [? _]].
  - intros l Hl Ht. destruct (Hd l Hl) as [-> | ->]; done.
Qed.

Lemma occur_unload c :
  content_ok c →
  occur BeforeUnload c =
  if decide (unloadListener 0 ∈ windowListeners c)
  then cleanup_instance 0 c else c.
Proof.
  intros (_ & Hnw & _ & Hw & _). cbn [occur]. unfold dispatch.
  rewrite (dispatch_calls_once windowListeners "beforeunload" None (unloadListener 0));
    [|done|done|].
  - destruct (decide (unloadListener 0 ∈ windowListeners c)).
    + by rewrite decide_True.
    + rewrite decide_False; [done|by intros [? _]].
  - intros l Hl Ht. destruct (Hw l Hl) as [-> | ->]; done.
Qed.

Lemma occur_load c :
  content_ok c →
  occur WindowLoad c =
  match clickTimerVar c with
  | None => initializeClickTimer c
  | Some _ => c
  end.
Proof.
  intros (_ & Hnw & _ & Hw & Hload & _). cbn [occur]. unfold dispatch.
  rewrite (dispatch_calls_once windowListeners "load" None loadListener);
    [|done|done|].
  - by rewrite decide_True.
  - intros l Hl Ht. destruct (Hw l Hl) as [-> | ->]; done.
Qed.

Lemma occur_dom_ready c :
  content_ok c →
  occur DOMContentLoaded c =
  if decide (domReadyListener ∈ documentListeners c)
  then initializeClickTimer c else c.
Proof.
  intros (Hnd & _ & Hd & _). cbn [occur]. unfold dispatch.
  rewrite (dispatch_calls_once documentListeners "DOMContentLoaded" None domReadyListener);
    [|done|done|].
  - destruct (decide (domReadyListener ∈ documentListeners c)).
    + by rewrite decide_True.
    + rewrite decide_False; [done|by intros [? _]].
  - intros l Hl Ht. destruct (Hd l Hl) as [-> | ->]; done.
Qed.

(** ** Clicks, unload and the fallback *)

(** X8. A click on the page runs [handleClick] of the one tracker exactly
    once when its listener is attached, and does nothing at all when it is
    not: before the script has initialised (it ran while the document was
    loading and neither [DOMContentLoaded] nor [load] has come) and after
    [cleanup]. *)
Theorem click_is_handled_once (loading : bool) (h : Host) (events : list PageEvent)
    (event : Event) :
  let c := play events (evaluate_script loading h) in
  let c' := occur (MouseClick event) c in
  (clickListeners c = [] → c' = c)
  ∧ (clickListeners c ≠ [] →
     ∃ tracker,
       instances c = [tracker]
       ∧ instances c' =
         [self (exec (handleClick event) {| self := tracker; host := contentHost c |})]
       ∧ contentHost c' =
         host (exec (handleClick event) {| self := tracker; host := contentHost c |})
       ∧ documentListeners c' = documentListeners c
       ∧ windowListeners c' = windowListeners c).
Proof.
  cbn zeta.
  assert (content_ok (play events (evaluate_script loading h))) as Hok
    by apply play_ok, evaluate_script_ok.
  set (c := play events _) in *.
  rewrite (occur_click event c Hok).
  destruct (decide (clickListener 0 ∈ documentListeners c)) as [Hin|Hnot].
  - split.
    + intros Hnone. exfalso.
      assert (clickListener 0 ∈ clickListeners c) as Hc
        by (by apply list_elem_of_filter).
      rewrite Hnone in Hc. by apply elem_of_nil in Hc.
    + intros _.
      destruct Hok as (_ & _ & _ & _ & _ & _ & Hset & Hi).
      rewrite (Hset Hin) in Hi. destruct Hi as [_ Hlen].
      destruct (instances c) as [|tracker [|]] eqn:Einst; try discriminate Hlen.
      exists tracker. unfold on_instance. rewrite Einst. cbn. done.
  - split; [done|]. intros Hsome. exfalso.
    destruct (click_listeners_at_most_one c Hok) as [Hc|Hc]; [done|].
    apply Hnot.
    assert (clickListener 0 ∈ clickListeners c) as Hin
      by (rewrite Hc; apply list_elem_of_here).
    by apply list_elem_of_filter in Hin as [_ ?].
Qed.

Lemma click_is_handled_once_witness :
  let c := play [DOMContentLoaded]
             (evaluate_script true (sample_host [1000; 1001; 1002] (Some ∅))) in
  let c' := occur (MouseClick sample_click) c in
  clickListeners c ≠ []
  ∧ ∃ tracker,
      instances c = [tracker]
      ∧ instances c' =
        [self (exec (handleClick sample_click)
                 {| self := tracker; host := contentHost c |})].
Proof.
  intros c c'.
  destruct (click_is_handled_once true (sample_host [1000; 1001; 1002] (Some ∅))
              [DOMContentLoaded] sample_click) as (_ & Hone).
  assert (clickListeners c ≠ []) as Hne by (vm_compute; discriminate).
  destruct (Hone Hne) as (tracker & Hi & Hi' & _).
  split; [exact Hne|]. exists tracker. split; [exact Hi|exact Hi'].
Defined.

(** Once there is a tracker whose click listener is gone, no event brings
    the listener back. *)
Lemma retired_stays c e :
  content_ok c →
  is_Some (clickTimerVar c) → clickListener 0 ∉ documentListeners c →
  is_Some (clickTimerVar (occur e c)) ∧ clickListener 0 ∉ documentListeners (occur e c).
Proof.
  intros Hok [i Hv] Hnot.
  assert (unloadListener 0 ∉ windowListeners c) as Hnu.
  { destruct Hok as (_ & _ & _ & _ & _ & Hiff & _). by rewrite <- Hiff. }
  destruct e.
  - rewrite (occur_dom_ready c Hok). unfold initializeClickTimer. rewrite Hv.
    by destruct (decide _).
  - rewrite (occur_load c Hok), Hv. done.
  - rewrite (occur_click event c Hok). by rewrite decide_False.
  - rewrite (occur_unload c Hok). by rewrite decide_False.
  - cbn [occur]. case_decide; [|done]. cbn.
    destruct (on_instance_frame instance loadPersistedData c) as (-> & -> & _).
    done.
Qed.

Lemma retired_forever events c :
  content_ok c →
  is_Some (clickTimerVar c) → clickListener 0 ∉ documentListeners c →
  clickListener 0 ∉ documentListeners (play events c).
Proof.
  revert c. induction events as [|e events IH]; intros c Hok Hv Hnot; [done|].
  cbn. destruct (retired_stays c e Hok Hv Hnot) as [Hv' Hnot'].
  apply IH; [by apply occur_ok|done|done].
Qed.

(** X9. Once the tracker exists, [cleanup] on [beforeunload] detaches the
    click listener for good: no click is handled on this page any more,
    whatever events follow.  It does not disable the tracker: the counters,
    [isEnabled] included, and the storage are as they were before the
    unload. *)
Theorem unload_detaches_without_disabling (loading : bool) (h : Host)
    (before after : list PageEvent) (event : Event) :
  let c0 := play before (evaluate_script loading h) in
  let c := occur BeforeUnload c0 in
  let c' := play after c in
  is_Some (clickTimerVar c0) →
  (core <$> instances c) = (core <$> instances c0)
  ∧ chromeStorage (contentHost c) = chromeStorage (contentHost c0)
  ∧ clickListeners c' = []
  ∧ occur (MouseClick event) c' = c'.
Proof.
  cbn zeta. intros Hv.
  assert (content_ok (play before (evaluate_script loading h))) as Hok
    by apply play_ok, evaluate_script_ok.
  set (c0 := play before _) in *.
  assert (content_ok (occur BeforeUnload c0)) as Hok1 by (by apply occur_ok).
  assert ((core <$> instances (occur BeforeUnload c0)) = (core <$> instances c0)
          ∧ chromeStorage (contentHost (occur BeforeUnload c0))
            = chromeStorage (contentHost c0)
          ∧ (clickListener 0 ∉ documentListeners (occur BeforeUnload c0))
          ∧ clickTimerVar (occur BeforeUnload c0) = clickTimerVar c0)
    as (Hcore & Hstore & Hgone & Hvar).
  { rewrite (occur_unload c0 Hok).
    destruct (decide (unloadListener 0 ∈ windowListeners c0)) as [Hin|Hnot].
    - unfold cleanup_instance, on_instance, removeEventListener.
      destruct (instances c0 !! 0%nat) as [tracker|] eqn:E; cbn.
      + split; [|split; [|split]].
        * destruct (instances c0) as [|t rest]; [done|].
          cbn in E. injection E as ->. cbn. f_equal. apply remove_core.
        * pose proof (remove_services {| self := tracker; host := contentHost c0 |}) as Hs.
          unfold services in Hs. by injection Hs.
        * intros [Hne _]%list_elem_of_filter. by apply Hne.
        * done.
      + repeat split.
        intros [Hne _]%list_elem_of_filter. by apply Hne.
    - repeat split.
      destruct Hok as (_ & _ & _ & _ & _ & Hiff & _). by rewrite Hiff. }
  split; [exact Hcore|]. split; [exact Hstore|].
  assert (clickListener 0 ∉ documentListeners (play after (occur BeforeUnload c0)))
    as Hnever.
  { apply retired_forever; [done|by rewrite Hvar|done]. }
  assert (content_ok (play after (occur BeforeUnload c0))) as Hok2 by (by apply play_ok).
  split.
  - destruct (click_listeners_at_most_one _ Hok2) as [Hc|Hc]; [done|].
    exfalso. apply Hnever.
    assert (clickListener 0 ∈ clickListeners (play after (occur BeforeUnload c0))) as Hin
      by (rewrite Hc; apply list_elem_of_here).
    by apply list_elem_of_filter in Hin as [_ ?].
  - rewrite (occur_click event _ Hok2). by rewrite decide_False.
Qed.

Lemma unload_detaches_without_disabling_witness :
  let h := sample_host [1000; 5000; 5001] (Some ∅) in
  let c0 := play [MouseClick sample_click] (evaluate_script false h) in
  let c := occur BeforeUnload c0 in
  let c' := play [WindowLoad; DOMContentLoaded] c in
  (core <$> instances c0) = [(Some 5000, 1%N, true)]
  ∧ (core <$> instances c) = [(Some 5000, 1%N, true)]
  ∧ clickListeners c' = []
  ∧ occur (MouseClick sample_click) c' = c'.
Proof.
  cbn zeta.
  assert ((core <$> instances
            (play [MouseClick sample_click]
               (evaluate_script false (sample_host [1000; 5000; 5001] (Some ∅)))))
          = [(Some 5000, 1%N, true)]) as Hbefore by (vm_compute; reflexivity).
  destruct (unload_detaches_without_disabling false
              (sample_host [1000; 5000; 5001] (Some ∅))
              [MouseClick sample_click] [WindowLoad; DOMContentLoaded] sample_click
              ltac:(vm_compute; by eexists))
    as (Hcore & _ & Hnone & Hignored).
  split; [exact Hbefore|]. split; [by rewrite Hcore|]. split; [exact Hnone|exact Hignored].
Defined.

(** The variable [clickTimer], once set, stays set. *)
Lemma clickTimerVar_stays e c :
  content_ok c → clickTimerVar c = Some 0%nat → clickTimerVar (occur e c) = Some 0%nat.
Proof.
  intros Hok Hv. destruct e.
  - rewrite (occur_dom_ready c Hok). unfold initializeClickTimer. rewrite Hv.
    by destruct (decide _).
  - by rewrite (occur_load c Hok), Hv.
  - rewrite (occur_click event c Hok). destruct (decide _); [|done].
    by destruct (on_instance_frame 0 (handleClick event) c) as (-> & _).
  - rewrite (occur_unload c Hok). destruct (decide _); [|done].
    unfold cleanup_instance. cbn.
    by destruct (on_instance_frame 0 cleanup c) as (-> & _).
  - cbn [occur]. case_decide; [|done]. cbn.
    by destruct (on_instance_frame instance loadPersistedData c) as (-> & _).
Qed.

Lemma clickTimerVar_stays_play events c :
  content_ok c → clickTimerVar c = Some 0%nat → clickTimerVar (play events c) = Some 0%nat.
Proof.
  revert c. induction events as [|e events IH]; intros c Hok Hv; [done|].
  cbn. apply IH; [by apply occur_ok|by apply clickTimerVar_stays].
Qed.

(** X10. The [load] fallback: whether the script ran early or late, and
    whether or not [DOMContentLoaded] ever came, once [load] has been
    dispatched there is a tracker; and a script that ran while the document
    was loading has none until [DOMContentLoaded] or [load] comes. *)
Theorem load_event_initialises (loading : bool) (h : Host)
    (before after : list PageEvent) :
  let c := play (before ++ (WindowLoad :: after)) (evaluate_script loading h) in
  (clickTimerVar c = Some 0%nat ∧ length (instances c) = 1%nat)
  ∧ (Forall (λ e, e ≠ DOMContentLoaded ∧ e ≠ WindowLoad) before →
     clickTimerVar (play before (evaluate_script true h)) = None).
Proof.
  cbn zeta. split.
  - unfold play. rewrite foldl_app. cbn [foldl].
    change (foldl _ ?c0 before) with (play before c0).
    change (foldl _ ?c0 after) with (play after c0).
    assert (content_ok (play before (evaluate_script loading h))) as Hok
      by apply play_ok, evaluate_script_ok.
    set (c0 := play before _) in *.
    assert (clickTimerVar (occur WindowLoad c0) = Some 0%nat) as Hv.
    { rewrite (occur_load c0 Hok).
      destruct Hok as (_ & _ & _ & _ & _ & _ & _ & Hi).
      destruct (clickTimerVar c0) as [i|] eqn:E.
      - destruct Hi as [-> _]. done.
      - unfold initializeClickTimer. rewrite E. cbn. by rewrite Hi. }
    assert (content_ok (play after (occur WindowLoad c0))) as Hok2
      by (by apply play_ok, occur_ok).
    assert (clickTimerVar (play after (occur WindowLoad c0)) = Some 0%nat) as Hv2
      by (apply clickTimerVar_stays_play; [by apply occur_ok|done]).
    split; [done|].
    destruct Hok2 as (_ & _ & _ & _ & _ & _ & _ & Hi). rewrite Hv2 in Hi. apply Hi.
  - intros Hnone.
    assert (∀ c, content_ok c → clickTimerVar c = None →
                 clickTimerVar (play before c) = None) as Hstays.
    { induction Hnone as [|e before [Hd Hl] _ IH]; intros c Hok Hv; [done|].
      cbn. apply IH; [by apply occur_ok|].
      assert (clickListener 0 ∉ documentListeners c) as Hnc.
      { destruct Hok as (_ & _ & _ & _ & _ & _ & Hset & _).
        intros Hin. apply Hset in Hin. congruence. }
      assert (unloadListener 0 ∉ windowListeners c) as Hnu.
      { destruct Hok as (_ & _ & _ & _ & _ & Hiff & _). by rewrite <- Hiff. }
      destruct e; try done.
      - rewrite (occur_click event c Hok). by rewrite decide_False.
      - rewrite (occur_unload c Hok). by rewrite decide_False.
      - cbn [occur]. case_decide; [|done]. cbn.
        by destruct (on_instance_frame instance loadPersistedData c) as (-> & _). }
    apply Hstays; [apply evaluate_script_ok|done].
Qed.

Lemma load_event_initialises_witness :
  let h := sample_host [1000; 1001; 1002] (Some ∅) in
  clickTimerVar (play [MouseClick sample_click; BeforeUnload] (evaluate_script true h))
  = None
  ∧ clickTimerVar (play [MouseClick sample_click; BeforeUnload; WindowLoad]
                     (evaluate_script true h)) = Some 0%nat.
Proof.
  intros h.
  destruct (load_event_initialises true h [MouseClick sample_click; BeforeUnload] [])
    as ((Hvar & _) & Hnone).
  split; [|exact Hvar].
  apply Hnone. repeat constructor; discriminate.
Defined.

(** * The popup *)

(** ** The session clock *)

Lemma padStart2_two_digits (n : Z) :
  0 ≤ n < 100 → String.length (padStart2 (pretty n)) = 2%nat.
Proof.
  intros Hn.
  assert (forallb (λ k, Nat.eqb (String.length (padStart2 (pretty (Z.of_nat k)))) 2)
            (seq 0 100) = true) as Hall by (vm_compute; reflexivity).
  rewrite forallb_forall in Hall.
  specialize (Hall (Z.to_nat n)).
  rewrite Z2Nat.id in Hall by lia.
  apply Nat.eqb_eq, Hall, in_seq. lia.
Qed.

Lemma length_append (s1 s2 : string) :
  String.length (s1 +:+ s2) = (String.length s1 + String.length s2)%nat.
Proof.
  induction s1 as [|a s1 IH]; [done|].
  change (String a s1 +:+ s2) with (String a (s1 +:+ s2)). cbn. by rewrite IH.
Qed.

(** X11. The session time.  With the clock at or after the start of the
    session, the text is minutes, a colon, seconds, each padded to two
    digits, where seconds is below 60 and [60 * minutes + seconds] is the
    number of whole seconds elapsed; minutes are not wrapped at an hour.
    Up to 99 minutes 59 seconds the text has exactly five characters. *)
Theorem sessionTime_format (start now : Z) :
  start ≤ now →
  let elapsed := (now - start) `div` 1000 in
  let minutes := elapsed `div` 60 in
  let seconds := elapsed `mod` 60 in
  sessionTime start now = padStart2 (pretty minutes) +:+ ":" +:+ padStart2 (pretty seconds)
  ∧ 0 ≤ seconds < 60
  ∧ 60 * minutes + seconds = elapsed
  ∧ 1000 * elapsed ≤ now - start < 1000 * elapsed + 1000
  ∧ (elapsed < 6000 → String.length (sessionTime start now) = 5%nat).
Proof.
  intros Hle elapsed minutes seconds.
  assert (0 ≤ elapsed) as He by (apply Z.div_pos; lia).
  assert (sessionTime start now
          = padStart2 (pretty minutes) +:+ ":" +:+ padStart2 (pretty seconds)) as Htext.
  { unfold sessionTime. fold elapsed. by rewrite Z.rem_mod_nonneg by lia. }
  assert (0 ≤ seconds < 60) as Hs by (apply Z.mod_pos_bound; lia).
  split; [exact Htext|]. split; [exact Hs|].
  split; [unfold minutes, seconds; pose proof (Z.div_mod elapsed 60); lia|].
  split.
  - unfold elapsed. pose proof (Z.div_mod (now - start) 1000).
    pose proof (Z.mod_pos_bound (now - start) 1000). lia.
  - intros Hlt. rewrite Htext, !length_append.
    rewrite !padStart2_two_digits; [done|lia|].
    unfold minutes. split; [apply Z.div_pos; lia|].
    apply Z.div_lt_upper_bound; lia.
Qed.

Lemma sessionTime_format_witness :
  sessionTime 1700000000000 1700003725999 = "62:05"
  ∧ String.length (sessionTime 1700000000000 1700003725999) = 5%nat.
Proof.
  destruct (sessionTime_format 1700000000000 1700003725999 ltac:(lia))
    as (Htext & _ & _ & _ & Hlen).
  split; [rewrite Htext; vm_compute; reflexivity|].
  apply Hlen. vm_compute. reflexivity.
Defined.

(** ** The popup's commands *)

Ltac popup_prim :=
  unfold updateUI, chrome_tabs_query, executeScript_command, executeScript_getStats,
    in_host, popup_warn, update_popup, this_popup, try_catch_p, throw_p, bind_p, ret_p,
    exec_p, completion_p in *.

Lemma executeInContentScript_eq cmd b :
  executeInContentScript cmd b =
  (Normal tt,
   if activeTab b
   then if scriptingWorks b then injected_command cmd b
        else add_popup_warning
               "[Click Timer Popup] Could not execute in content script:" b
   else b).
Proof.
  unfold executeInContentScript. popup_prim.
  destruct (activeTab b); cbn; [|done].
  by destruct (scriptingWorks b).
Qed.

(** What the injected function does when the popup reaches a tracker, and
    that it does nothing otherwise. *)
Lemma executeInContentScript_reaches cmd b tracker :
  reaches_tracker b = true → tabTracker b = Some tracker →
  exec_p (executeInContentScript cmd) b =
  injected_command cmd b.
Proof.
  unfold reaches_tracker. intros [[Ht Hs]%andb_true_iff _]%andb_true_iff _.
  unfold exec_p. by rewrite executeInContentScript_eq, Ht, Hs.
Qed.

Lemma executeInContentScript_unreached cmd b :
  reaches_tracker b = false →
  tabTracker (exec_p (executeInContentScript cmd) b) = tabTracker b
  ∧ tabHost (exec_p (executeInContentScript cmd) b) = tabHost b
  ∧ popup (exec_p (executeInContentScript cmd) b) = popup b.
Proof.
  unfold reaches_tracker, exec_p. rewrite executeInContentScript_eq.
  unfold injected_command.
  destruct b as [p ws [] proto [] [tracker|] h]; cbn;
    intros Hr; try discriminate Hr; done.
Qed.

Lemma handleToggle_eq b :
  handleToggle b =
  (Normal tt,
   let flipped := negb (Popup.isEnabled (popup b)) in
   exec_p (executeInContentScript (if flipped then "enable" else "disable"))
     (exec_p updateUI
        (set_popup (set_stats flipped (Popup.clickCount (popup b)) (popup b)) b))).
Proof.
  unfold handleToggle.
  unfold bind_p at 1 2 3, update_popup at 1, this_popup. cbn [fst snd].
  unfold updateUI at 1, update_popup at 1. cbn [fst snd popup set_popup].
  cbn [Popup.isEnabled set_elements set_stats].
  unfold exec_p.
  destruct (negb (Popup.isEnabled (popup b))) eqn:E; cbn zeta;
    rewrite !executeInContentScript_eq; done.
Qed.

(** X12. Toggling in the popup flips the popup's [isEnabled] and relabels
    the button; when the popup reaches a tracker in the active tab, that
    tracker ends up with the popup's new [isEnabled], whatever it had
    before, and keeps its [clickCount] and [lastClickTime]; when it does
    not (no tab, scripting refused, no tracker), tab and storage are left
    alone. *)
Theorem toggle_reaches_tracker (b : Browser) :
  let b' := exec_p handleToggle b in
  let enabled := negb (Popup.isEnabled (popup b)) in
  completion_p handleToggle b = Normal tt
  ∧ Popup.isEnabled (popup b') = enabled
  ∧ Popup.clickCount (popup b') = Popup.clickCount (popup b)
  ∧ Popup.toggleBtn_textContent (Popup.elements (popup b'))
    = (if enabled then "Disable" else "Enable")
  ∧ (reaches_tracker b = true →
     ∃ tracker tracker',
       tabTracker b = Some tracker ∧ tabTracker b' = Some tracker'
       ∧ core tracker' = (lastClickTime tracker, clickCount tracker, enabled))
  ∧ (reaches_tracker b = false →
     tabTracker b' = tabTracker b ∧ tabHost b' = tabHost b).
Proof.
  cbn zeta. unfold exec_p at 1 2 3 4 5 6, completion_p. rewrite handleToggle_eq.
  cbn [fst snd].
  set (flipped := negb (Popup.isEnabled (popup b))).
  set (b1 := exec_p updateUI _).
  assert (reaches_tracker b1 = reaches_tracker b ∧ tabTracker b1 = tabTracker b
          ∧ tabHost b1 = tabHost b
          ∧ Popup.isEnabled (popup b1) = flipped
          ∧ Popup.clickCount (popup b1) = Popup.clickCount (popup b)
          ∧ Popup.toggleBtn_textContent (Popup.elements (popup b1))
            = (if flipped then "Disable" else "Enable")) as (Hr & Ht & Hh & He & Hn & Hb).
  { unfold b1. popup_prim. cbn. done. }
  split; [done|].
  destruct (reaches_tracker b) eqn:Hreach.
  - assert (∃ tracker, tabTracker b = Some tracker) as [tracker Htr].
    { unfold reaches_tracker in Hreach. destruct (tabTracker b); [by eexists|].
      by rewrite andb_false_r in Hreach. }
    rewrite (executeInContentScript_reaches _ b1 tracker) by congruence.
    unfold injected_command. rewrite Ht, Htr, Hh.
    split; [done|]. split; [done|]. split; [done|]. split; [|done].
    intros _. exists tracker. eexists. split; [done|]. split; [reflexivity|].
    cbn [self set_tab tabTracker]. unfold flipped.
    destruct (negb (Popup.isEnabled (popup b))); cbn [String.eqb Ascii.eqb Bool.eqb].
    + unfold exec at 1. rewrite enable_eq. cbn [snd]. by rewrite save_self.
    + unfold exec at 1. rewrite disable_eq. cbn [snd]. rewrite save_self.
      by rewrite remove_core.
  - destruct (executeInContentScript_unreached
                (if flipped then "enable" else "disable") b1) as (Ht' & Hh' & Hp');
      [congruence|].
    rewrite Hp', Ht', Hh'. repeat split; done.
Qed.

Lemma toggle_reaches_tracker_witness :
  let b := {| popup := {| Popup.isEnabled := false; Popup.clickCount := 4;
                          Popup.lastInterval := None; Popup.sessionStartTime := 0;
                          Popup.elements :=
                            {| Popup.statusIndicator_className := "status-indicator inactive";
                               Popup.statusText := "Disabled - Click to enable";
                               Popup.clickCountText := "4";
                               Popup.lastIntervalText := "--";
                               Popup.sessionTimeText := "00:05";
                               Popup.toggleBtn_textContent := "Enable";
                               Popup.toggleBtn_className := "btn primary";
                               Popup.toggleBtn_disabled := false;
                               Popup.resetBtn_disabled := false |} |};
              popupWarnings := []; activeTab := true; tabProtocol := Some "https:";
              scriptingWorks := true;
              tabTracker := Some {| lastClickTime := Some 900; clickCount := 4;
                                    isEnabled := false; visualIndicator := None;
                                    indicatorTimeout := None; pageLoadTime := 100 |};
              tabHost := sample_host [5000; 5001; 5002] (Some ∅) |} in
  let b' := exec_p handleToggle b in
  Popup.isEnabled (popup b') = true
  ∧ Popup.toggleBtn_textContent (Popup.elements (popup b')) = "Disable"
  ∧ ∃ tracker', tabTracker b' = Some tracker' ∧ core tracker' = (Some 900, 4%N, true).
Proof.
  intros b b'.
  destruct (toggle_reaches_tracker b) as (_ & He & _ & Hb & Hreach & _).
  destruct (Hreach eq_refl) as (tracker & tracker' & Ht & Ht' & Hcore).
  split; [exact He|]. split; [exact Hb|].
  exists tracker'. split; [exact Ht'|].
  injection Ht as <-. exact Hcore.
Defined.

Lemma executeInContentScript_popup cmd b :
  popup (exec_p (executeInContentScript cmd) b) = popup b.
Proof.
  unfold exec_p. rewrite executeInContentScript_eq. unfold injected_command.
  destruct b as [p ws [] proto [] [tracker|] h]; done.
Qed.

Lemma handleReset_eq b :
  handleReset b =
  (Normal tt,
   let h := tabHost b in
   let now := clock h (ticks h) in
   let b1 := exec_p updateUI
               (set_tab (tabTracker b) (tick h)
                  (set_popup
                     (set_session None now
                        (set_stats (Popup.isEnabled (popup b)) 0 (popup b))) b)) in
   let b2 :=
     match chromeStorage h with
     | None => add_popup_warning "[Click Timer Popup] Could not clear storage:" b1
     | Some area =>
         if storageFault h (storageCalls h)
         then add_popup_warning "[Click Timer Popup] Could not clear storage:"
                (set_tab (tabTracker b) (count_storage_call (tick h)) b1)
         else set_tab (tabTracker b)
                (set_storage (Some (delete "clickTimerData" area))
                   (S (storageCalls h)) (tick h)) b1
     end in
   exec_p (executeInContentScript "reset") b2).
Proof.
  destruct b as [p ws tab proto works tracker [clk k area fault calls]].
  unfold handleReset, storage_remove. popup_prim.
  unfold Date_now, count_storage_call, bind, window, effect, throw, ret. cbn.
  destruct area as [area|]; cbn.
  all: try destruct (fault calls); cbn.
  all: match goal with
       | |- executeInContentScript _ ?x1 = (_, (executeInContentScript _ ?x2).2) =>
           change x1 with x2
       end.
  all: by rewrite executeInContentScript_eq.
Qed.

Lemma reset_persists w area :
  chromeStorage (host w) = Some area →
  storageFault (host w) (storageCalls (host w)) = false →
  chromeStorage (host (exec resetTimer w))
  = Some (<[storageKey :=
             snapshot (self (exec resetTimer w)) (clock (host w) (ticks (host w)))]> area).
Proof.
  intros Ha Hf. unfold exec at 1 2. rewrite resetTimer_eq. cbn [snd].
  set (w0 := exec removeVisualIndicator _).
  assert (services (host w0) = services (host w)) as Hs
    by exact (remove_services
                {| self := set_clickCount 0 (set_lastClickTime None (self w));
                   host := host w |}).
  unfold services in Hs. injection Hs as Hclk Htk Hst Hfa Hc _.
  destruct (save_persists w0 area) as (Hself & Hstore & _).
  - by rewrite Hst.
  - by rewrite Hfa, Hc.
  - by rewrite Hstore, Hself, Hclk, Htk.
Qed.

(** X13. Reset from the popup, on a working storage.  The popup clears its
    own count and interval and restarts its session clock.  When it reaches
    a tracker in the active tab, that tracker is reset and the storage ends
    up holding the tracker's cleared state, its [isEnabled] included.  When
    it reaches none, the record is gone from the storage altogether, so the
    next page starts from the defaults: enabled, whatever was stored. *)
Theorem popup_reset (b : Browser) (area : gmap string Persisted.t) :
  chromeStorage (tabHost b) = Some area →
  storageFault (tabHost b) (storageCalls (tabHost b)) = false →
  storageFault (tabHost b) (S (storageCalls (tabHost b))) = false →
  let b' := exec_p handleReset b in
  let now := clock (tabHost b) (ticks (tabHost b)) in
  (Popup.clickCount (popup b') = 0%N
   ∧ Popup.lastInterval (popup b') = None
   ∧ Popup.sessionStartTime (popup b') = now
   ∧ Popup.isEnabled (popup b') = Popup.isEnabled (popup b)
   ∧ Popup.clickCountText (Popup.elements (popup b')) = "0"
   ∧ Popup.lastIntervalText (Popup.elements (popup b')) = "--")
  ∧ (reaches_tracker b = true →
     ∃ tracker tracker',
       tabTracker b = Some tracker ∧ tabTracker b' = Some tracker'
       ∧ core tracker' = (None, 0%N, isEnabled tracker)
       ∧ chromeStorage (tabHost b')
         = Some (<[storageKey :=
                    snapshot tracker' (clock (tabHost b) (S (ticks (tabHost b))))]> area))
  ∧ (reaches_tracker b = false →
     tabTracker b' = tabTracker b
     ∧ chromeStorage (tabHost b') = Some (delete storageKey area)
     ∧ core (self (exec loadPersistedData (constructor (navigate (tabHost b')))))
       = (None, 0%N, true)).
Proof.
  intros Ha Hf Hf'. cbn zeta.
  unfold exec_p at 1 2 3 4 5 6 7 8 9 10 11. rewrite handleReset_eq. cbn [snd]. cbn zeta.
  rewrite Ha, Hf.
  set (h3 := set_storage _ _ _).
  set (b1 := exec_p updateUI _).
  set (b2 := set_tab (tabTracker b) h3 b1).
  assert (popup b2 = popup b1 ∧ tabTracker b2 = tabTracker b ∧ tabHost b2 = h3
          ∧ reaches_tracker b2 = reaches_tracker b) as (Hp & Ht & Hh & Hr).
  { unfold b2, b1. popup_prim. done. }
  rewrite executeInContentScript_popup, Hp.
  split.
  { unfold b1. popup_prim. cbn. done. }
  destruct (reaches_tracker b) eqn:Hreach; split; try (intros Hx; discriminate Hx);
    intros _.
  - assert (∃ tracker, tabTracker b = Some tracker) as [tracker Htr].
    { unfold reaches_tracker in Hreach. destruct (tabTracker b); [by eexists|].
      by rewrite andb_false_r in Hreach. }
    rewrite (executeInContentScript_reaches _ b2 tracker) by congruence.
    unfold injected_command. rewrite Ht, Htr, Hh. cbn [String.eqb Ascii.eqb Bool.eqb].
    cbn [set_tab tabTracker tabHost].
    exists tracker. eexists. split; [done|]. split; [reflexivity|].
    split; [apply reset_core|].
    rewrite (reset_persists {| self := tracker; host := h3 |} (delete storageKey area));
      [|done|exact Hf'].
    by rewrite insert_delete_eq.
  - destruct (executeInContentScript_unreached "reset" b2) as (Ht' & Hh' & _);
      [congruence|].
    rewrite Ht', Hh', Ht, Hh. split; [done|]. split; [done|].
    unfold exec. rewrite loadPersistedData_eq. cbn.
    rewrite Hf'. by rewrite lookup_delete_eq.
Qed.

Lemma popup_reset_witness :
  let b := {| popup := {| Popup.isEnabled := false; Popup.clickCount := 4;
                          Popup.lastInterval := None; Popup.sessionStartTime := 0;
                          Popup.elements :=
                            {| Popup.statusIndicator_className := "status-indicator inactive";
                               Popup.statusText := "Disabled - Click to enable";
                               Popup.clickCountText := "4";
                               Popup.lastIntervalText := "--";
                               Popup.sessionTimeText := "00:05";
                               Popup.toggleBtn_textContent := "Enable";
                               Popup.toggleBtn_className := "btn primary";
                               Popup.toggleBtn_disabled := false;
                               Popup.resetBtn_disabled := false |} |};
              popupWarnings := []; activeTab := true; tabProtocol := Some "https:";
              scriptingWorks := true;
              tabTracker := Some {| lastClickTime := Some 900; clickCount := 4;
                                    isEnabled := false; visualIndicator := None;
                                    indicatorTimeout := None; pageLoadTime := 100 |};
              tabHost := sample_host [5000; 5001; 5002] (Some ∅) |} in
  let b' := exec_p handleReset b in
  Popup.clickCount (popup b') = 0%N
  ∧ Popup.sessionStartTime (popup b') = 5000
  ∧ ∃ tracker',
      tabTracker b' = Some tracker'
      ∧ core tracker' = (None, 0%N, false)
      ∧ chromeStorage (tabHost b') = Some {[ storageKey := snapshot tracker' 5001 ]}.
Proof.
  intros b b'.
  destruct (popup_reset b ∅ eq_refl eq_refl eq_refl)
    as ((Hc & _ & Hs & _) & Hreach & _).
  destruct (Hreach eq_refl) as (tracker & tracker' & Ht & Ht' & Hcore & Hst).
  split; [exact Hc|]. split; [exact Hs|].
  exists tracker'. split; [exact Ht'|].
  injection Ht as <-. split; [exact Hcore|exact Hst].
Defined.

(** ** What the popup shows *)

(** X14. Where the popup takes its statistics from, on a working storage:
    from the tracker of the active tab when it reaches one, otherwise from
    the persisted record (missing fields count as enabled and zero),
    otherwise it keeps what it has.  When scripting is refused on the active
    tab, a warning is logged.  Neither the tracker nor the stored records
    change. *)
Theorem popup_stats_precedence (b : Browser) (area : gmap string Persisted.t) :
  chromeStorage (tabHost b) = Some area →
  storageFault (tabHost b) (storageCalls (tabHost b)) = false →
  let b' := exec_p getCurrentTabStats b in
  (Popup.isEnabled (popup b'), Popup.clickCount (popup b'))
  = match (if reaches_tracker b then tabTracker b else None), area !! storageKey with
    | Some tracker, _ => (isEnabled tracker, clickCount tracker)
    | None, Some data =>
        (JS.if_defined (Persisted.isEnabled data) true,
         JS.or_defaultN (Persisted.clickCount data) 0)
    | None, None => (Popup.isEnabled (popup b), Popup.clickCount (popup b))
    end
  ∧ popupWarnings b'
    = popupWarnings b
      ++ (if activeTab b && negb (scriptingWorks b)
          then ["[Click Timer Popup] Could not get stats:"] else [])
  ∧ tabTracker b' = tabTracker b
  ∧ chromeStorage (tabHost b') = Some area.
Proof.
  destruct b as [p ws tab proto works tracker [clk k st fault calls]].
  cbn [tabHost chromeStorage storageFault storageCalls]. intros -> Hf. cbn zeta.
  unfold getCurrentTabStats, storage_get, reaches_tracker. popup_prim.
  unfold count_storage_call, bind, window, effect, throw, ret. cbn.
  rewrite Hf. cbn.
  destruct (area !! "clickTimerData") as [data|] eqn:Hd; cbn;
    change storageKey with "clickTimerData"; rewrite ?Hd;
    destruct tab, works, tracker as [tracker|]; cbn;
    rewrite ?app_nil_r; try done.
  all: by destruct (N.eqb_spec (clickCount tracker) 0) as [->|].
Qed.

Lemma popup_stats_precedence_witness :
  let b := {| popup := {| Popup.isEnabled := true; Popup.clickCount := 0;
                          Popup.lastInterval := None; Popup.sessionStartTime := 0;
                          Popup.elements :=
                            {| Popup.statusIndicator_className := "";
                               Popup.statusText := ""; Popup.clickCountText := "";
                               Popup.lastIntervalText := ""; Popup.sessionTimeText := "";
                               Popup.toggleBtn_textContent := "";
                               Popup.toggleBtn_className := "";
                               Popup.toggleBtn_disabled := false;
                               Popup.resetBtn_disabled := false |} |};
              popupWarnings := []; activeTab := true; tabProtocol := Some "chrome:";
              scriptingWorks := false;
              tabTracker := None;
              tabHost := sample_host [5000]
                           (Some {[ storageKey :=
                                      {| Persisted.lastClickTime := Some 900;
                                         Persisted.clickCount := Some 4%N;
                                         Persisted.isEnabled := Some false;
                                         Persisted.timestamp := Some 950 |} ]}) |} in
  let b' := exec_p getCurrentTabStats b in
  (Popup.isEnabled (popup b'), Popup.clickCount (popup b')) = (false, 4%N)
  ∧ popupWarnings b' = ["[Click Timer Popup] Could not get stats:"].
Proof.
  intros b b'.
  destruct (popup_stats_precedence b _ eq_refl eq_refl) as (Hs & Hw & _).
  split; [exact Hs|exact Hw].
Defined.

(** X15. When the storage cannot deliver the record, the popup gives up on
    the whole refresh: it logs one warning, keeps the statistics it had and
    does not ask the tracker of the tab either, reachable or not. *)
Theorem popup_stats_need_storage (b : Browser) :
  load_fails (tabHost b) →
  let b' := exec_p getCurrentTabStats b in
  popup b' = popup b
  ∧ popupWarnings b' = popupWarnings b ++ ["[Click Timer Popup] Could not get stats:"]
  ∧ tabTracker b' = tabTracker b
  ∧ chromeStorage (tabHost b') = chromeStorage (tabHost b)
  ∧ completion_p getCurrentTabStats b = Normal tt.
Proof.
  destruct b as [p ws tab proto works tracker [clk k st fault calls]].
  unfold load_fails. cbn [tabHost chromeStorage storageFault storageCalls].
  intros Hfail. cbn zeta.
  unfold getCurrentTabStats, storage_get. popup_prim.
  unfold count_storage_call, bind, window, effect, throw, ret. cbn.
  destruct st as [area|]; cbn; [|done].
  destruct Hfail as [Hfail|Hfail]; [done|]. by rewrite Hfail.
Qed.

Lemma popup_stats_need_storage_witness :
  let b := {| popup := {| Popup.isEnabled := true; Popup.clickCount := 0;
                          Popup.lastInterval := None; Popup.sessionStartTime := 0;
                          Popup.elements :=
                            {| Popup.statusIndicator_className := "";
                               Popup.statusText := ""; Popup.clickCountText := "";
                               Popup.lastIntervalText := ""; Popup.sessionTimeText := "";
                               Popup.toggleBtn_textContent := "";
                               Popup.toggleBtn_className := "";
                               Popup.toggleBtn_disabled := false;
                               Popup.resetBtn_disabled := false |} |};
              popupWarnings := []; activeTab := true; tabProtocol := Some "https:";
              scriptingWorks := true;
              tabTracker := Some {| lastClickTime := Some 900; clickCount := 4;
                                    isEnabled := false; visualIndicator := None;
                                    indicatorTimeout := None; pageLoadTime := 100 |};
              tabHost := sample_host [5000] None |} in
  let b' := exec_p getCurrentTabStats b in
  (Popup.isEnabled (popup b'), Popup.clickCount (popup b')) = (true, 0%N)
  ∧ popupWarnings b' = ["[Click Timer Popup] Could not get stats:"].
Proof.
  intros b b'.
  destruct (popup_stats_need_storage b (or_introl eq_refl)) as (Hp & Hw & _).
  split; [|exact Hw]. unfold b'. by rewrite Hp.
Defined.

(** ** The popup while it is open *)

Lemma updateUI_ok b :
  Popup.lastInterval (popup b) = None → popup_ok (popup (exec_p updateUI b)).
Proof.
  intros Hn. unfold popup_ok. popup_prim. cbn. by rewrite Hn.
Qed.

Lemma updateSessionTime_frame b :
  let b' := exec_p updateSessionTime b in
  activeTab b' = activeTab b ∧ tabProtocol b' = tabProtocol b
  ∧ tabTracker b' = tabTracker b
  ∧ Popup.toggleBtn_disabled (Popup.elements (popup b'))
    = Popup.toggleBtn_disabled (Popup.elements (popup b))
  ∧ Popup.resetBtn_disabled (Popup.elements (popup b'))
    = Popup.resetBtn_disabled (Popup.elements (popup b))
  ∧ (popup_ok (popup b) → popup_ok (popup b')).
Proof.
  unfold updateSessionTime, popup_ok. popup_prim. done.
Qed.

Lemma getCurrentTabStats_frame b :
  let b' := exec_p getCurrentTabStats b in
  activeTab b' = activeTab b ∧ tabProtocol b' = tabProtocol b
  ∧ Popup.toggleBtn_disabled (Popup.elements (popup b'))
    = Popup.toggleBtn_disabled (Popup.elements (popup b))
  ∧ Popup.resetBtn_disabled (Popup.elements (popup b'))
    = Popup.resetBtn_disabled (Popup.elements (popup b))
  ∧ (popup_ok (popup b) → popup_ok (popup b')).
Proof.
  destruct b as [p ws tab proto works tracker [clk k st fault calls]].
  unfold getCurrentTabStats, storage_get, popup_ok. popup_prim.
  unfold count_storage_call, bind, window, effect, throw, ret. cbn.
  destruct st as [area|]; cbn; [|done].
  destruct (fault calls); cbn; [done|].
  destruct (area !! "clickTimerData") as [data|]; cbn;
    destruct tab, works, tracker as [tracker|]; cbn;
    intuition (try congruence).
  all: by match goal with H : Popup.lastInterval _ = None |- _ => rewrite H end.
Qed.

Lemma checkExtensionStatus_eq b :
  exec_p checkExtensionStatus b =
  if activeTab b
  then match tabProtocol b with
       | Some protocol =>
           if bool_decide (protocol ∈ ["http:"; "https:"])
           then set_popup (set_disabled None false (popup b)) b
           else set_popup
                  (set_disabled
                     (Some ("Not available on this page", "status-indicator inactive"))
                     true (popup b)) b
       | None =>
           add_popup_warning "[Click Timer Popup] Error checking extension status:" b
       end
  else b.
Proof.
  unfold checkExtensionStatus. popup_prim.
  destruct (activeTab b); cbn; [|done].
  destruct (tabProtocol b) as [protocol|]; cbn; [|done].
  by destruct (bool_decide _).
Qed.

Lemma checkExtensionStatus_ok b :
  popup_ok (popup b) → popup_ok (popup (exec_p checkExtensionStatus b)).
Proof.
  rewrite checkExtensionStatus_eq.
  destruct (activeTab b); [|done].
  destruct (tabProtocol b) as [protocol|]; [|done].
  by destruct (bool_decide _).
Qed.

Lemma handleReset_popup b :
  popup (exec_p handleReset b)
  = popup (exec_p updateUI
             (set_popup
                (set_session None (clock (tabHost b) (ticks (tabHost b)))
                   (set_stats (Popup.isEnabled (popup b)) 0 (popup b))) b)).
Proof.
  unfold exec_p at 1. rewrite handleReset_eq. cbn [snd]. cbn zeta.
  rewrite executeInContentScript_popup.
  destruct (chromeStorage (tabHost b)); [|done].
  by destruct (storageFault _ _).
Qed.

Lemma handleToggle_popup b :
  popup (exec_p handleToggle b)
  = popup (exec_p updateUI
             (set_popup
                (set_stats (negb (Popup.isEnabled (popup b)))
                   (Popup.clickCount (popup b)) (popup b)) b)).
Proof.
  unfold exec_p at 1. rewrite handleToggle_eq. cbn [snd]. cbn zeta.
  by rewrite executeInContentScript_popup.
Qed.

Lemma popup_occur_ok ev b :
  popup_ok (popup b) → popup_ok (popup (exec_p (popup_occur ev) b)).
Proof.
  intros Hok. destruct ev as [| | |op]; cbn [popup_occur].
  - unfold exec_p, bind_p, this_popup. cbn [fst snd].
    destruct (Popup.resetBtn_disabled _); [done|].
    fold (exec_p handleReset b). rewrite handleReset_popup.
    by apply updateUI_ok.
  - unfold exec_p, bind_p, this_popup. cbn [fst snd].
    destruct (Popup.toggleBtn_disabled _); [done|].
    fold (exec_p handleToggle b). rewrite handleToggle_popup.
    apply updateUI_ok. cbn. apply Hok.
  - by apply updateSessionTime_frame.
  - unfold exec_p. by destruct (tabTracker b).
Qed.

Lemma popup_play_ok events b :
  popup_ok (popup b) → popup_ok (popup (popup_play events b)).
Proof.
  revert b. induction events as [|ev events IH]; intros b Hok; [done|].
  cbn. apply IH. by apply popup_occur_ok.
Qed.

Lemma newEnhancedPopupController_eq html b :
  exec_p (newEnhancedPopupController html) b =
  exec_p checkExtensionStatus
    (exec_p getCurrentTabStats
       (exec_p updateSessionTime
          (exec_p updateUI
             (set_tab (tabTracker b) (tick (tabHost b))
                (set_popup
                   {| Popup.isEnabled := true; Popup.clickCount := 0;
                      Popup.lastInterval := None;
                      Popup.sessionStartTime := clock (tabHost b) (ticks (tabHost b));
                      Popup.elements := html |} b))))).
Proof.
  unfold newEnhancedPopupController.
  unfold exec_p, bind_p at 1 2 3 4 5, in_host at 1, update_popup at 1, updateUI at 1,
    update_popup at 1.
  unfold Date_now, bind, window, effect, ret. cbn [fst snd self host].
  unfold updateSessionTime at 1.
  unfold bind_p at 1, in_host at 1, update_popup at 1.
  unfold Date_now, bind, window, effect, ret. cbn [fst snd self host].
  destruct (getCurrentTabStats _) as [[[]|e] b3] eqn:E3; [done|].
  exfalso. revert E3. unfold getCurrentTabStats, try_catch_p, popup_warn.
  by destruct (bind_p _ _ _) as [[[]|?] ?].
Qed.

(** X16. From its construction on, through button clicks, timer ticks and
    whatever the tab does, the popup shows the count and the toggle label of
    its own fields, and never an interval: apart from the message listener,
    which nothing in the repository sends to, nothing assigns
    [lastInterval], so that line always reads "--". *)
Theorem popup_shows_its_fields (html : Popup.Elements) (b : Browser)
    (events : list PopupEvent) :
  let b' := popup_play events (exec_p (newEnhancedPopupController html) b) in
  let e := Popup.elements (popup b') in
  Popup.lastInterval (popup b') = None
  ∧ Popup.lastIntervalText e = "--"
  ∧ Popup.clickCountText e = pretty (Popup.clickCount (popup b'))
  ∧ Popup.toggleBtn_textContent e
    = (if Popup.isEnabled (popup b') then "Disable" else "Enable")
  ∧ Popup.toggleBtn_className e
    = (if Popup.isEnabled (popup b') then "btn secondary" else "btn primary").
Proof.
  cbn zeta. apply popup_play_ok. rewrite newEnhancedPopupController_eq.
  apply checkExtensionStatus_ok, getCurrentTabStats_frame, updateSessionTime_frame.
  by apply updateUI_ok.
Qed.

Lemma disabled_buttons_stay ev b :
  Popup.toggleBtn_disabled (Popup.elements (popup b)) = true →
  Popup.resetBtn_disabled (Popup.elements (popup b)) = true →
  let b' := exec_p (popup_occur ev) b in
  Popup.toggleBtn_disabled (Popup.elements (popup b')) = true
  ∧ Popup.resetBtn_disabled (Popup.elements (popup b')) = true
  ∧ (presses_button ev = true → b' = b).
Proof.
  intros Ht Hr. destruct ev as [| | |op]; cbn [popup_occur presses_button]; cbn zeta.
  - unfold exec_p, bind_p, this_popup. cbn [fst snd]. by rewrite Hr.
  - unfold exec_p, bind_p, this_popup. cbn [fst snd]. by rewrite Ht.
  - destruct (updateSessionTime_frame b) as (_ & _ & _ & -> & -> & _). done.
  - unfold exec_p. by destruct (tabTracker b).
Qed.

(** X17. The popup's two buttons on a tab whose URL it can read: its
    construction leaves both disabled exactly when the protocol is neither
    [http:] nor [https:].  From then on they stay disabled, and as a
    disabled button dispatches no click, the popup can neither reset nor
    toggle: any run of events ends as it would without the button clicks. *)
Theorem buttons_follow_protocol (html : Popup.Elements) (b : Browser)
    (protocol : string) (events : list PopupEvent) :
  activeTab b = true →
  tabProtocol b = Some protocol →
  let b1 := exec_p (newEnhancedPopupController html) b in
  let disabled := negb (bool_decide (protocol ∈ ["http:"; "https:"])) in
  Popup.toggleBtn_disabled (Popup.elements (popup b1)) = disabled
  ∧ Popup.resetBtn_disabled (Popup.elements (popup b1)) = disabled
  ∧ (disabled = true →
     popup_play events b1
     = popup_play (filter (λ ev, presses_button ev = false) events) b1).
Proof.
  intros Htab Hproto. cbn zeta. rewrite newEnhancedPopupController_eq.
  set (b0 := exec_p updateUI _).
  assert (activeTab b0 = true ∧ tabProtocol b0 = Some protocol) as (Ha0 & Hp0).
  { unfold b0. popup_prim. done. }
  destruct (updateSessionTime_frame b0) as (Ha1 & Hp1 & _).
  destruct (getCurrentTabStats_frame (exec_p updateSessionTime b0)) as (Ha2 & Hp2 & _).
  set (b2 := exec_p getCurrentTabStats _) in *.
  rewrite checkExtensionStatus_eq.
  rewrite Ha2, Ha1, Ha0, Hp2, Hp1, Hp0.
  destruct (bool_decide (protocol ∈ ["http:"; "https:"])); cbn [negb].
  { split; [done|]. split; [done|]. intros Hx. discriminate Hx. }
  split; [done|]. split; [done|]. intros _.
  set (b3 := set_popup _ b2).
  assert (Popup.toggleBtn_disabled (Popup.elements (popup b3)) = true
          ∧ Popup.resetBtn_disabled (Popup.elements (popup b3)) = true) as Hd by done.
  clearbody b3. clear -Hd. revert b3 Hd.
  induction events as [|ev events IH]; intros b3 (Ht & Hr); [done|].
  destruct (disabled_buttons_stay ev b3 Ht Hr) as (Ht' & Hr' & Hsame).
  cbn [popup_play foldl]. fold (popup_play events (exec_p (popup_occur ev) b3)).
  destruct (presses_button ev) eqn:Hb.
  - rewrite (Hsame eq_refl). rewrite filter_cons_False by (rewrite Hb; discriminate).
    by apply IH.
  - rewrite filter_cons_True by exact Hb.
    cbn [popup_play foldl].
    fold (popup_play (filter (λ ev, presses_button ev = false) events)
            (exec_p (popup_occur ev) b3)).
    by apply IH.
Qed.

Lemma buttons_follow_protocol_witness :
  let html := {| Popup.statusIndicator_className := "status-indicator";
                 Popup.statusText := "Loading..."; Popup.clickCountText := "0";
                 Popup.lastIntervalText := "--"; Popup.sessionTimeText := "00:00";
                 Popup.toggleBtn_textContent := "Disable";
                 Popup.toggleBtn_className := "btn secondary";
                 Popup.toggleBtn_disabled := false;
                 Popup.resetBtn_disabled := false |} in
  let b := {| popup := {| Popup.isEnabled := true; Popup.clickCount := 0;
                          Popup.lastInterval := None; Popup.sessionStartTime := 0;
                          Popup.elements := html |};
              popupWarnings := []; activeTab := true; tabProtocol := Some "chrome:";
              scriptingWorks := false; tabTracker := None;
              tabHost := sample_host [5000; 5001]
                           (Some {[ storageKey :=
                                      {| Persisted.lastClickTime := Some 900;
                                         Persisted.clickCount := Some 4%N;
                                         Persisted.isEnabled := Some false;
                                         Persisted.timestamp := Some 950 |} ]}) |} in
  let b1 := exec_p (newEnhancedPopupController html) b in
  Popup.resetBtn_disabled (Popup.elements (popup b1)) = true
  ∧ popup_play [ResetClicked; SessionTimerFires; ToggleClicked] b1
    = popup_play [SessionTimerFires] b1.
Proof.
  intros html b b1.
  destruct (buttons_follow_protocol html b "chrome:"
              [ResetClicked; SessionTimerFires; ToggleClicked] eq_refl eq_refl)
    as (_ & Hr & Hplay).
  split; [exact Hr|]. exact (Hplay eq_refl).
Defined.

(** ** Popup and tracker together *)









